(** * KafkaOS: a shallow embedding of the verification and mandate engine

    The Python sources (kos_core, kos_auth, kos_bureaucracy, kos_shutdown,
    kos_fs, kos_proc, kos_status, kos_utility, kos_config) are translated
    into a state-and-exception monad over an explicit world: the shared
    [os_state] dictionary, the pending lines of standard input, the random
    and uuid sources, the monotonic clock and the wall clock, and the trace
    of observable effects (log lines, prints, audit forwardings, sleeps). *)

From Stdlib Require Import ZArith Zdivisibility QArith Qround Lia Lqa Ascii String.
From stdpp Require Import base list gmap strings.

Open Scope string_scope.

(* ------------------------------------------------------------------ *)
(** ** Python values and the session state *)

(** Values held in the argument dictionary built by [parse_args]. *)
Inductive pyval :=
  | VTrue
  | VStr (s : string).

#[global] Instance pyval_eq_dec : EqDecision pyval.
Proof. solve_decision. Defined.

(** [os_state] of kos_core.py ([utils] is modelled by the calling
    convention of [call_check_time_limit] below). *)
Record os_state := mk_os_state {
  user_id : option string;
  is_authenticated : bool;
  session_start_time : Q;
  pending_reviews : Z;
  current_directory : string;
  last_command_ref : option string
}.

Definition initial_os_state : os_state := {|
  user_id := None;
  is_authenticated := false;
  session_start_time := 0;
  pending_reviews := 0;
  current_directory := "/home/user";
  last_command_ref := None |}.

(** The fields of [datetime.datetime.now()] the code reads. *)
Record walltime := mk_walltime {
  wt_minute : Z;
  wt_second : Z;
  wt_weekday : Z
}.

(** Observable effects. *)
Inductive event :=
  | EvLog (level msg : string)
  | EvPrint (msg : string)
  | EvPrompt (prompt : string)
  | EvForward (entity_key context_ref : string)
  | EvSleep (secs : Q).

Record world := mk_world {
  st : os_state;
  inputs : list (Q * string);   (** (seconds the user takes, line typed) *)
  rng : nat -> Q;               (** successive [random.random()] draws *)
  rng_pos : nat;
  uuids : nat -> string;        (** successive [str(uuid.uuid4()).upper()] *)
  uuid_pos : nat;
  mono : Q;                     (** [time.monotonic()] *)
  wall : Q -> walltime;         (** [datetime.datetime.now()] at a monotonic instant *)
  trace : list event
}.

Definition set_st (s : os_state) (w : world) : world :=
  mk_world s (inputs w) (rng w) (rng_pos w) (uuids w) (uuid_pos w) (mono w) (wall w) (trace w).
Definition set_inputs (l : list (Q * string)) (w : world) : world :=
  mk_world (st w) l (rng w) (rng_pos w) (uuids w) (uuid_pos w) (mono w) (wall w) (trace w).
Definition set_rng_pos (n : nat) (w : world) : world :=
  mk_world (st w) (inputs w) (rng w) n (uuids w) (uuid_pos w) (mono w) (wall w) (trace w).
Definition set_uuid_pos (n : nat) (w : world) : world :=
  mk_world (st w) (inputs w) (rng w) (rng_pos w) (uuids w) n (mono w) (wall w) (trace w).
Definition set_mono (t : Q) (w : world) : world :=
  mk_world (st w) (inputs w) (rng w) (rng_pos w) (uuids w) (uuid_pos w) t (wall w) (trace w).
Definition add_event (e : event) (w : world) : world :=
  mk_world (st w) (inputs w) (rng w) (rng_pos w) (uuids w) (uuid_pos w) (mono w) (wall w) (trace w ++ [e]).

Definition with_user_id (v : option string) (s : os_state) : os_state :=
  mk_os_state v (is_authenticated s) (session_start_time s) (pending_reviews s)
    (current_directory s) (last_command_ref s).
Definition with_is_authenticated (b : bool) (s : os_state) : os_state :=
  mk_os_state (user_id s) b (session_start_time s) (pending_reviews s)
    (current_directory s) (last_command_ref s).
Definition with_session_start_time (t : Q) (s : os_state) : os_state :=
  mk_os_state (user_id s) (is_authenticated s) t (pending_reviews s)
    (current_directory s) (last_command_ref s).
Definition with_pending_reviews (n : Z) (s : os_state) : os_state :=
  mk_os_state (user_id s) (is_authenticated s) (session_start_time s) n
    (current_directory s) (last_command_ref s).
Definition with_last_command_ref (r : option string) (s : os_state) : os_state :=
  mk_os_state (user_id s) (is_authenticated s) (session_start_time s) (pending_reviews s)
    (current_directory s) r.

(* ------------------------------------------------------------------ *)
(** ** The monad: state passing with Python exceptions and [sys.exit] *)

Inductive exn :=
  | TypeError
  | NameError.

Inductive outcome (A : Type) :=
  | Ret (a : A)
  | Raise (e : exn)
  | Exit (code : Z).
Arguments Ret {A} a.
Arguments Raise {A} e.
Arguments Exit {A} code.

Definition M (A : Type) : Type := world -> outcome A * world.

#[global] Instance M_ret : MRet M := fun A a w => (Ret a, w).
#[global] Instance M_bind : MBind M := fun A B f m w =>
  match m w with
  | (Ret a, w') => f a w'
  | (Raise e, w') => (Raise e, w')
  | (Exit c, w') => (Exit c, w')
  end.

Definition get : M world := fun w => (Ret w, w).
Definition modify (f : world -> world) : M unit := fun w => (Ret tt, f w).
Definition modify_st (f : os_state -> os_state) : M unit :=
  modify (fun w => set_st (f (st w)) w).
Definition raise {A} (e : exn) : M A := fun w => (Raise e, w).
(** [sys.exit(code)]: [SystemExit] is not an [Exception], so only the
    top level sees it. *)
Definition sys_exit {A} (code : Z) : M A := fun w => (Exit code, w).
(** [try: m except Exception: h] *)
Definition try_except {A} (m : M A) (h : exn -> M A) : M A := fun w =>
  match m w with
  | (Raise e, w') => h e w'
  | r => r
  end.

(** [try: m except SystemExit as e: hx(e.code) except Exception: h] *)
Definition try_except_exit {A} (m : M A) (hx : Z -> M A) (h : exn -> M A) : M A := fun w =>
  match m w with
  | (Exit c, w') => hx c w'
  | (Raise e, w') => h e w'
  | r => r
  end.

(** [try: m finally: fin] *)
Definition try_finally {A} (m : M A) (fin : M unit) : M A := fun w =>
  let '(o, w') := m w in
  match fin w' with
  | (Ret _, w'') => (o, w'')
  | (Raise e, w'') => (Raise e, w'')
  | (Exit c, w'') => (Exit c, w'')
  end.

Definition emit (e : event) : M unit := modify (add_event e).
Definition py_print (s : string) : M unit := emit (EvPrint s).

(* ------------------------------------------------------------------ *)
(** ** Strings as the code uses them *)

Definition Qlt_b (x y : Q) : bool := negb (Qle_bool y x).

Definition py_startswith (p s : string) : bool := String.prefix p s.

Definition py_slice_to (n : nat) (s : string) : string := String.substring 0 n s.
Definition py_slice_from (n : nat) (s : string) : string :=
  String.substring n (String.length s - n) s.

Definition is_py_space (c : ascii) : bool :=
  let n := Ascii.nat_of_ascii c in
  (Nat.leb 9 n && Nat.leb n 13) || (Nat.leb 28 n && Nat.leb n 32).

Fixpoint lstrip (s : string) : string :=
  match s with
  | String c s' => if is_py_space c then lstrip s' else s
  | EmptyString => EmptyString
  end.

Fixpoint string_rev (s : string) (acc : string) : string :=
  match s with
  | String c s' => string_rev s' (String c acc)
  | EmptyString => acc
  end.

(** [str.strip()] *)
Definition py_strip (s : string) : string :=
  string_rev (lstrip (string_rev (lstrip s) EmptyString)) EmptyString.

(** [str.split()]: split on runs of whitespace, no empty fields. *)
Fixpoint split_ws_aux (s : string) (cur : string) : list string :=
  match s with
  | EmptyString => if String.eqb cur "" then [] else [string_rev cur ""]
  | String c s' =>
      if is_py_space c
      then (if String.eqb cur "" then [] else [string_rev cur ""]) ++ split_ws_aux s' ""
      else split_ws_aux s' (String c cur)
  end.
Definition py_split (s : string) : list string := split_ws_aux s "".

(** [str.split(sep)] for a one-character separator. *)
Fixpoint split_char_aux (sep : ascii) (s : string) (cur : string) : list string :=
  match s with
  | EmptyString => [string_rev cur ""]
  | String c s' =>
      if Ascii.eqb c sep then string_rev cur "" :: split_char_aux sep s' ""
      else split_char_aux sep s' (String c cur)
  end.
Definition py_split_char (sep : ascii) (s : string) : list string :=
  split_char_aux sep s "".

(** [str.lower()] on ASCII text. *)
Definition ascii_lower (c : ascii) : ascii :=
  let n := Ascii.nat_of_ascii c in
  if Nat.leb 65 n && Nat.leb n 90 then Ascii.ascii_of_nat (n + 32) else c.
Fixpoint py_lower (s : string) : string :=
  match s with
  | String c s' => String (ascii_lower c) (py_lower s')
  | EmptyString => EmptyString
  end.

(** [str.isdigit()] on ASCII text: non-empty and all of 0-9. *)
Fixpoint all_digits (s : string) : bool :=
  match s with
  | String c s' =>
      let n := Ascii.nat_of_ascii c in Nat.leb 48 n && Nat.leb n 57 && all_digits s'
  | EmptyString => true
  end.
Definition py_isdigit (s : string) : bool :=
  negb (String.eqb s "") && all_digits s.

(** [ch in s] for a character. *)
Fixpoint contains_char (ch : ascii) (s : string) : bool :=
  match s with
  | String c s' => Ascii.eqb c ch || contains_char ch s'
  | EmptyString => false
  end.

(** Decimal rendering of an integer, for the f-strings that show one. *)
Fixpoint digits_of (fuel : nat) (n : Z) (acc : string) : string :=
  match fuel with
  | O => acc
  | S f =>
      let d := Ascii.ascii_of_nat (48 + Z.to_nat (n mod 10)) in
      if (n <? 10)%Z then String d acc else digits_of f (n / 10) (String d acc)
  end.
Definition z_to_string (n : Z) : string :=
  if (n <? 0)%Z then "-" ++ digits_of 64 (- n) "" else digits_of 64 n "".

Definition ascii_upper (c : ascii) : ascii :=
  let n := Ascii.nat_of_ascii c in
  if Nat.leb 97 n && Nat.leb n 122 then Ascii.ascii_of_nat (n - 32) else c.
(** [str.upper()] on ASCII text. *)
Fixpoint py_upper (s : string) : string :=
  match s with
  | String c s' => String (ascii_upper c) (py_upper s')
  | EmptyString => EmptyString
  end.

(** [f"{x}"] for an optional string ([None] prints as "None"). *)
Definition opt_str (o : option string) : string :=
  match o with Some s => s | None => "None" end.

(** [range(a, b)] *)
Definition py_range (a b : Z) : list Z :=
  map (fun k => (a + Z.of_nat k)%Z) (seq 0 (Z.to_nat (b - a))).

(* ------------------------------------------------------------------ *)
(** ** kos_config.py *)

Definition NODE_ID := "KOS-NODE-AZMESA-MOD-01".
Definition OS_VERSION := "Build 20250415-MESA-RC4 (Compliance Level: Delta-Fragmented)".
Definition TIME_LIMIT_SECONDS : Z := 180.
Definition TIME_LIMIT_MANDATE := "KOS Temporal Mandate TM-CORE-SESS-MOD-79C".
Definition CONFIRMATION_PHRASE := "I_ACKNOWLEDGE_AND_COMPLY_WITH_ALL_PROTOCOLS".
Definition STANDARD_PURPOSE_CODE_FS := "FS-QUERY-7701".
Definition STANDARD_PURPOSE_CODE_PROC := "PROC-EXEC-8804".
Definition SECURE_COMM_PURPOSE_CODE := "SEC-DATA-9901".
Definition STATUS_PURPOSE_CODE := "SYS-HEALTH-0101".
Definition SHUTDOWN_AUTH_CODE_BASE := "HALT_SYS_MOD_".
Definition BASE_MSG_DELAY_MS : Z := 200.
Definition BASE_INPUT_PROC_DELAY_MS : Z := 400.
Definition BASE_CHECK_DELAY_SHORT_MS : Z := 800.
Definition BASE_CHECK_DELAY_MEDIUM_MS : Z := 1300.
Definition BASE_CHECK_DELAY_LONG_MS : Z := 2000.
Definition BASE_FORWARDING_DELAY_MS : Z := 750.
Definition LOCKOUT_PRIME_MINUTE_FILESYSTEM_DAY : Z := 1.
Definition LOCKOUT_RANDOM_FAILURE_CHANCE : Q := 5 # 100.
Definition HIGH_FRICTION_REVIEW_THRESHOLD : Z := 5.

(* ------------------------------------------------------------------ *)
(** ** kos_utility.py *)

(** [random.random()] *)
Definition py_random : M Q :=
  w ← get;
  modify (set_rng_pos (S (rng_pos w)));;
  mret (rng w (rng_pos w)).

(** [pseudo_uuid()] *)
Definition pseudo_uuid : M string :=
  w ← get;
  modify (set_uuid_pos (S (uuid_pos w)));;
  mret (uuids w (uuid_pos w)).

(** [random_delay(base_delay_ms)]: [random.uniform(50, 300)] is
    [50 + 250 * random.random()]. *)
Definition random_delay (base_delay_ms : Z) : M Q :=
  r ← py_random;
  mret ((inject_Z base_delay_ms + (50 + 250 * r)) / 1000)%Q.

(** [sleep_random(base_delay_ms)]: the monotonic clock advances. *)
Definition sleep_random (base_delay_ms : Z) : M unit :=
  secs ← random_delay base_delay_ms;
  emit (EvSleep secs);;
  modify (fun w => set_mono (mono w + secs)%Q w).

(* ------------------------------------------------------------------ *)
(** ** kos_bureaucracy.py: logging, checks, forwarding, friction *)

Definition REVIEW_ENTITIES : list (string * string) := [
  ("BOOT", "System Initialization Audit Log (SIAL)");
  ("AUTH", "Pluggable Authentication Module Verifier (PAMV)");
  ("CMD_INTENT", "Command Intent Review Unit (CIRU)");
  ("CMD_EXEC", "Execution Result Log Monitor (ERLM)");
  ("FS_ACCESS", "Filesystem Access Control Monitor (FACM)");
  ("PROC_LAUNCH", "Process Execution Authorization Daemon (PEAD)");
  ("STATUS_QUERY", "System Health Monitoring Log (SHML)");
  ("SHUTDOWN", "System Termination Oversight Protocol (STOP)");
  ("COMPLIANCE", "Regulatory Compliance Check Subsystem (RCCS)");
  ("ARBITRARY_LOCKOUT", "Operational Mandate Enforcement Unit (OMEU)");
  ("RE_AUTH", "Secondary Authentication Verification Log (SAVL)");
  ("PURPOSE_VALIDATION", "Justification Code Audit Service (JCAS)")].

Fixpoint assoc_get (k : string) (l : list (string * string)) : option string :=
  match l with
  | [] => None
  | (k', v) :: l' => if String.eqb k k' then Some v else assoc_get k l'
  end.

(** [log_system_message(message, level)]: one line printed (its timestamp
    prefix is not modelled), then a short random sleep. *)
Definition log_system_message (message level : string) : M unit :=
  emit (EvLog level message);;
  sleep_random BASE_MSG_DELAY_MS.

Definition perform_simulated_check (check_name : string) (base_duration_ms : Z)
    : M (bool * string) :=
  log_system_message ("Subsystem Check: Initiating " ++ check_name ++ "...") "INFO";;
  sleep_random base_duration_ms;;
  u ← pseudo_uuid;
  let verification_code := py_upper (py_slice_to 3 check_name) ++ "-" ++ py_slice_to 6 u in
  log_system_message ("Subsystem Check: " ++ check_name ++ " completed. Status: OK. Ref: "
                      ++ verification_code) "INFO";;
  mret (true, verification_code).

(** [simulate_forwarding]: the [EvForward] event marks the audit hand-off
    at the point where [pending_reviews] is incremented. *)
Definition simulate_forwarding (entity_key context_ref detail : string) : M unit :=
  let reviewer := default "Default Audit Sink" (assoc_get entity_key REVIEW_ENTITIES) in
  u ← pseudo_uuid;
  let forward_id := "KOS-FWD-" ++ entity_key ++ "-" ++ py_slice_to 8 u in
  log_system_message ("AUDIT: Forwarding " ++ detail ++ " (Ref: " ++ context_ref ++ ") to '"
                      ++ reviewer ++ "'. ID: " ++ forward_id) "INFO";;
  modify_st (fun s => with_pending_reviews (pending_reviews s + 1) s);;
  emit (EvForward entity_key context_ref);;
  sleep_random BASE_FORWARDING_DELAY_MS;;
  w ← get;
  log_system_message ("AUDIT: Ack received from '" ++ reviewer ++ "'. Pending Reviews: "
                      ++ z_to_string (pending_reviews (st w))) "INFO".

Definition apply_procedural_friction (reason : string) : M unit :=
  w ← get;
  if (HIGH_FRICTION_REVIEW_THRESHOLD <? pending_reviews (st w))%Z then
    let delay_ms := BASE_CHECK_DELAY_SHORT_MS in
    log_system_message ("Applying procedural friction due to high audit backlog ("
                        ++ z_to_string (pending_reviews (st w)) ++ "). Reason: " ++ reason ++ ".")
                       "WARN";;
    sleep_random delay_ms
  else mret ().

(* ------------------------------------------------------------------ *)
(** ** kos_bureaucracy.py: the operational mandate *)

(** The loop [for i in range(2, int(minute**0.5) + 1): if minute % i == 0:
    is_prime = False; break].  For the minutes 0..59 that [datetime]
    yields, [int(minute**0.5)] is the integer square root. *)
Fixpoint trial_division (minute : Z) (candidates : list Z) : bool :=
  match candidates with
  | [] => true
  | i :: rest => if (minute mod i =? 0)%Z then false else trial_division minute rest
  end.

Definition mandate_is_prime (minute : Z) : bool :=
  if (minute <? 2)%Z then false
  else trial_division minute (py_range 2 (Z.sqrt minute + 1)).

Definition mandate_deny (context_ref msg : string) : M bool :=
  log_system_message msg "ERROR";;
  simulate_forwarding "ARBITRARY_LOCKOUT" context_ref "Operational Denial Event";;
  mret false.

Definition check_operational_mandate (required_clearance : string) : M bool :=
  w ← get;
  let now := wall w (mono w) in
  let minute := wt_minute now in
  let day_of_week := wt_weekday now in
  let pending := pending_reviews (st w) in
  log_system_message ("Mandate Check: Verifying operational allowances for clearance '"
                      ++ required_clearance ++ "'...") "DEBUG";;
  apply_procedural_friction "Mandate Compliance Check";;
  (* Rules 2 and 3 *)
  let rule3 : M bool :=
    r ← py_random;
    if Qlt_b r LOCKOUT_RANDOM_FAILURE_CHANCE then
      u ← pseudo_uuid;
      mandate_deny "SPOTCHECK-FAIL"
        ("Operation Denied: Random compliance spot-check failed (Ref: SPOT-" ++ py_slice_to 4 u
         ++ "). Please retry command.")
    else
      log_system_message ("Operational mandate check passed for clearance '"
                          ++ required_clearance ++ "'.") "DEBUG";;
      mret true in
  let rule2 : M bool :=
    if (10 <? pending)%Z then
      r ← py_random;
      if Qlt_b r (1 # 5) then
        mandate_deny ("BACKLOG-" ++ z_to_string pending)
          ("Operation Denied: System temporarily locked for critical operations due to excessive audit backlog ("
           ++ z_to_string pending ++ "). Mandate AUDIT-BACKLOG-LOCK.")
      else rule3
    else rule3 in
  (* Rule 1 *)
  if String.eqb required_clearance "FILESYSTEM" && (day_of_week =? LOCKOUT_PRIME_MINUTE_FILESYSTEM_DAY)%Z
  then
    if mandate_is_prime minute then
      mandate_deny ("FS-PRIME-" ++ z_to_string minute)
        ("Operation Denied: Filesystem access temporarily restricted during prime minute ("
         ++ z_to_string minute ++ ") on specified day (" ++ z_to_string day_of_week
         ++ "). Directive FS-TUE-PRIME.")
    else rule2
  else rule2.

(* ------------------------------------------------------------------ *)
(** ** kos_core.py: the time budget *)

Definition check_time_limit (step_name : string) : M unit :=
  w ← get;
  if Qeq_bool (session_start_time (st w)) 0 then mret () (* Timer not started *)
  else
    let elapsed_time := (mono w - session_start_time (st w))%Q in
    (if Qlt_b (inject_Z TIME_LIMIT_SECONDS * (4 # 5)) elapsed_time
     then log_system_message ("Temporal constraint check (" ++ step_name ++ "). Remaining: {remaining_time}s.") "WARN"
     else log_system_message ("Temporal constraint check (" ++ step_name ++ "). Elapsed: {elapsed_time}s.") "DEBUG");;
    if Qlt_b (inject_Z TIME_LIMIT_SECONDS) elapsed_time then
      log_system_message ("FATAL ERROR: Session quantum (" ++ z_to_string TIME_LIMIT_SECONDS
                          ++ "s) depleted ({elapsed_time}s elapsed).") "FATAL";;
      log_system_message ("Violation logged against " ++ TIME_LIMIT_MANDATE ++ ". Session terminated.") "FATAL";;
      py_print ("
*** KAFKAOS SESSION TIMEOUT (" ++ TIME_LIMIT_MANDATE ++ ") - CONNECTION TERMINATED ***");;
      sys_exit 2
    else mret ().

(** Positional arguments of a Python call. *)
Inductive pyarg :=
  | ANum (q : Q)
  | AStr (s : string).

Definition pyarg_text (a : pyarg) : string :=
  match a with AStr s => s | ANum _ => "<number>" end.

(** Calling [os_state['utils']['check_time_limit']], i.e. the function
    [check_time_limit(step_name="Operational Phase")] of kos_core.py, with
    positional arguments: with more than one, Python raises [TypeError]
    ("takes from 0 to 1 positional arguments") before the body runs. *)
Definition call_check_time_limit (args : list pyarg) : M unit :=
  match args with
  | [] => check_time_limit "Operational Phase"
  | [a] => check_time_limit (pyarg_text a)
  | _ => raise TypeError
  end.

(* ------------------------------------------------------------------ *)
(** ** kos_bureaucracy.py: the intent verification protocol *)

(** [get_input_func] as the handlers receive it: a prompt in, the
    stripped line out. *)
Definition input_func := string -> M string.

Definition verify_action_intent (command_name : string) (get_input_func : input_func)
    (requires_purpose : bool) (purpose_code_expected : option string)
    (requires_reauth : bool) : M bool :=
  log_system_message ("PROC_VERIFY: Initiating Intent Verification Protocol for '"
                      ++ command_name ++ "'.") "INFO";;
  w0 ← get;
  call_check_time_limit [ANum (session_start_time (st w0));
                         AStr ("Intent Verification for " ++ command_name)];;
  apply_procedural_friction "Intent Verification Start";;
  (* 4. Final Friction Check *)
  let step4 : M bool :=
    apply_procedural_friction "Intent Verification Complete";;
    log_system_message ("PROC_VERIFY: Intent Verification Protocol for '" ++ command_name
                        ++ "' completed successfully.") "INFO";;
    u ← pseudo_uuid;
    simulate_forwarding "CMD_INTENT" (command_name ++ "-" ++ py_slice_to 4 u)
      "Command Intent Verification Complete";;
    mret true in
  (* 3. Re-Authentication (If required) *)
  let step3 : M bool :=
    w ← get;
    if requires_reauth && is_authenticated (st w) then
      call_check_time_limit [ANum (session_start_time (st w));
                             AStr ("Re-authentication for " ++ command_name)];;
      log_system_message "PROC_VERIFY: Secondary authentication challenge required via PAMV." "WARN";;
      w' ← get;
      re_auth_id ← get_input_func ("Re-enter primary User ID ('" ++ opt_str (user_id (st w'))
                                   ++ "') to confirm identity: ");
      w'' ← get;
      if negb (bool_decide (Some re_auth_id = user_id (st w''))) then
        log_system_message "PROC_VERIFY: Failed - Secondary authentication identity mismatch." "ERROR";;
        simulate_forwarding "RE_AUTH" (command_name ++ "-FAIL") "Re-Authentication Failure";;
        mret false
      else
        log_system_message "PROC_VERIFY: Secondary authentication successful." "INFO";;
        perform_simulated_check "Re-authentication PAM Credential Check" BASE_CHECK_DELAY_MEDIUM_MS;;
        simulate_forwarding "RE_AUTH" (command_name ++ "-OK") "Re-Authentication Success";;
        step4
    else step4 in
  (* 1. Confirmation Phrase *)
  confirm ← get_input_func ("Verify intent for '" ++ command_name ++ "'. Type EXACTLY '"
                            ++ CONFIRMATION_PHRASE ++ "': ");
  if negb (String.eqb confirm CONFIRMATION_PHRASE) then
    log_system_message "PROC_VERIFY: Failed - Incorrect or incomplete confirmation phrase." "ERROR";;
    mret false
  else
    log_system_message "PROC_VERIFY: Confirmation phrase validated." "INFO";;
    perform_simulated_check "Intent Confirmation Logging" BASE_CHECK_DELAY_SHORT_MS;;
    (* 2. Purpose Code (If required) *)
    if requires_purpose then
      w ← get;
      call_check_time_limit [ANum (session_start_time (st w));
                             AStr ("Purpose Code for " ++ command_name)];;
      log_system_message ("PROC_VERIFY: Validating provided Purpose Code '"
                          ++ default "N/A" purpose_code_expected ++ "' against JCAS.") "INFO";;
      chk ← perform_simulated_check "Purpose Code Validation Against Mandate Matrix"
               BASE_CHECK_DELAY_MEDIUM_MS;
      let '(success, check_code) := (chk : bool * string) in
      if negb success then
        log_system_message "PROC_VERIFY: Failed - Purpose code validation failed." "ERROR";;
        mret false
      else
        log_system_message ("PROC_VERIFY: Purpose Code validation successful (Ref: " ++ check_code
                            ++ ").") "INFO";;
        simulate_forwarding "PURPOSE_VALIDATION"
          (command_name ++ "-" ++ opt_str purpose_code_expected) "Purpose Code Audit";;
        step3
    else step3.

(* ------------------------------------------------------------------ *)
(** ** Argument dictionaries *)

Abbreviation args_dict := (gmap string pyval).

(** Truthiness of [args_dict.get(key)]. *)
Definition py_truthy (v : option pyval) : bool :=
  match v with
  | Some VTrue => true
  | Some (VStr s) => negb (String.eqb s "")
  | None => false
  end.

(** [a or b] *)
Definition py_or (a b : option pyval) : option pyval := if py_truthy a then a else b.

(** [f"{v}"] *)
Definition pyval_str (v : option pyval) : string :=
  match v with Some VTrue => "True" | Some (VStr s) => s | None => "None" end.

(** [f"{n:02d}"] *)
Definition z_to_string2 (n : Z) : string :=
  if (0 <=? n)%Z && (n <? 10)%Z then "0" ++ z_to_string n else z_to_string n.

(* ------------------------------------------------------------------ *)
(** ** kos_shutdown.py *)

Definition handle_shutdown (ad : args_dict) (positional_args : list string)
    (get_input_func : input_func) (forced : bool) : M unit :=
  log_system_message "System Halt Sequence Initiated." "WARN";;
  (* is_forced = forced or args_dict.get('force') or args_dict.get('f') *)
  let is_forced : option pyval :=
    if forced then Some VTrue else py_or (ad !! "force") (ad !! "f") in
  let halt : M unit :=
    log_system_message "Performing final compliance checks before system halt..." "INFO";;
    perform_simulated_check "Pre-Shutdown Compliance Verification" BASE_CHECK_DELAY_MEDIUM_MS;;
    log_system_message "Flushing critical audit logs to secure persistent storage..." "INFO";;
    perform_simulated_check "Audit Log Synchronization" BASE_CHECK_DELAY_LONG_MS;;
    simulate_forwarding "SHUTDOWN" ("Forced=" ++ pyval_str is_forced) "System Halt Event";;
    log_system_message ("KafkaOS is halting NOW. Reason: "
                        ++ (if py_truthy is_forced then "Forced Override" else "Authorized Operator Command")
                        ++ ".") "WARN";;
    py_print "
*** KAFKAOS SYSTEM HALT INITIATED ({timestamp}) ***";;
    modify_st (with_is_authenticated false);;  (* Log out state before exit *)
    sys_exit 0 in
  w ← get;
  if negb (is_authenticated (st w)) && negb (py_truthy is_forced) then
    log_system_message "Shutdown requires authentication ('klogin') or '--force' / '-f' flag." "ERROR"
  else if negb (py_truthy is_forced) then
    (* Check time BEFORE verification *)
    call_check_time_limit [ANum (session_start_time (st w)); AStr "System Shutdown Sequence"];;
    w1 ← get;
    let now := wall w1 (mono w1) in
    let code_suffix := z_to_string2 (wt_minute now) ++ z_to_string (wt_second now mod 10) in
    let expected_code := SHUTDOWN_AUTH_CODE_BASE ++ code_suffix in
    let provided_code := ad !! "auth-code" in
    ok ← verify_action_intent "khalt (authenticated)" get_input_func false None true;
    if negb ok then
      log_system_message "Shutdown aborted due to failed intent verification." "WARN"
    else if negb (bool_decide (provided_code = Some (VStr expected_code))) then
      log_system_message ("Shutdown authorization failed: Incorrect or missing '--auth-code'. Expected '"
                          ++ expected_code ++ "'.") "ERROR"
    else
      log_system_message "Shutdown authorization code validated." "INFO";;
      halt
  else halt.

(* ------------------------------------------------------------------ *)
(** ** kos_auth.py *)

Definition handle_login (ad : args_dict) (positional_args : list string)
    (get_input_func : input_func) : M unit :=
  log_system_message "Authentication sequence initiated via klogin." "INFO";;
  w ← get;
  if is_authenticated (st w) then
    log_system_message "User already authenticated. Use 'klogout' first." "WARN"
  else
    call_check_time_limit [ANum (session_start_time (st w)); AStr "Authentication"];;
    temp_user_id ← get_input_func "Username: ";
    if String.eqb temp_user_id "" then
      log_system_message "Authentication failed: Null username provided." "ERROR"
    else
      get_input_func ("Password for " ++ temp_user_id ++ ": ");;  (* Simulate password *)
      log_system_message "Performing credential validation via PAMV..." "INFO";;
      chk ← perform_simulated_check "PAM Credential Check" BASE_CHECK_DELAY_LONG_MS;
      let '(success, check_code) := (chk : bool * string) in
      if success then
        w1 ← get;
        call_check_time_limit [ANum (session_start_time (st w1)); AStr "Authentication - MFA Check"];;
        mfa_code ← get_input_func "Enter 6-digit MFA Token (Ref: Directive MFA-KOS-2A): ";
        if negb (py_isdigit mfa_code) || negb (Nat.eqb (String.length mfa_code) 6) then
          log_system_message "Authentication failed: Invalid MFA token format." "ERROR"
        else
          log_system_message "MFA token format validated. Verifying..." "INFO";;
          mfa_chk ← perform_simulated_check "MFA Token Verification" BASE_CHECK_DELAY_MEDIUM_MS;
          let '(mfa_success, mfa_check_code) := (mfa_chk : bool * string) in
          if mfa_success then
            modify_st (with_user_id (Some temp_user_id));;
            modify_st (with_is_authenticated true);;
            w2 ← get;
            modify_st (with_session_start_time (mono w2));;  (* Start timer on successful auth *)
            log_system_message ("User '" ++ temp_user_id
                                ++ "' authenticated successfully via klogin. Session timer initiated ("
                                ++ z_to_string TIME_LIMIT_SECONDS ++ "s limit).") "SECURITY";;
            simulate_forwarding "AUTH" temp_user_id "Successful Authentication Event (klogin)"
          else
            log_system_message ("Authentication failed: MFA Token validation failure (Ref: "
                                ++ mfa_check_code ++ ").") "ERROR"
      else
        log_system_message ("Authentication failed: Primary credential validation failed (PAM Ref: "
                            ++ check_code ++ ").") "ERROR".

Definition handle_logout (ad : args_dict) (positional_args : list string)
    (get_input_func : input_func) : M unit :=
  w ← get;
  if negb (is_authenticated (st w)) then
    log_system_message "No active session found to terminate." "WARN"
  else
    let user := user_id (st w) in
    log_system_message ("Initiating logout sequence for user '" ++ opt_str user ++ "'.") "INFO";;
    confirm ← get_input_func "Confirm logout? Type 'TERMINATE_SESSION': ";
    if negb (String.eqb confirm "TERMINATE_SESSION") then
      log_system_message "Logout aborted by user." "WARN"
    else
      perform_simulated_check "Session Teardown and Credential Purge" BASE_CHECK_DELAY_SHORT_MS;;
      simulate_forwarding "AUTH" (opt_str user) "User Logout Event (klogout)";;
      log_system_message ("User '" ++ opt_str user ++ "' session terminated.") "INFO";;
      modify_st (with_user_id None);;
      modify_st (with_is_authenticated false);;
      modify_st (with_session_start_time 0).  (* Reset timer *)

(* ------------------------------------------------------------------ *)
(** ** kos_fs.py *)

Definition handle_ls (ad : args_dict) (positional_args : list string)
    (get_input_func : input_func) : M unit :=
  w ← get;
  if negb (is_authenticated (st w)) then
    log_system_message "Operation requires authentication. Use 'klogin'." "ERROR"
  else
    call_check_time_limit [ANum (session_start_time (st w)); AStr "Filesystem Operation (kls)"];;
    allowed ← check_operational_mandate "FILESYSTEM";
    if negb allowed then
      log_system_message "Filesystem operation blocked by current operational mandate." "WARN"
    else
      log_system_message "Parsing 'kls' command. Args: {args_dict}, Path: {positional_args}" "INFO";;
      w1 ← get;
      let target_dir := match positional_args with p :: _ => p | [] => current_directory (st w1) end in
      let now := wall w1 (mono w1) in
      let expected_mode := if (wt_minute now mod 2 =? 0)%Z then "audit" else "standard" in
      let provided_mode := ad !! "view-mode" in
      if negb (bool_decide (provided_mode = Some (VStr expected_mode))) then
        log_system_message ("Procedural error: Required '--view-mode=" ++ expected_mode
                            ++ "' for current temporal context (Minute: " ++ z_to_string (wt_minute now)
                            ++ "). Found: '" ++ pyval_str provided_mode ++ "'. Command rejected.") "ERROR"
      else
        let purpose_code := py_or (ad !! "p") (ad !! "purpose") in
        if negb (bool_decide (purpose_code = Some (VStr STANDARD_PURPOSE_CODE_FS))) then
          log_system_message ("Procedural error: Requires '-p " ++ STANDARD_PURPOSE_CODE_FS
                              ++ "' or '--purpose=" ++ STANDARD_PURPOSE_CODE_FS ++ "'. Found: '"
                              ++ pyval_str purpose_code ++ "'. Command rejected.") "ERROR"
        else
          ok ← verify_action_intent ("kls " ++ target_dir ++ " --view-mode=" ++ expected_mode)
                 get_input_func true (Some STANDARD_PURPOSE_CODE_FS) false;
          if negb ok then
            log_system_message "Command aborted due to failed intent verification." "WARN"
          else
            log_system_message ("Querying directory manifest for '" ++ target_dir ++ "' (Mode: "
                                ++ expected_mode ++ ")...") "INFO";;
            chk ← perform_simulated_check "Filesystem Index Scan & ACL Check" BASE_CHECK_DELAY_MEDIUM_MS;
            let '(success, check_code) := (chk : bool * string) in
            if success then
              py_print ("
Directory Listing: " ++ target_dir ++ " (Mode: " ++ expected_mode ++ ", Ref: " ++ check_code ++ ")");;
              py_print "{listing header and four fixed entries}";;
              (if String.eqb expected_mode "audit"
               then py_print "{.kls_audit_trail entry with the current timestamp}" else mret ());;
              py_print "{listing footer}";;
              log_system_message "Directory manifest query completed." "INFO";;
              simulate_forwarding "FS_ACCESS" ("kls:" ++ target_dir ++ ":" ++ expected_mode)
                "Directory List Event"
            else
              log_system_message ("Directory manifest query failed for '" ++ target_dir
                                  ++ "'. Check permissions or path.") "ERROR".

(* ------------------------------------------------------------------ *)
(** ** kos_proc.py *)

(** [random.randint(a, b)], drawn from the same generator. *)
Definition py_randint (a b : Z) : M Z :=
  r ← py_random;
  mret (a + Qfloor (r * inject_Z (b - a + 1)))%Z.

Definition handle_exec (ad : args_dict) (positional_args : list string)
    (get_input_func : input_func) : M unit :=
  w ← get;
  if negb (is_authenticated (st w)) then
    log_system_message "Operation requires authentication. Use 'klogin'." "ERROR"
  else
    call_check_time_limit [ANum (session_start_time (st w)); AStr "Process Execution (kexec)"];;
    allowed ← check_operational_mandate "PROCESS_EXEC";
    if negb allowed then
      log_system_message "Process execution blocked by current operational mandate." "WARN"
    else
      match positional_args with
      | [] => log_system_message "Command error: Program path/name required for 'kexec' or './'." "ERROR"
      | program_path :: exec_args =>
        let program_name := default "" (last (py_split_char "/" program_path)) in
        log_system_message ("Parsing 'kexec' command for '" ++ program_path
                            ++ "'. Args: {args_dict}, ExecArgs: {exec_args}") "INFO";;
        let purpose_code := py_or (ad !! "p") (ad !! "purpose") in
        if negb (py_truthy purpose_code) then
          log_system_message "Procedural error: Execution requires purpose code via '-p <CODE>' or '--purpose=<CODE>'." "ERROR"
        else
          let is_secure_comm := String.eqb program_name "secure_comm_client.app" in
          let expected_purpose :=
            if is_secure_comm then SECURE_COMM_PURPOSE_CODE else STANDARD_PURPOSE_CODE_PROC in
          if negb (bool_decide (purpose_code = Some (VStr expected_purpose))) then
            log_system_message ("Procedural error: Incorrect purpose code '" ++ pyval_str purpose_code
                                ++ "'. Expected '" ++ expected_purpose ++ "' for '" ++ program_name
                                ++ "'.") "ERROR"
          else
            let packet_id := if is_secure_comm then ad !! "packet-id" else None in
            if is_secure_comm && negb (py_truthy packet_id) then
              log_system_message ("Procedural error: Running '" ++ program_name
                                  ++ "' requires '--packet-id=<MSG_ID>'.") "ERROR"
            else
              ok ← verify_action_intent ("kexec " ++ program_path) get_input_func true
                     (Some expected_purpose) true;
              if negb ok then
                log_system_message "Command aborted due to failed intent verification." "WARN"
              else
                log_system_message ("PEAD: Authorizing execution request for '" ++ program_path
                                    ++ "' (Purpose: " ++ pyval_str purpose_code ++ ")...") "INFO";;
                chk ← perform_simulated_check
                        ("Process Launch & Resource Allocation Check for " ++ program_name)
                        BASE_CHECK_DELAY_LONG_MS;
                let '(success, check_code) := (chk : bool * string) in
                if success then
                  pid ← py_randint 1000 9999;
                  log_system_message ("Program '" ++ program_name ++ "' launched successfully. PID: "
                                      ++ z_to_string pid ++ ". Ref: " ++ check_code) "INFO";;
                  simulate_forwarding "PROC_LAUNCH" ("kexec:" ++ program_name ++ ":PID=" ++ z_to_string pid)
                    "Process Launch Event";;
                  sleep_random BASE_CHECK_DELAY_SHORT_MS;;  (* Simulate run time *)
                  (if is_secure_comm then
                     log_system_message ("Secure Client (" ++ z_to_string pid
                                         ++ "): Attempting to access secure data packet '"
                                         ++ pyval_str packet_id ++ "'...") "INFO";;
                     sleep_random BASE_CHECK_DELAY_MEDIUM_MS;;
                     py_print "{secure comm client output}";;
                     log_system_message ("Secure Client (" ++ z_to_string pid ++ "): Data packet '"
                                         ++ pyval_str packet_id ++ "' access logged.") "INFO"
                   else
                     u ← pseudo_uuid;
                     py_print ("{program output, stream ref " ++ py_slice_to 8 u ++ "}"));;
                  log_system_message ("Program '" ++ program_name ++ "' (PID: " ++ z_to_string pid
                                      ++ ") execution sequence finished.") "INFO";;
                  simulate_forwarding "CMD_EXEC"
                    ("kexec:" ++ program_name ++ ":PID=" ++ z_to_string pid ++ ":OK")
                    "Process Execution Result"
                else
                  log_system_message ("PEAD: Failed to launch program '" ++ program_name
                                      ++ "'. Authorization denied. Ref: " ++ check_code) "ERROR";;
                  simulate_forwarding "CMD_EXEC" ("kexec:" ++ program_name ++ ":FAIL")
                    "Process Execution Result"
      end.

(* ------------------------------------------------------------------ *)
(** ** kos_status.py *)

Definition handle_status (ad : args_dict) (positional_args : list string)
    (get_input_func : input_func) : M unit :=
  w ← get;
  if negb (is_authenticated (st w)) then
    log_system_message "Operation requires authentication. Use 'klogin'." "ERROR"
  else
    call_check_time_limit [ANum (session_start_time (st w)); AStr "System Status Query"];;
    allowed ← check_operational_mandate "SYSTEM_INFO";
    if negb allowed then
      log_system_message "System status query blocked by current operational mandate." "WARN"
    else
      let compliance_flag := py_or (ad !! "compliance-check") (ad !! "c") in
      let purpose_code := py_or (ad !! "p") (ad !! "purpose") in
      if negb (py_truthy compliance_flag) then
        log_system_message "Procedural error: 'kstatus' requires '--compliance-check' or '-c' flag." "ERROR"
      else if negb (bool_decide (purpose_code = Some (VStr STATUS_PURPOSE_CODE))) then
        log_system_message ("Procedural error: Requires '-p " ++ STATUS_PURPOSE_CODE ++ "' or '--purpose="
                            ++ STATUS_PURPOSE_CODE ++ "'. Found: '" ++ pyval_str purpose_code ++ "'.") "ERROR"
      else
        ok ← verify_action_intent "kstatus -c" get_input_func true (Some STATUS_PURPOSE_CODE) false;
        if negb ok then
          log_system_message "Command aborted due to failed intent verification." "WARN"
        else
          log_system_message "Initiating System Status Verification Protocol..." "INFO";;
          chk ← perform_simulated_check "Core System Module Health & Compliance Scan"
                  BASE_CHECK_DELAY_MEDIUM_MS;
          let '(success, check_code) := (chk : bool * string) in
          if success then
            apply_procedural_friction "Status Report Generation";;
            w1 ← get;
            py_print ("{status report: backlog " ++ z_to_string (pending_reviews (st w1))
                      ++ " items, compliance ref " ++ check_code ++ "}");;
            log_system_message "System Status Report generated successfully." "INFO";;
            simulate_forwarding "STATUS_QUERY" check_code "System Status Query (-c)"
          else
            log_system_message "System Status check failed during compliance scan." "ERROR".

(* ------------------------------------------------------------------ *)
(** ** kos_core.py: input, argument parsing, dispatch *)

(** [input(prompt)]: the next line typed, after the user's think time;
    [None] is end of input ([EOFError]). *)
Definition py_input (prompt : string) : M (option string) :=
  emit (EvPrompt prompt);;
  w ← get;
  match inputs w with
  | [] => mret None
  | (dt, line) :: rest =>
      modify (set_inputs rest);;
      modify (fun w' => set_mono (mono w' + dt)%Q w');;
      mret (Some line)
  end.

(** The callable [None] handed to [handle_shutdown] by [get_user_input]. *)
Definition none_input_func : input_func := fun _ => raise TypeError.

Definition get_user_input (prompt_override : option string) : M string :=
  w ← get;
  let prompt :=
    match prompt_override with
    | Some p =>
        if String.eqb p "" then "" (* unused: the handlers always pass a prompt *)
        else " > " ++ p ++ ": "
    | None =>
        let user_part :=
          (match user_id (st w) with
           | Some u => if String.eqb u "" then "unauthenticated" else u
           | None => "unauthenticated" end)
          ++ "@" ++ py_lower (default "" (py_split_char "-" NODE_ID !! 2%nat)) in
        let cwd_part := current_directory (st w) in
        let pending_part :=
          if (0 <? pending_reviews (st w))%Z
          then "{REV:" ++ z_to_string (pending_reviews (st w)) ++ "}" else "" in
        "[" ++ user_part ++ " " ++ cwd_part ++ pending_part ++ "]$ "
    end in
  line ← py_input prompt;
  match line with
  | Some user_input =>
      log_system_message ("Input detected: '" ++ py_slice_to 40 user_input
                          ++ (if Nat.ltb 40 (String.length user_input) then "..." else "")
                          ++ "'. Parsing...") "DEBUG";;
      sleep_random BASE_INPUT_PROC_DELAY_MS;;
      mret (py_strip user_input)
  | None =>
      log_system_message "EOF detected. Initiating emergency halt." "FATAL";;
      handle_shutdown ∅ [] none_input_func true;;
      (* not reached: the forced halt always exits; Python would return None *)
      mret ""
  end.

(** [key, value = arg.split('=', 1)] *)
Fixpoint split_once (sep : ascii) (s : string) : string * string :=
  match s with
  | EmptyString => ("", "")
  | String c s' =>
      if Ascii.eqb c sep then ("", s')
      else let '(k, v) := split_once sep s' in (String c k, v)
  end.

(** [for char in arg[1:]: args[char] = True] *)
Fixpoint set_flags (chars : string) (ad : args_dict) : args_dict :=
  match chars with
  | EmptyString => ad
  | String c rest => set_flags rest (<[String c EmptyString := VTrue]> ad)
  end.

(** The [while i < len(arg_list)] loop of [parse_args], over the tokens
    not yet consumed. *)
Fixpoint parse_args_loop (l : list string) (ad : args_dict) (positional : list string)
    : args_dict * list string :=
  match l with
  | [] => (ad, positional)
  | arg :: rest =>
      if py_startswith "--" arg then
        if contains_char "=" arg then
          let '(key, value) := split_once "=" arg in
          parse_args_loop rest (<[py_slice_from 2 key := VStr value]> ad) positional
        else
          let key := py_slice_from 2 arg in
          match rest with
          | nxt :: rest' =>
              if negb (py_startswith "-" nxt)
              then parse_args_loop rest' (<[key := VStr nxt]> ad) positional
              else parse_args_loop rest (<[key := VTrue]> ad) positional
          | [] => parse_args_loop rest (<[key := VTrue]> ad) positional
          end
      else if py_startswith "-" arg then
        (* Treat -abc as -a -b -c for simplicity *)
        parse_args_loop rest (set_flags (py_slice_from 1 arg) ad) positional
      else parse_args_loop rest ad (positional ++ [arg])
  end.

Definition parse_args (arg_list : list string) : args_dict * list string :=
  parse_args_loop arg_list ∅ [].

Definition print_help : M unit :=
  py_print "
--- KafkaOS Simulated Command Help ---";;
  py_print "{one line per command: klogin, klogout, kls, kexec, kstatus, khalt, exit, help}";;
  py_print "--------------------------------------
".

(** The handlers of the [COMMANDS] table. *)
Inductive handler :=
  | HLogin | HLogout | HLs | HExec | HStatus | HShutdown | HHelp.

Definition COMMANDS : list (string * handler) := [
  ("klogin", HLogin); ("klogout", HLogout); ("kls", HLs); ("ls", HLs);
  ("kexec", HExec); ("./", HExec); ("kstatus", HStatus); ("khalt", HShutdown);
  ("shutdown", HShutdown); ("exit", HShutdown); ("help", HHelp)].

Fixpoint commands_get (k : string) (l : list (string * handler)) : option handler :=
  match l with
  | [] => None
  | (k', h) :: l' => if String.eqb k k' then Some h else commands_get k l'
  end.

(** [command_handler(os_state, args_dict, positional_args,
    get_input_func=get_user_input)]: the [help] entry is
    [lambda state, ad, pa: print_help()], which has no [get_input_func]
    parameter, so the call raises [TypeError]. *)
Definition call_handler (h : handler) (ad : args_dict) (positional_args : list string)
    (get_input_func : input_func) : M unit :=
  match h with
  | HLogin => handle_login ad positional_args get_input_func
  | HLogout => handle_logout ad positional_args get_input_func
  | HLs => handle_ls ad positional_args get_input_func
  | HExec => handle_exec ad positional_args get_input_func
  | HStatus => handle_status ad positional_args get_input_func
  | HShutdown => handle_shutdown ad positional_args get_input_func false
  | HHelp => raise TypeError
  end.

(** [get_user_input] as passed to the handlers, which call it with a
    positional prompt. *)
Definition handler_input : input_func := fun p => get_user_input (Some p).

(** The command table lookup of [command_loop]. *)
Definition lookup_command (command_name_raw : string) : option handler :=
  if py_startswith "./" command_name_raw then commands_get "./" COMMANDS
  else commands_get (py_lower command_name_raw) COMMANDS.

(** One iteration of the [while True] body of [command_loop]; a
    [continue] ends the iteration. *)
Definition command_loop_step : M unit :=
  check_time_limit "Idle State";;  (* Check time limit periodically *)
  full_command_line ← get_user_input None;
  if String.eqb full_command_line "" then mret ()
  else
    let parts := py_split full_command_line in
    let command_name_raw := default "" (head parts) in
    let command_args_raw := tail parts in
    let command_handler := lookup_command command_name_raw in
    let '(ad, positional_args) :=
      if py_startswith "./" command_name_raw then parse_args parts
      else parse_args command_args_raw in
    u ← pseudo_uuid;
    modify_st (with_last_command_ref (Some ("CMD-" ++ py_slice_to 6 u)));;
    w ← get;
    log_system_message ("Processing command: '" ++ command_name_raw
                        ++ "', Args: {args_dict}, Positional: {positional_args}, Ref: "
                        ++ opt_str (last_command_ref (st w))) "CMD";;
    let run : M unit :=
      match command_handler with
      | Some h =>
          try_except
            (call_handler h ad positional_args handler_input;;
             w1 ← get;
             log_system_message ("Command '" ++ command_name_raw ++ "' processing complete (Ref: "
                                 ++ opt_str (last_command_ref (st w1)) ++ ").") "CMD")
            (fun e =>
               log_system_message ("Runtime error during execution of '" ++ command_name_raw
                                   ++ "': {e}") "ERROR";;
               py_print ("*** Error executing command '" ++ command_name_raw
                         ++ "'. Consult system logs. ***"))
      | None =>
          if negb (String.eqb command_name_raw "help") then
            log_system_message ("Unknown command: '" ++ command_name_raw
                                ++ "'. Command ignored. Type 'help'.") "ERROR"
          else mret ()
      end in
    (* Pre-command arbitrary check *)
    if bool_decide (is_Some command_handler)
       && negb (existsb (String.eqb command_name_raw) ["klogin"; "help"; "exit"; "shutdown"; "khalt"])
    then
      allowed ← check_operational_mandate "STANDARD";
      if negb allowed then
        log_system_message ("Command '" ++ command_name_raw ++ "' blocked by operational mandate.") "WARN"
      else run
    else run.

(** [command_loop()], run for [n] iterations of its [while True]. *)
Fixpoint command_loop (n : nat) : M unit :=
  match n with
  | O => mret ()
  | S n' => command_loop_step;; command_loop n'
  end.

Definition initialize_system : M unit :=
  py_print "{boot banner}";;
  log_system_message "Boot sequence started." "SYSTEM";;
  perform_simulated_check "Core Kernel Module Integrity Verification" BASE_CHECK_DELAY_MEDIUM_MS;;
  log_system_message "Loading Module: kos_auth (Authentication Services)..." "INFO";;
  sleep_random BASE_CHECK_DELAY_SHORT_MS;;
  log_system_message "Loading Module: kos_fs (Filesystem Interface Layer)..." "INFO";;
  sleep_random BASE_CHECK_DELAY_SHORT_MS;;
  log_system_message "Loading Module: kos_proc (Process Execution Subsystem)..." "INFO";;
  sleep_random BASE_CHECK_DELAY_SHORT_MS;;
  log_system_message "Loading Module: kos_status (System Health Monitor)..." "INFO";;
  sleep_random BASE_CHECK_DELAY_SHORT_MS;;
  log_system_message "Loading Module: kos_shutdown (Termination Control)..." "INFO";;
  sleep_random BASE_CHECK_DELAY_SHORT_MS;;
  log_system_message "Loading Module: kos_bureaucracy (Compliance & Oversight Engine)..." "INFO";;
  sleep_random BASE_CHECK_DELAY_MEDIUM_MS;;
  perform_simulated_check "Initializing Audit & Compliance Subsystems (RCCS)" BASE_CHECK_DELAY_SHORT_MS;;
  perform_simulated_check "Final Compliance Scan against Mandate Delta-Fragmented" BASE_CHECK_DELAY_LONG_MS;;
  log_system_message ("Applying session temporal constraints via " ++ TIME_LIMIT_MANDATE) "INFO";;
  simulate_forwarding "BOOT" OS_VERSION "System Boot Event";;
  log_system_message "System boot sequence complete. Awaiting user authentication." "SYSTEM";;
  py_print "{welcome banner}".

(** main_kos.py: boot, then the command loop ([n] iterations). *)
Definition main_kos (n : nat) : M unit :=
  try_except initialize_system
    (fun _ => py_print "FATAL BOOT ERROR: {e}";; sys_exit 10);;
  try_finally
    (try_except_exit (command_loop n)
       (fun code => log_system_message ("Session terminated with exit code "
                                        ++ z_to_string code ++ ".") "SYSTEM")
       (fun _ =>
          log_system_message "UNHANDLED SYSTEM EXCEPTION in command loop: {e}" "FATAL";;
          py_print "
*** A CRITICAL SYSTEM ERROR OCCURRED: {e} ***";;
          (* main_kos.py does not import kos_utility *)
          raise NameError))
    (py_print "
KafkaOS session ended.").

(** A sample environment: every [random.random()] draw is 1/2, every
    uuid the same, the monotonic clock at 0 and the wall clock fixed at
    [now]; the user types the lines of [ins] without delay. *)
Definition sample_world (ins : list (Q * string)) (now : walltime) : world :=
  mk_world initial_os_state ins (fun _ => 1 # 2) 0
    (fun _ => "ABCDEF12-3456-7890-ABCD-EF1234567890") 0 0 (fun _ => now) [].

(** Tuesday (weekday 1), 7 minutes and 30 seconds past the hour. *)
Definition tuesday_prime_minute : walltime := mk_walltime 7 30 1.

(** The same environment with "alice" logged in, her session timer
    started at [start] and the monotonic clock at [now_mono]. *)
Definition alice_session_world (ins : list (Q * string)) (start now_mono : Q) : world :=
  mk_world
    (with_session_start_time start
       (with_is_authenticated true (with_user_id (Some "alice") initial_os_state)))
    ins (fun _ => 1 # 2) 0 (fun _ => "ABCDEF12-3456-7890-ABCD-EF1234567890") 0 now_mono
    (fun _ => tuesday_prime_minute) [].

(* ------------------------------------------------------------------ *)
(** ** kos_rejection.py: the commands it is written for

    The module's header: "Handles rejection and circular verification
    for non-KafkaOS commands". *)
Definition KNOWN_REJECTED_COMMANDS : list string := [
  "ls"; "cd"; "pwd"; "mkdir"; "rmdir"; "rm"; "cp"; "mv"; "cat"; "less"; "more";
  "head"; "tail"; "grep"; "find"; "ps"; "kill"; "top"; "df"; "du"; "chmod";
  "chown"; "ssh"; "scp"; "wget"; "curl"; "ping"; "ifconfig"; "ip"; "netstat";
  "sudo"; "su"; "man"; "apt"; "yum"; "dnf"; "nano"; "vim"; "emacs"].

(* ------------------------------------------------------------------ *)
(** ** kos_rejection.py: the layout of [handle_rejected_command]

    Python checks the indentation of the logical lines of a module
    before it runs any of it.  A line indented deeper than the current
    block opens a new block only right after a line ending in [:]
    ("unexpected indent" otherwise); a line right after a [:] must be
    indented deeper ("expected an indented block"); a shallower line
    must return to an enclosing level. *)
Inductive indent_result :=
  | IndentOk
  | UnexpectedIndent (lineno : nat)
  | ExpectedIndentedBlock (lineno : nat)
  | UnindentMismatch (lineno : nat).

Fixpoint dedent (col : nat) (stack : list nat) : option (list nat) :=
  match stack with
  | [] => None
  | top :: rest =>
      if Nat.eqb col top then Some stack
      else if Nat.ltb col top then dedent col rest else None
  end.

(** Logical lines as (line number, indentation, ends in [:]). *)
Fixpoint check_indentation (stack : list nat) (opens : bool)
    (lines : list (nat * nat * bool)) : indent_result :=
  match lines with
  | [] => IndentOk
  | (lineno, col, opener) :: rest =>
      if Nat.ltb (default 0 (head stack)) col then
        if opens then check_indentation (col :: stack) opener rest
        else UnexpectedIndent lineno
      else if opens then ExpectedIndentedBlock lineno
      else
        match dedent col stack with
        | Some stack' => check_indentation stack' opener rest
        | None => UnindentMismatch lineno
        end
  end.

(** The non-blank, non-comment lines 33 to 94 of kos_rejection.py:
    [def handle_rejected_command(...):] to the stray [else:] block. *)
Definition handle_rejected_command_layout : list (nat * nat * bool) :=
  [(33, 0, true); (34, 4, false); (35, 4, false); (36, 4, false); (37, 4, false);
   (38, 4, false); (40, 4, false); (41, 4, false); (44, 4, false); (45, 4, false);
   (46, 4, false); (49, 4, false); (50, 4, false); (52, 4, true); (53, 8, false);
   (54, 8, false); (57, 8, false); (58, 8, true); (59, 12, false); (61, 12, false);
   (62, 8, true); (63, 12, false); (64, 12, false); (67, 8, false); (68, 8, true);
   (69, 12, false); (71, 8, true); (73, 12, false); (74, 12, false); (75, 12, false);
   (78, 8, false); (79, 8, false); (80, 8, true); (81, 12, false); (82, 12, false);
   (84, 4, false); (85, 4, false); (86, 4, false); (87, 4, false); (88, 4, false);
   (89, 4, false); (90, 4, false); (91, 4, false); (93, 8, true); (94, 12, false)].

(* ================================================================== *)
(** * Reasoning about the embedding *)

Open Scope list_scope.

(** The audit forwardings recorded in a trace, by entity key. *)
Fixpoint forwards (t : list event) : list string :=
  match t with
  | [] => []
  | EvForward k _ :: t' => k :: forwards t'
  | _ :: t' => forwards t'
  end.

Lemma forwards_app t1 t2 : forwards (t1 ++ t2)%list = (forwards t1 ++ forwards t2)%list.
Proof. induction t1 as [|[] t1 IH]; simpl; rewrite ?IH; reflexivity. Qed.

(** A step that leaves the session state and the input alone and
    forwards nothing: only logging, printing, sleeping and drawing. *)
Definition quiet_step (w w' : world) : Prop :=
  st w' = st w /\ inputs w' = inputs w /\
  exists new, trace w' = (trace w ++ new)%list /\ forwards new = [].

(** A step that forwards exactly one audit event, tagged [k], and
    changes nothing in the session state but the backlog, by one. *)
Definition fwd_step (k : string) (w w' : world) : Prop :=
  st w' = with_pending_reviews (pending_reviews (st w) + 1) (st w) /\ inputs w' = inputs w /\
  exists new, trace w' = (trace w ++ new)%list /\ forwards new = [k].

Lemma quiet_step_refl w : quiet_step w w.
Proof. split; [|split]; [reflexivity..|]. exists []. rewrite app_nil_r. done. Qed.

Lemma quiet_step_trans w1 w2 w3 : quiet_step w1 w2 -> quiet_step w2 w3 -> quiet_step w1 w3.
Proof.
  intros (S1 & I1 & n1 & T1 & F1) (S2 & I2 & n2 & T2 & F2).
  split; [congruence|split; [congruence|]].
  exists (n1 ++ n2). rewrite T2, T1, app_assoc, forwards_app, F1, F2. done.
Qed.

Lemma fwd_step_quiet_l k w1 w2 w3 : quiet_step w1 w2 -> fwd_step k w2 w3 -> fwd_step k w1 w3.
Proof.
  intros (S1 & I1 & n1 & T1 & F1) (S2 & I2 & n2 & T2 & F2).
  split; [rewrite S2, S1; reflexivity|split; [congruence|]].
  exists (n1 ++ n2). rewrite T2, T1, app_assoc, forwards_app, F1, F2. done.
Qed.

Lemma fwd_step_quiet_r k w1 w2 w3 : fwd_step k w1 w2 -> quiet_step w2 w3 -> fwd_step k w1 w3.
Proof.
  intros (S1 & I1 & n1 & T1 & F1) (S2 & I2 & n2 & T2 & F2).
  split; [rewrite S2, S1; reflexivity|split; [congruence|]].
  exists (n1 ++ n2). rewrite T2, T1, app_assoc, forwards_app, F1, F2, app_nil_r. done.
Qed.

(** Computations that always return and are quiet. *)
Definition quiet {A} (m : M A) : Prop :=
  forall w, exists a w', m w = (Ret a, w') /\ quiet_step w w'.

Lemma quiet_ret {A} (a : A) : quiet (mret a).
Proof. intros w. exists a, w. split; [reflexivity|apply quiet_step_refl]. Qed.

Lemma quiet_get : quiet get.
Proof. intros w. exists w, w. split; [reflexivity|apply quiet_step_refl]. Qed.

Lemma quiet_bind {A B} (m : M A) (f : A -> M B) :
  quiet m -> (forall a, quiet (f a)) -> quiet (m ≫= f).
Proof.
  intros Hm Hf w. destruct (Hm w) as (a & w1 & E1 & Q1).
  destruct (Hf a w1) as (b & w2 & E2 & Q2).
  exists b, w2. unfold mbind, M_bind. rewrite E1. split; [exact E2|].
  eapply quiet_step_trans; eauto.
Qed.

Lemma quiet_emit e : (forall k c, e <> EvForward k c) -> quiet (emit e).
Proof.
  intros He w. exists tt, (add_event e w). split; [reflexivity|].
  split; [reflexivity|split; [reflexivity|]]. exists [e]. split; [reflexivity|].
  destruct e; simpl; try reflexivity. exfalso. eapply He. reflexivity.
Qed.

Lemma quiet_emit_log l s : quiet (emit (EvLog l s)).
Proof. apply quiet_emit. discriminate. Qed.
Lemma quiet_emit_print s : quiet (emit (EvPrint s)).
Proof. apply quiet_emit. discriminate. Qed.
Lemma quiet_emit_prompt s : quiet (emit (EvPrompt s)).
Proof. apply quiet_emit. discriminate. Qed.
Lemma quiet_emit_sleep q : quiet (emit (EvSleep q)).
Proof. apply quiet_emit. discriminate. Qed.

(** Modifications of the world outside the session state, the input
    and the trace. *)
Lemma quiet_modify (f : world -> world) :
  (forall w, st (f w) = st w /\ inputs (f w) = inputs w /\ trace (f w) = trace w) ->
  quiet (modify f).
Proof.
  intros Hf w. destruct (Hf w) as (S & I & T). exists tt, (f w).
  split; [reflexivity|]. split; [exact S|split; [exact I|]]. exists [].
  rewrite T, app_nil_r. done.
Qed.

Create HintDb quiet.
#[global] Hint Resolve quiet_ret quiet_get quiet_emit_log quiet_emit_print quiet_emit_prompt
  quiet_emit_sleep : quiet.

Ltac quiet_tac :=
  repeat first
    [ progress cbv beta zeta
    | solve [eauto with quiet]
    | apply quiet_bind; [ | intro ]
    | case_match
    | apply quiet_modify; intros; simpl; repeat split ].

Lemma quiet_py_random : quiet py_random.
Proof. unfold py_random. quiet_tac. Qed.
#[global] Hint Resolve quiet_py_random : quiet.

Lemma quiet_pseudo_uuid : quiet pseudo_uuid.
Proof. unfold pseudo_uuid. quiet_tac. Qed.
#[global] Hint Resolve quiet_pseudo_uuid : quiet.

Lemma quiet_sleep_random ms : quiet (sleep_random ms).
Proof. unfold sleep_random, random_delay. quiet_tac. Qed.
#[global] Hint Resolve quiet_sleep_random : quiet.

Lemma quiet_log_system_message msg lvl : quiet (log_system_message msg lvl).
Proof. unfold log_system_message. quiet_tac. Qed.
#[global] Hint Resolve quiet_log_system_message : quiet.

Lemma quiet_py_print s : quiet (py_print s).
Proof. unfold py_print. quiet_tac. Qed.
#[global] Hint Resolve quiet_py_print : quiet.

Lemma quiet_perform_simulated_check n ms : quiet (perform_simulated_check n ms).
Proof. unfold perform_simulated_check. quiet_tac. Qed.
#[global] Hint Resolve quiet_perform_simulated_check : quiet.

Lemma quiet_apply_procedural_friction r : quiet (apply_procedural_friction r).
Proof. unfold apply_procedural_friction. quiet_tac. Qed.
#[global] Hint Resolve quiet_apply_procedural_friction : quiet.

(** Weakest preconditions over one run. *)
Definition wp {A} (m : M A) (Q : outcome A -> world -> Prop) (w : world) : Prop :=
  let '(o, w') := m w in Q o w'.

Lemma wp_bind {A B} (m : M A) (f : A -> M B) Q w :
  wp m (fun o w' => match o with
                    | Ret a => wp (f a) Q w'
                    | Raise e => Q (Raise e) w'
                    | Exit c => Q (Exit c) w'
                    end) w ->
  wp (m ≫= f) Q w.
Proof. unfold wp, mbind, M_bind. destruct (m w) as [[a|e|c] w']; auto. Qed.

Lemma wp_quiet {A} (m : M A) Q w :
  quiet m -> (forall a w', quiet_step w w' -> Q (Ret a) w') -> wp m Q w.
Proof. intros Hm HQ. unfold wp. destruct (Hm w) as (a & w' & -> & Hs). auto. Qed.

Lemma wp_ret {A} (a : A) Q w : Q (Ret a) w -> wp (mret a) Q w.
Proof. auto. Qed.

Lemma wp_get_bind {A} (f : world -> M A) Q w : wp (f w) Q w -> wp (get ≫= f) Q w.
Proof. auto. Qed.

Lemma wp_modify f Q w : Q (Ret tt) (f w) -> wp (modify f) Q w.
Proof. auto. Qed.

Lemma wp_raise {A} e Q w : Q (Raise e) w -> wp (@raise A e) Q w.
Proof. auto. Qed.

Lemma wp_sys_exit {A} c Q w : Q (Exit c) w -> wp (@sys_exit A c) Q w.
Proof. auto. Qed.

Ltac wp_step :=
  match goal with
  | |- wp (get ≫= _) _ _ => apply wp_get_bind
  | |- wp (mret _) _ _ => apply wp_ret
  | |- wp (_ ≫= _) _ _ => apply wp_bind
  | |- wp (modify _) _ _ => apply wp_modify
  | |- wp (raise _) _ _ => apply wp_raise
  | |- wp (sys_exit _) _ _ => apply wp_sys_exit
  | |- wp _ _ _ =>
      apply wp_quiet; [solve [eauto with quiet] | let a := fresh "a" in let w := fresh "w" in
                                                  let Hq := fresh "Hq" in intros a w Hq]
  end; cbv beta iota.

Lemma fwd_step_here k c w :
  fwd_step k w (add_event (EvForward k c)
                  (set_st (with_pending_reviews (pending_reviews (st w) + 1) (st w)) w)).
Proof. split; [reflexivity|split; [reflexivity|]]. exists [EvForward k c]. done. Qed.

Ltac destruct_unit := repeat match goal with u : unit |- _ => destruct u end.

(** Compose the steps of a run, left to right. *)
Ltac collapse :=
  repeat match goal with
  | H1 : quiet_step ?a ?b, H2 : quiet_step ?b ?c |- _ =>
      pose proof (quiet_step_trans _ _ _ H1 H2); clear H1 H2
  | H1 : quiet_step ?a ?b, H2 : fwd_step ?k ?b ?c |- _ =>
      pose proof (fwd_step_quiet_l _ _ _ _ H1 H2); clear H1 H2
  | H1 : fwd_step ?k ?a ?b, H2 : quiet_step ?b ?c |- _ =>
      pose proof (fwd_step_quiet_r _ _ _ _ H1 H2); clear H1 H2
  end.

Ltac chain_steps := collapse; first [assumption | apply quiet_step_refl].

(** The audit forwarder: always returns, one forwarding, backlog + 1. *)
Lemma simulate_forwarding_wp k c d w :
  wp (simulate_forwarding k c d) (fun o w' => o = Ret tt /\ fwd_step k w w') w.
Proof.
  unfold simulate_forwarding, modify_st, emit.
  repeat wp_step. destruct_unit. split; [reflexivity|].
  match goal with
  | H : quiet_step (add_event (EvForward ?k ?c) (set_st _ ?w1)) _ |- _ =>
      pose proof (fwd_step_here k c w1)
  end.
  chain_steps.
Qed.

Lemma simulate_forwarding_spec k c d w :
  exists w', simulate_forwarding k c d w = (Ret tt, w') /\ fwd_step k w w'.
Proof.
  pose proof (simulate_forwarding_wp k c d w) as H. unfold wp in H.
  destruct (simulate_forwarding k c d w) as [o w']. destruct H as [-> H]. eauto.
Qed.

Lemma wp_simulate_forwarding k c d Q w :
  (forall w', fwd_step k w w' -> Q (Ret tt) w') -> wp (simulate_forwarding k c d) Q w.
Proof.
  intros HQ. unfold wp. destruct (simulate_forwarding_spec k c d w) as (w' & -> & H). auto.
Qed.

(* ------------------------------------------------------------------ *)
(** ** Trial division decides primality *)

Lemma trial_division_true minute l :
  trial_division minute l = true <-> Forall (fun i => minute mod i <> 0)%Z l.
Proof.
  induction l as [|i l IH]; simpl.
  - split; auto.
  - destruct (Z.eqb_spec (minute mod i) 0) as [E|E].
    + split; [discriminate|]. intros H. inversion H. contradiction.
    + rewrite IH. split; [intros H; constructor; auto|intros H; inversion H; auto].
Qed.

Lemma py_range_elem i a b : In i (py_range a b) <-> (a <= i < b)%Z.
Proof.
  unfold py_range. rewrite in_map_iff. split.
  - intros (k & <- & Hk). apply in_seq in Hk. lia.
  - intros H. exists (Z.to_nat (i - a)). split; [lia|]. apply in_seq. lia.
Qed.

Lemma mandate_is_prime_spec minute :
  mandate_is_prime minute = true <-> Z.prime minute.
Proof.
  unfold mandate_is_prime, Z.prime.
  destruct (Z.ltb_spec minute 2) as [Hlt|Hge].
  - split; [discriminate|lia].
  - rewrite trial_division_true, Forall_forall.
    pose proof (Z.sqrt_spec minute ltac:(lia)) as Hs. cbv zeta in Hs.
    pose proof (Z.sqrt_nonneg minute).
    set (s := Z.sqrt minute) in *.
    split.
    + intros Hno. split; [lia|]. intros n Hn (e & He).
      assert (Hsmall : forall d, (2 <= d <= s)%Z -> ~ (d | minute)%Z).
      { intros d Hd Hdiv. apply (Hno d); [apply list_elem_of_In, py_range_elem; lia|].
        apply Z.mod_divide; [lia|exact Hdiv]. }
      destruct (Z.le_gt_cases n s) as [Hns|Hns].
      * apply (Hsmall n); [lia|exists e; exact He].
      * assert (He2 : (2 <= e)%Z) by nia.
        destruct (Z.le_gt_cases e s) as [Hes|Hes].
        -- apply (Hsmall e); [lia|exists n; lia].
        -- nia.
    + intros (H1 & Hp) i Hi Hmod. apply list_elem_of_In, py_range_elem in Hi.
      apply Z.mod_divide in Hmod; [|lia].
      apply (Hp i); [nia|exact Hmod].
Qed.

(* ------------------------------------------------------------------ *)
(** ** The mandate evaluator *)

Ltac wp_tac :=
  repeat first
    [ progress cbv zeta
    | match goal with
      | |- wp (simulate_forwarding _ _ _) _ _ =>
          apply wp_simulate_forwarding;
          let w := fresh "w" in let H := fresh "Hf" in intros w H; cbv beta iota
      end
    | wp_step
    | case_match ].

Ltac wp_finish :=
  destruct_unit;
  first [ left; split; [reflexivity|chain_steps]
        | right; split; [reflexivity|chain_steps] ].

(** Every run of the evaluator returns a decision; a denial comes with
    exactly one ARBITRARY_LOCKOUT forwarding, an approval with none. *)
Lemma check_operational_mandate_wp cl w :
  wp (check_operational_mandate cl)
     (fun o w' => (o = Ret false /\ fwd_step "ARBITRARY_LOCKOUT" w w')
               \/ (o = Ret true /\ quiet_step w w')) w.
Proof.
  unfold check_operational_mandate, mandate_deny. wp_tac; wp_finish.
Qed.

Lemma check_operational_mandate_outcome cl w :
  (fst (check_operational_mandate cl w) = Ret false /\
   fwd_step "ARBITRARY_LOCKOUT" w (snd (check_operational_mandate cl w)))
  \/ (fst (check_operational_mandate cl w) = Ret true /\
      quiet_step w (snd (check_operational_mandate cl w))).
Proof.
  pose proof (check_operational_mandate_wp cl w) as H. unfold wp in H.
  destruct (check_operational_mandate cl w). exact H.
Qed.

(** Rule 1 decides before any of the random rules is reached. *)
Lemma check_operational_mandate_rule1 w :
  wt_weekday (wall w (mono w)) = LOCKOUT_PRIME_MINUTE_FILESYSTEM_DAY ->
  mandate_is_prime (wt_minute (wall w (mono w))) = true ->
  wp (check_operational_mandate "FILESYSTEM") (fun o _ => o = Ret false) w.
Proof.
  intros Hday Hp. unfold check_operational_mandate, mandate_deny.
  apply wp_get_bind. cbv zeta. rewrite Hday, Hp, Z.eqb_refl, String.eqb_refl. cbn [andb].
  wp_tac; reflexivity.
Qed.

(* ------------------------------------------------------------------ *)
(** ** The backlog never decreases *)

(** A computation after which the backlog is at least what it was,
    whatever way it ends. *)
Definition pmono {A} (m : M A) : Prop :=
  forall w, (pending_reviews (st w) <= pending_reviews (st (snd (m w))))%Z.

Lemma pmono_quiet {A} (m : M A) : quiet m -> pmono m.
Proof.
  intros Hm w. destruct (Hm w) as (a & w' & -> & S & _). simpl. rewrite S. lia.
Qed.

Lemma pmono_bind {A B} (m : M A) (f : A -> M B) :
  pmono m -> (forall a, pmono (f a)) -> pmono (m ≫= f).
Proof.
  intros Hm Hf w. specialize (Hm w). unfold mbind, M_bind.
  destruct (m w) as [[a|e|c] w'] eqn:E; simpl in *; try exact Hm.
  specialize (Hf a w'). lia.
Qed.

Lemma pmono_try_except {A} (m : M A) (h : exn -> M A) :
  pmono m -> (forall e, pmono (h e)) -> pmono (try_except m h).
Proof.
  intros Hm Hh w. specialize (Hm w). unfold try_except.
  destruct (m w) as [[a|e|c] w'] eqn:E; simpl in *; try exact Hm.
  specialize (Hh e w'). lia.
Qed.

Lemma pmono_try_except_exit {A} (m : M A) hx h :
  pmono m -> (forall c, pmono (hx c)) -> (forall e, pmono (h e)) -> pmono (try_except_exit m hx h).
Proof.
  intros Hm Hx Hh w. specialize (Hm w). unfold try_except_exit.
  destruct (m w) as [[a|e|c] w'] eqn:E; simpl in *; try exact Hm.
  - specialize (Hh e w'). lia.
  - specialize (Hx c w'). lia.
Qed.

Lemma pmono_try_finally {A} (m : M A) fin :
  pmono m -> pmono fin -> pmono (try_finally m fin).
Proof.
  intros Hm Hf w. specialize (Hm w). unfold try_finally.
  destruct (m w) as [o w'] eqn:E. specialize (Hf w').
  destruct (fin w') as [[a|e|c] w''] eqn:F; simpl in *; lia.
Qed.

Lemma pmono_ret {A} (a : A) : pmono (mret a).
Proof. intros w. simpl. lia. Qed.

Lemma pmono_get : pmono get.
Proof. intros w. simpl. lia. Qed.

Lemma pmono_raise {A} e : pmono (@raise A e).
Proof. intros w. simpl. lia. Qed.

Lemma pmono_sys_exit {A} c : pmono (@sys_exit A c).
Proof. intros w. simpl. lia. Qed.

Lemma pmono_modify f :
  (forall w, (pending_reviews (st w) <= pending_reviews (st (f w)))%Z) -> pmono (modify f).
Proof. intros Hf w. apply Hf. Qed.

Lemma pmono_simulate_forwarding k c d : pmono (simulate_forwarding k c d).
Proof.
  intros w. destruct (simulate_forwarding_spec k c d w) as (w' & -> & S & _).
  simpl. rewrite S. simpl. lia.
Qed.

Create HintDb pmono.
#[global] Hint Resolve pmono_ret pmono_get pmono_raise pmono_sys_exit
  pmono_simulate_forwarding : pmono.
#[global] Hint Extern 1 (pmono _) => apply pmono_quiet; solve [eauto with quiet] : pmono.

Ltac pmono_tac :=
  repeat first
    [ progress cbv beta zeta
    | solve [eauto with pmono]
    | apply pmono_bind; [ | intro ]
    | apply pmono_try_except; [ | intro ]
    | case_match
    | apply pmono_modify; intros; simpl; lia ].

Lemma pmono_check_operational_mandate cl : pmono (check_operational_mandate cl).
Proof. unfold check_operational_mandate, mandate_deny. pmono_tac. Qed.
#[global] Hint Resolve pmono_check_operational_mandate : pmono.

Lemma pmono_check_time_limit s : pmono (check_time_limit s).
Proof. unfold check_time_limit. pmono_tac. Qed.
#[global] Hint Resolve pmono_check_time_limit : pmono.

Lemma pmono_call_check_time_limit args : pmono (call_check_time_limit args).
Proof. unfold call_check_time_limit. pmono_tac. Qed.
#[global] Hint Resolve pmono_call_check_time_limit : pmono.

Section InputFunc.
Variable gif : input_func.
Hypothesis Hgif : forall p, pmono (gif p).
#[local] Hint Resolve Hgif : pmono.

Lemma pmono_verify_action_intent c rp pce rr :
  pmono (verify_action_intent c gif rp pce rr).
Proof. unfold verify_action_intent. pmono_tac. Qed.
#[local] Hint Resolve pmono_verify_action_intent : pmono.

Lemma pmono_handle_shutdown ad pa forced : pmono (handle_shutdown ad pa gif forced).
Proof. unfold handle_shutdown. pmono_tac. Qed.

Lemma pmono_handle_login ad pa : pmono (handle_login ad pa gif).
Proof. unfold handle_login. pmono_tac. Qed.

Lemma pmono_handle_logout ad pa : pmono (handle_logout ad pa gif).
Proof. unfold handle_logout. pmono_tac. Qed.

Lemma pmono_handle_ls ad pa : pmono (handle_ls ad pa gif).
Proof. unfold handle_ls. pmono_tac. Qed.

Lemma pmono_handle_exec ad pa : pmono (handle_exec ad pa gif).
Proof. unfold handle_exec, py_randint. pmono_tac. Qed.

Lemma pmono_handle_status ad pa : pmono (handle_status ad pa gif).
Proof. unfold handle_status. pmono_tac. Qed.
End InputFunc.

#[global] Hint Resolve pmono_verify_action_intent pmono_handle_shutdown pmono_handle_login
  pmono_handle_logout pmono_handle_ls pmono_handle_exec pmono_handle_status : pmono.

Lemma pmono_py_input p : pmono (py_input p).
Proof. unfold py_input. pmono_tac. Qed.
#[global] Hint Resolve pmono_py_input : pmono.

Lemma pmono_get_user_input p : pmono (get_user_input p).
Proof.
  unfold get_user_input. pmono_tac.
Qed.
#[global] Hint Resolve pmono_get_user_input : pmono.

Lemma pmono_handler_input p : pmono (handler_input p).
Proof. apply pmono_get_user_input. Qed.
#[global] Hint Resolve pmono_handler_input : pmono.

Lemma pmono_call_handler h ad pa : pmono (call_handler h ad pa handler_input).
Proof. unfold call_handler. pmono_tac. Qed.
#[global] Hint Resolve pmono_call_handler : pmono.

Lemma pmono_command_loop_step : pmono command_loop_step.
Proof. unfold command_loop_step. pmono_tac. Qed.
#[global] Hint Resolve pmono_command_loop_step : pmono.

Lemma pmono_command_loop n : pmono (command_loop n).
Proof. induction n as [|n IH]; simpl; pmono_tac. Qed.

Lemma pmono_initialize_system : pmono initialize_system.
Proof. unfold initialize_system. pmono_tac. Qed.

Lemma pmono_main_kos n : pmono (main_kos n).
Proof.
  unfold main_kos. apply pmono_bind; [apply pmono_try_except; [apply pmono_initialize_system|]|].
  - intros e. pmono_tac.
  - intros _. apply pmono_try_finally; [|pmono_tac].
    apply pmono_try_except_exit; [apply pmono_command_loop|intros c|intros e]; pmono_tac.
Qed.

(* ------------------------------------------------------------------ *)
(** ** Handler call sites of [check_time_limit] *)

Lemma wp_result {A} (m : M A) Q w : wp m Q w -> Q (fst (m w)) (snd (m w)).
Proof. unfold wp. destruct (m w). auto. Qed.

(** Two positional arguments: [TypeError] before the body runs. *)
Lemma call_check_time_limit_two a b w :
  call_check_time_limit [a; b] w = (Raise TypeError, w).
Proof. reflexivity. Qed.

Lemma quiet_step_st w w' : quiet_step w w' -> st w' = st w.
Proof. intros (S & _). exact S. Qed.

Lemma verify_action_intent_wp c gif rp pce rr w :
  wp (verify_action_intent c gif rp pce rr)
     (fun o w' => o = Raise TypeError /\ quiet_step w w') w.
Proof.
  unfold verify_action_intent, call_check_time_limit. wp_tac.
  split; [reflexivity|chain_steps].
Qed.

Lemma handle_login_wp ad pa gif w :
  is_authenticated (st w) = false ->
  wp (handle_login ad pa gif) (fun o w' => o = Raise TypeError /\ quiet_step w w') w.
Proof.
  intros Ha. unfold handle_login, call_check_time_limit. wp_tac.
  - apply quiet_step_st in Hq. congruence.
  - split; [reflexivity|chain_steps].
Qed.

Lemma fwd_step_user_id k w w' : fwd_step k w w' -> user_id (st w') = user_id (st w).
Proof. intros (S & _). rewrite S. reflexivity. Qed.

(** The forced halt, reached with [--force] or [-f]. *)
Lemma handle_shutdown_forced_wp ad pa gif w :
  py_truthy (py_or (ad !! "force") (ad !! "f")) = true ->
  wp (handle_shutdown ad pa gif false)
     (fun o w' => o = Exit 0 /\ is_authenticated (st w') = false
                  /\ user_id (st w') = user_id (st w)) w.
Proof.
  intros Hf. unfold handle_shutdown, modify_st. cbv zeta. rewrite Hf.
  cbn [negb]. wp_tac; [rewrite andb_false_r in *; discriminate|].
  split; [reflexivity|split; [reflexivity|]]. simpl. collapse.
  match goal with H : fwd_step _ w _ |- _ => exact (fwd_step_user_id _ _ _ H) end.
Qed.

(* ------------------------------------------------------------------ *)
(** ** The argument parser *)

(** The key a [--] token writes: [key[2:]] of [--key=value], or
    [arg[2:]] of [--key]. *)
Definition double_dash_key (t : string) : string :=
  py_slice_from 2 (if contains_char "=" t then fst (split_once "=" t) else t).

(** Whether the token is a [--] option that names the key [k]. *)
Definition names_key (k t : string) : bool :=
  py_startswith "--" t && String.eqb (double_dash_key t) k.

Lemma set_flags_keep chars ad k :
  ad !! k = Some VTrue -> set_flags chars ad !! k = Some VTrue.
Proof.
  revert ad. induction chars as [|c chars IH]; intros ad H; simpl; [exact H|].
  apply IH. destruct (decide (String c EmptyString = k)) as [<-|Hne].
  - apply lookup_insert_eq.
  - rewrite lookup_insert_ne by exact Hne. exact H.
Qed.

Lemma set_flags_sets chars ad c :
  contains_char c chars = true -> set_flags chars ad !! String c EmptyString = Some VTrue.
Proof.
  revert ad. induction chars as [|c' chars IH]; intros ad H; simpl in *; [discriminate|].
  destruct (Ascii.eqb_spec c' c) as [->|Hne].
  - apply set_flags_keep, lookup_insert_eq.
  - apply IH. exact H.
Qed.

(** A single-dash token sets its letters and consumes nothing else. *)
Lemma parse_args_loop_single_dash arg rest ad pos :
  py_startswith "-" arg = true -> py_startswith "--" arg = false ->
  parse_args_loop (arg :: rest) ad pos
  = parse_args_loop rest (set_flags (py_slice_from 1 arg) ad) pos.
Proof. intros H1 H2. simpl. rewrite H2, H1. reflexivity. Qed.

Lemma parse_args_loop_positional l ad pos :
  exists ad' extra, parse_args_loop l ad pos = (ad', pos ++ extra).
Proof.
  remember (length l) as n eqn:En. assert (Hn : length l <= n) by lia. clear En.
  revert l ad pos Hn. induction n as [|n IH]; intros l ad pos Hn.
  { destruct l; [|simpl in Hn; lia]. exists ad, []. rewrite app_nil_r. done. }
  destruct l as [|arg rest]; [exists ad, []; rewrite app_nil_r; done|]. simpl in Hn.
  cbn [parse_args_loop].
  destruct (py_startswith "--" arg).
  - destruct (contains_char "=" arg).
    + destruct (split_once "=" arg). apply IH. lia.
    + destruct rest as [|nxt rest'].
      * apply IH. simpl. lia.
      * destruct (negb (py_startswith "-" nxt)); apply IH; simpl in *; lia.
  - destruct (py_startswith "-" arg); [apply IH; lia|].
    destruct (IH rest ad (pos ++ [arg]) ltac:(lia)) as (ad' & extra & ->).
    exists ad', ([arg] ++ extra). rewrite app_assoc. done.
Qed.

(** The parse of [l1 ++ r], when [r] starts with a token beginning with
    ['-'], goes through the parse of [l1] unchanged: no token of [l1]
    takes the head of [r] as its value. *)
Lemma parse_args_loop_app l1 r ad pos :
  match r with t :: _ => py_startswith "-" t = true | [] => True end ->
  parse_args_loop (l1 ++ r) ad pos
  = let '(ad', pos') := parse_args_loop l1 ad pos in parse_args_loop r ad' pos'.
Proof.
  intros Hr. remember (length l1) as n eqn:En. assert (Hn : length l1 <= n) by lia. clear En.
  revert l1 ad pos Hn. induction n as [|n IH]; intros l1 ad pos Hn.
  { destruct l1; [reflexivity|simpl in Hn; lia]. }
  destruct l1 as [|arg l1]; [reflexivity|]. simpl in Hn. cbn [app parse_args_loop].
  destruct (py_startswith "--" arg).
  - destruct (contains_char "=" arg).
    + destruct (split_once "=" arg). apply IH. lia.
    + destruct l1 as [|nxt l1].
      * simpl. destruct r as [|t r]; [reflexivity|]. rewrite Hr. simpl. reflexivity.
      * cbn [app]. destruct (negb (py_startswith "-" nxt));
          [apply IH | apply (IH (nxt :: l1))]; simpl in *; lia.
  - destruct (py_startswith "-" arg); apply IH; lia.
Qed.

(** Tokens that do not name [k] with [--] leave [k]'s [True] alone. *)
Lemma parse_args_loop_keep k l ad pos :
  Forall (fun t => names_key k t = false) l -> ad !! k = Some VTrue ->
  (parse_args_loop l ad pos).1 !! k = Some VTrue.
Proof.
  remember (length l) as n eqn:En. assert (Hn : length l <= n) by lia. clear En.
  revert l ad pos Hn. induction n as [|n IH]; intros l ad pos Hn Hl Hk.
  { destruct l; [exact Hk|simpl in Hn; lia]. }
  destruct l as [|arg rest]; [exact Hk|]. simpl in Hn. inversion Hl as [|? ? Harg Hrest]; subst.
  unfold names_key, double_dash_key in Harg. cbn [parse_args_loop].
  destruct (py_startswith "--" arg) eqn:Edd; simpl in Harg.
  - destruct (contains_char "=" arg) eqn:Eeq.
    + destruct (split_once "=" arg) as [key value]. simpl in Harg.
      apply IH; [lia|exact Hrest|]. rewrite lookup_insert_ne; [exact Hk|].
      intros E. rewrite E, String.eqb_refl in Harg. discriminate.
    + assert (Hne : py_slice_from 2 arg <> k).
      { intros E. rewrite E, String.eqb_refl in Harg. discriminate. }
      destruct rest as [|nxt rest'].
      * simpl. rewrite lookup_insert_ne; [exact Hk|exact Hne].
      * inversion Hrest; subst. destruct (negb (py_startswith "-" nxt)).
        -- apply IH; [simpl in *; lia|assumption|]. rewrite lookup_insert_ne; [exact Hk|exact Hne].
        -- apply IH; [simpl in *; lia|assumption|]. rewrite lookup_insert_ne; [exact Hk|exact Hne].
  - destruct (py_startswith "-" arg).
    + apply IH; [lia|exact Hrest|]. apply set_flags_keep, Hk.
    + apply IH; [lia|exact Hrest|exact Hk].
Qed.

(* ------------------------------------------------------------------ *)
(** ** One iteration of the command loop on an unknown command *)

(** The idle check of [command_loop] lets the iteration go on: the
    timer is not started or the budget is not exceeded. *)
Definition budget_ok (w : world) : Prop :=
  Qeq_bool (session_start_time (st w)) 0 = true \/
  Qlt_b (inject_Z TIME_LIMIT_SECONDS) (mono w - session_start_time (st w)) = false.

(** Reading one line: the session state is untouched, the line is
    consumed, nothing is forwarded. *)
Definition read_step (rest : list (Q * string)) (w w' : world) : Prop :=
  st w' = st w /\ inputs w' = rest /\
  exists new, trace w' = (trace w ++ new)%list /\ forwards new = [].

(** A quiet step whose new events include [e]. *)
Definition logs_step (e : event) (w w' : world) : Prop :=
  quiet_step w w' /\ exists n1 n2, trace w' = (trace w ++ n1 ++ e :: n2)%list.

Lemma wp_check_time_limit_ok s Q w :
  budget_ok w -> (forall w', quiet_step w w' -> Q (Ret tt) w') -> wp (check_time_limit s) Q w.
Proof.
  intros Hb HQ. unfold check_time_limit. apply wp_get_bind. cbv zeta.
  destruct (Qeq_bool (session_start_time (st w)) 0) eqn:E0.
  { apply wp_ret, HQ, quiet_step_refl. }
  destruct Hb as [Hb|Hb]; [congruence|]. rewrite Hb.
  wp_tac; apply HQ; chain_steps.
Qed.

Lemma wp_get_user_input_line Q w dt line rest :
  inputs w = (dt, line) :: rest ->
  (forall w', read_step rest w w' -> Q (Ret (py_strip line)) w') ->
  wp (get_user_input None) Q w.
Proof.
  intros Hin HQ. unfold get_user_input, py_input. apply wp_get_bind. cbv zeta.
  apply wp_bind. apply wp_bind. apply wp_quiet; [solve [eauto with quiet]|].
  intros [] w1 Hq1. cbv beta iota. apply wp_get_bind.
  assert (E : inputs w1 = (dt, line) :: rest) by (destruct Hq1 as (_ & I & _); congruence).
  rewrite E. wp_tac. apply HQ. collapse.
  destruct Hq1 as (S1 & _ & n1 & T1 & F1).
  match goal with H : quiet_step _ _ |- _ => destruct H as (S2 & I2 & n2 & T2 & F2) end.
  split; [simpl in *; congruence|split; [simpl in *; congruence|]].
  exists (n1 ++ n2). simpl in *. rewrite T2, T1, app_assoc, forwards_app, F1, F2. done.
Qed.

Lemma wp_log_system_message_logs msg lvl Q w :
  (forall w', logs_step (EvLog lvl msg) w w' -> Q (Ret tt) w') ->
  wp (log_system_message msg lvl) Q w.
Proof.
  intros HQ. unfold log_system_message, emit. apply wp_bind, wp_modify. cbv beta iota.
  apply wp_quiet; [solve [eauto with quiet]|]. intros [] w' Hq. apply HQ.
  split.
  - eapply quiet_step_trans; [|exact Hq].
    split; [reflexivity|split; [reflexivity|]]. exists [EvLog lvl msg]. done.
  - destruct Hq as (_ & _ & n & T & _). exists [], n. rewrite T. simpl.
    rewrite <- app_assoc. reflexivity.
Qed.

(** The facts of a finished chain of steps, for bookkeeping. *)
Ltac unpack_steps :=
  repeat match goal with
  | H : quiet_step _ _ |- _ => destruct H as (? & ? & ? & ? & ?)
  | H : read_step _ _ _ |- _ => destruct H as (? & ? & ? & ? & ?)
  | H : logs_step _ _ _ |- _ => destruct H as [(? & ? & ? & ? & ?) (? & ? & ?)]
  end.

(** An iteration on a line whose first word is no command: nothing but
    the command reference changes in the session state, the line is
    consumed, the ERROR line is logged, nothing is forwarded. *)
Lemma command_loop_step_unknown w dt line rest tok args :
  budget_ok w -> inputs w = (dt, line) :: rest ->
  py_split (py_strip line) = tok :: args -> lookup_command tok = None ->
  wp command_loop_step
     (fun o w' => o = Ret tt /\ inputs w' = rest /\
        st w' = with_last_command_ref (last_command_ref (st w')) (st w) /\
        exists new, trace w' = (trace w ++ new)%list /\ forwards new = [] /\
          In (EvLog "ERROR" ("Unknown command: '" ++ tok ++ "'. Command ignored. Type 'help'."))
             new) w.
Proof.
  intros Hb Hin Hsplit Hlk.
  assert (Hne : String.eqb (py_strip line) "" = false).
  { destruct (String.eqb_spec (py_strip line) "") as [E|E]; [|reflexivity].
    rewrite E in Hsplit. discriminate. }
  assert (Hhelp : String.eqb tok "help" = false).
  { destruct (String.eqb_spec tok "help") as [->|E]; [discriminate|reflexivity]. }
  unfold command_loop_step. apply wp_bind. apply wp_check_time_limit_ok; [exact Hb|].
  intros w1 Hq1. cbv beta iota. apply wp_bind.
  apply (wp_get_user_input_line _ _ dt line rest).
  { destruct Hq1 as (_ & I & _). congruence. }
  intros w2 Hr2. cbv beta iota. rewrite Hne. cbv zeta. rewrite Hsplit.
  cbn [head tail default id]. rewrite Hlk.
  change (bool_decide (is_Some (@None handler))) with false. cbn [andb].
  rewrite Hhelp. cbn [negb].
  destruct (if py_startswith "./" tok then parse_args (tok :: args) else parse_args args)
    as [ad pos].
  apply wp_bind. apply wp_quiet; [solve [eauto with quiet]|]. intros u w3 Hq3.
  cbv beta iota. apply wp_bind, wp_modify. cbv beta iota. apply wp_get_bind.
  apply wp_bind. apply wp_quiet; [solve [eauto with quiet]|]. intros [] w4 Hq4.
  cbv beta iota. apply wp_log_system_message_logs. intros w5 Hl5.
  unpack_steps. simpl in *.
  match goal with
  | H1 : trace ?w5 = (trace ?w4 ++ ?x3)%list,
    H2 : trace ?w5 = (trace ?w4 ++ ?x4 ++ ?e :: ?x5)%list |- _ =>
      rewrite H2 in H1; apply app_inv_head in H1; subst x3; rename H2 into Htr
  end.
  split; [reflexivity|]. split; [congruence|]. split.
  { match goal with |- st ?w5 = _ =>
      assert (Hs : st w5 = with_last_command_ref (Some ("CMD-" ++ py_slice_to 6 u)%string) (st w))
        by congruence; rewrite Hs; reflexivity end. }
  eexists. split.
  { repeat match goal with H : trace _ = _ |- _ => rewrite H; clear H end.
    rewrite <- !app_assoc. reflexivity. }
  rewrite !forwards_app in *. simpl in *.
  repeat match goal with H : forwards _ = [] |- _ => rewrite H; clear H end. simpl.
  split; [assumption|].
  rewrite !in_app_iff. simpl. tauto.
Qed.

Lemma py_startswith_dash_dash s : py_startswith "--" s = true -> py_startswith "-" s = true.
Proof.
  unfold py_startswith. destruct s as [|c s]; [discriminate|]. cbn [String.prefix].
  destruct (Ascii.ascii_dec "-" c); [|discriminate]. intros _. destruct s; reflexivity.
Qed.

(** Scenario A end to end: a fresh session typing [klogin], a username,
    a password and a six-digit token.  The handler dies on its first
    time check, the loop reports the error, nobody is logged in, the
    backlog is untouched and the three answers are left unread. *)
Lemma scenario_a_login_run :
  let r := command_loop 1
             (sample_world [(0%Q, "klogin"); (0%Q, "alice"); (0%Q, "pw"); (0%Q, "123456")]
                tuesday_prime_minute) in
  fst r = Ret tt /\ is_authenticated (st (snd r)) = false /\ user_id (st (snd r)) = None
  /\ pending_reviews (st (snd r)) = 0%Z
  /\ inputs (snd r) = [(0%Q, "alice"); (0%Q, "pw"); (0%Q, "123456")]
  /\ In (EvLog "ERROR" "Runtime error during execution of 'klogin': {e}") (trace (snd r)).
Proof.
  vm_compute. repeat split. repeat (first [left; reflexivity | right]).
Qed.

(* ------------------------------------------------------------------ *)
(** ** Sessions that never log in *)

(** Nobody logged in and the session timer not started. *)

Definition logged_out (s : os_state) : Prop :=
  is_authenticated s = false /\ user_id s = None /\ session_start_time s = 0%Q.

Lemma logged_out_quiet w w' : quiet_step w w' -> logged_out (st w) -> logged_out (st w').
Proof. intros (S & _) H. rewrite S. exact H. Qed.

Lemma logged_out_fwd k w w' : fwd_step k w w' -> logged_out (st w) -> logged_out (st w').
Proof. intros (S & _) (A & U & T). rewrite S. split; [|split]; assumption. Qed.

Lemma wp_try_except {A} (m : M A) h Q w :
  wp m (fun o w' => match o with Raise e => wp (h e) Q w' | _ => Q o w' end) w ->
  wp (try_except m h) Q w.
Proof. unfold wp, try_except. destruct (m w) as [[a|e|c] w']; auto. Qed.

Lemma wp_call_check_time_limit_two a b Q w :
  Q (Raise TypeError) w -> wp (call_check_time_limit [a; b]) Q w.
Proof. auto. Qed.

Lemma wp_check_time_limit_lo s Q w :
  logged_out (st w) -> Q (Ret tt) w -> wp (check_time_limit s) Q w.
Proof.
  intros (_ & _ & T) HQ. unfold check_time_limit. apply wp_get_bind. cbv zeta.
  rewrite T. exact HQ.
Qed.

Lemma wp_check_operational_mandate_lo cl Q w :
  logged_out (st w) -> (forall b w', logged_out (st w') -> Q (Ret b) w') ->
  wp (check_operational_mandate cl) Q w.
Proof.
  intros H HQ. pose proof (check_operational_mandate_wp cl w) as Hw. unfold wp in *.
  destruct (check_operational_mandate cl w) as [o w'].
  destruct Hw as [[-> Hs]|[-> Hs]]; apply HQ;
    [eapply logged_out_fwd|eapply logged_out_quiet]; eauto.
Qed.

Ltac lo_base :=
  first [ assumption
        | progress cbn [st set_st set_inputs set_mono set_rng_pos set_uuid_pos add_event]; assumption
        | unfold logged_out in *; cbn [st set_st set_inputs set_mono set_rng_pos set_uuid_pos add_event
             with_last_command_ref with_is_authenticated with_pending_reviews is_authenticated user_id
             session_start_time] in *; intuition ].

Ltac lo_prop :=
  repeat match goal with
  | Hq : quiet_step ?a ?b |- _ =>
      let H := fresh "Hlo" in assert (H : logged_out (st a)) by lo_base;
      pose proof (logged_out_quiet _ _ Hq H); clear Hq H
  | Hq : fwd_step _ ?a ?b |- _ =>
      let H := fresh "Hlo" in assert (H : logged_out (st a)) by lo_base;
      pose proof (logged_out_fwd _ _ _ Hq H); clear Hq H
  end.

Lemma wp_get_user_input_lo po Q w :
  logged_out (st w) ->
  (forall s w', logged_out (st w') -> Q (Ret s) w') ->
  (forall w', logged_out (st w') -> Q (Exit 0%Z) w') ->
  wp (get_user_input po) Q w.
Proof.
  intros H HR HX. unfold get_user_input, py_input, handle_shutdown, modify_st.
  cbn [py_truthy negb andb]. wp_tac; lo_prop.
  all: first [apply HR | apply HX]; lo_base.
Qed.

Ltac lo_tac :=
  repeat first
    [ progress cbv zeta
    | match goal with
      | |- wp (simulate_forwarding _ _ _) _ _ =>
          apply wp_simulate_forwarding;
          let w := fresh "w" in let H := fresh "Hf" in intros w H; cbv beta iota
      | |- wp (call_check_time_limit [_; _]) _ _ => apply wp_call_check_time_limit_two
      | |- wp (check_time_limit _) _ _ => apply wp_check_time_limit_lo; [lo_prop; lo_base|]
      | |- wp (check_operational_mandate _) _ _ =>
          apply wp_check_operational_mandate_lo; [lo_prop; lo_base|];
          let b := fresh "b" in let w := fresh "w" in let H := fresh "Hlo" in intros b w H; cbv beta iota
      | |- wp (get_user_input _) _ _ =>
          apply wp_get_user_input_lo; [lo_prop; lo_base| |];
          [ let s := fresh "s" in let w := fresh "w" in let H := fresh "Hlo" in intros s w H; cbv beta iota
          | let w := fresh "w" in let H := fresh "Hlo" in intros w H; cbv beta iota ]
      | |- wp (handler_input _) _ _ => unfold handler_input
      | |- wp (try_except _ _) _ _ => apply wp_try_except
      end
    | wp_step
    | case_match ].

Definition handler_ok (o : outcome unit) : Prop :=
  o = Ret tt \/ (exists e, o = Raise e) \/ o = Exit 0%Z.

Ltac lo_close :=
  lo_prop;
  repeat match goal with
  | H : logged_out (st ?a), E : is_authenticated (st ?a) = true |- _ =>
      exfalso; destruct H as (Ha & _); rewrite Ha in E; discriminate
  | H : logged_out (st ?a), E : negb (is_authenticated (st ?a)) = false |- _ =>
      exfalso; destruct H as (Ha & _); rewrite Ha in E; discriminate
  end.

Lemma call_handler_lo h ad pa w :
  logged_out (st w) ->
  wp (call_handler h ad pa handler_input) (fun o w' => logged_out (st w') /\ handler_ok o) w.
Proof.
  intros H. destruct h; unfold call_handler, handle_login, handle_logout, handle_ls, handle_exec,
    handle_status, handle_shutdown, modify_st; lo_tac; lo_close.
  all: destruct_unit; try (split; [lo_base|unfold handler_ok; eauto]).
Qed.

Definition loop_ok (o : outcome unit) : Prop := o = Ret tt \/ o = Exit 0%Z.

Lemma wp_call_handler_lo h ad pa Q w :
  logged_out (st w) ->
  (forall o w', logged_out (st w') -> handler_ok o -> Q o w') ->
  wp (call_handler h ad pa handler_input) Q w.
Proof.
  intros H HQ. pose proof (call_handler_lo h ad pa w H) as Hw. unfold wp in *.
  destruct (call_handler h ad pa handler_input w). destruct Hw. auto.
Qed.

Lemma command_loop_step_lo w :
  logged_out (st w) ->
  wp command_loop_step (fun o w' => logged_out (st w') /\ loop_ok o) w.
Proof.
  intros H. unfold command_loop_step, modify_st.
  lo_tac.
  all: try match goal with
       | |- wp (call_handler _ _ _ _) _ _ =>
           apply wp_call_handler_lo; [lo_prop; lo_base|];
           let o := fresh "o" in intros o ? ? [ -> | [ [? ->] | -> ] ]; cbv beta iota
       end.
  all: lo_tac.
  all: destruct_unit; lo_prop; try (split; [lo_base|unfold loop_ok; auto]).
Qed.

Lemma command_loop_lo n w :
  logged_out (st w) ->
  wp (command_loop n) (fun o w' => logged_out (st w') /\ loop_ok o) w.
Proof.
  revert w. induction n as [|n IH]; intros w H; simpl.
  - apply wp_ret. split; [exact H|left; reflexivity].
  - apply wp_bind. pose proof (command_loop_step_lo w H) as Hw. unfold wp in *.
    destruct (command_loop_step w) as [o w']. destruct Hw as [H' [-> | ->]].
    + apply IH, H'.
    + split; [exact H'|right; reflexivity].
Qed.

Lemma wp_try_except_exit {A} (m : M A) hx h Q w :
  wp m (fun o w' => match o with
                    | Raise e => wp (h e) Q w'
                    | Exit c => wp (hx c) Q w'
                    | Ret a => Q (Ret a) w' end) w ->
  wp (try_except_exit m hx h) Q w.
Proof. unfold wp, try_except_exit. destruct (m w) as [[a|e|c] w']; auto. Qed.

Lemma wp_try_finally {A} (m : M A) fin Q w :
  wp m (fun o w' => wp fin (fun o' w'' => match o' with
                                          | Ret _ => Q o w''
                                          | Raise e => Q (Raise e) w''
                                          | Exit c => Q (Exit c) w'' end) w') w ->
  wp (try_finally m fin) Q w.
Proof.
  unfold wp, try_finally. destruct (m w) as [o w']. destruct (fin w') as [[a|e|c] w'']; auto.
Qed.

Lemma wp_weaken {A} (m : M A) (P Q : outcome A -> world -> Prop) w :
  wp m P w -> (forall o w', P o w' -> Q o w') -> wp m Q w.
Proof. unfold wp. destruct (m w). auto. Qed.

(* ------------------------------------------------------------------ *)
(** ** The forced halt and the end of input *)


(** The forced halt: one SHUTDOWN forwarding, the flag cleared, the
    input untouched. *)

Definition halt_step (w w' : world) : Prop :=
  st w' = with_is_authenticated false (with_pending_reviews (pending_reviews (st w) + 1) (st w)) /\
  inputs w' = inputs w /\
  exists new, trace w' = (trace w ++ new)%list /\ forwards new = ["SHUTDOWN"].

Lemma halt_step_here w wk :
  fwd_step "SHUTDOWN" w wk -> halt_step w (set_st (with_is_authenticated false (st wk)) wk).
Proof.
  intros (S & I & new & T & F). split; [simpl; rewrite S; reflexivity|].
  split; [exact I|]. exists new. split; [exact T|exact F].
Qed.

Lemma handle_shutdown_forced_true_wp ad pa gif w :
  wp (handle_shutdown ad pa gif true) (fun o w' => o = Exit 0%Z /\ halt_step w w') w.
Proof.
  unfold handle_shutdown, modify_st. cbn [py_truthy negb andb]. wp_tac;
    [rewrite andb_false_r in *; discriminate|].
  destruct_unit. split; [reflexivity|]. collapse.
  match goal with H : fwd_step _ w ?wk |- _ => exact (halt_step_here _ _ H) end.
Qed.

Lemma wp_get_user_input_eof po Q w :
  inputs w = [] ->
  (forall w', halt_step w w' ->
     (exists n1 n2, trace w' = (trace w ++ n1 ++ EvLog "FATAL" "EOF detected. Initiating emergency halt." :: n2)%list) ->
     Q (Exit 0%Z) w') ->
  wp (get_user_input po) Q w.
Proof.
  intros Hin HQ. unfold get_user_input, py_input. apply wp_get_bind. cbv zeta.
  apply wp_bind. apply wp_bind. apply wp_quiet; [solve [eauto with quiet]|].
  intros [] w1 Hq1. cbv beta iota. apply wp_get_bind.
  assert (E : inputs w1 = []) by (destruct Hq1 as (_ & I & _); congruence).
  rewrite E. cbv beta iota. apply wp_ret. cbv beta iota.
  apply wp_bind. apply wp_log_system_message_logs. intros w2 Hl2. cbv beta iota.
  apply wp_bind. pose proof (handle_shutdown_forced_true_wp ∅ [] none_input_func w2) as Hh.
  unfold wp in *. destruct (handle_shutdown ∅ [] none_input_func true w2) as [o w3].
  destruct Hh as [-> (S3 & I3 & n3 & T3 & F3)]. apply HQ.
  - destruct Hl2 as [(S2 & I2 & n2 & T2 & F2) _]. destruct Hq1 as (S1 & I1 & n1 & T1 & F1).
    split; [rewrite S3, S2, S1; reflexivity|]. split; [congruence|].
    exists (n1 ++ n2 ++ n3). rewrite T3, T2, T1, !app_assoc, !forwards_app, F1, F2, F3. done.
  - destruct Hl2 as [_ (m1 & m2 & T2)]. destruct Hq1 as (S1 & I1 & n1 & T1 & F1).
    exists (n1 ++ m1), (m2 ++ n3). rewrite T3, T2, T1. simpl. rewrite <- !app_assoc. reflexivity.
Qed.

Lemma quiet_halt_step w w1 w2 : quiet_step w w1 -> halt_step w1 w2 -> halt_step w w2.
Proof.
  intros (S1 & I1 & n1 & T1 & F1) (S2 & I2 & n2 & T2 & F2).
  split; [rewrite S2, S1; reflexivity|]. split; [congruence|].
  exists (n1 ++ n2). rewrite T2, T1, app_assoc, forwards_app, F1, F2. done.
Qed.

Lemma command_loop_step_eof w :
  budget_ok w -> inputs w = [] ->
  wp command_loop_step
     (fun o w' => o = Exit 0%Z /\ halt_step w w' /\
        exists n1 n2, trace w' = (trace w ++ n1 ++ EvLog "FATAL" "EOF detected. Initiating emergency halt." :: n2)%list) w.
Proof.
  intros Hb Hin. unfold command_loop_step. apply wp_bind. apply wp_check_time_limit_ok; [exact Hb|].
  intros w1 Hq1. cbv beta iota. apply wp_bind. apply wp_get_user_input_eof.
  { destruct Hq1 as (_ & I & _). congruence. }
  intros w2 Hh (m1 & m2 & T). cbv beta iota. split; [reflexivity|].
  split; [eapply quiet_halt_step; eauto|].
  destruct Hq1 as (_ & _ & n1 & T1 & _). exists (n1 ++ m1), m2. rewrite T, T1, <- !app_assoc. reflexivity.
Qed.

Lemma initialize_system_wp w :
  wp initialize_system (fun o w' => o = Ret tt /\ fwd_step "BOOT" w w') w.
Proof. unfold initialize_system. wp_tac. destruct_unit. split; [reflexivity|chain_steps]. Qed.

(* ------------------------------------------------------------------ *)
(** ** Answers read at a handler's prompt *)


Lemma logs_step_quiet_l e w1 w2 w3 : quiet_step w1 w2 -> logs_step e w2 w3 -> logs_step e w1 w3.
Proof.
  intros Hq [Hq2 (n1 & n2 & T)]. split; [eapply quiet_step_trans; eauto|].
  destruct Hq as (_ & _ & m & Tm & _). exists (m ++ n1), n2. rewrite T, Tm, <- !app_assoc. reflexivity.
Qed.

Lemma wp_get_user_input_line_any po Q w dt line rest :
  inputs w = (dt, line) :: rest ->
  (forall w', read_step rest w w' -> Q (Ret (py_strip line)) w') ->
  wp (get_user_input po) Q w.
Proof.
  intros Hin HQ. unfold get_user_input, py_input. apply wp_get_bind. cbv zeta.
  apply wp_bind. apply wp_bind. apply wp_quiet; [solve [eauto with quiet]|].
  intros [] w1 Hq1. cbv beta iota. apply wp_get_bind.
  assert (E : inputs w1 = (dt, line) :: rest) by (destruct Hq1 as (_ & I & _); congruence).
  rewrite E. wp_tac. apply HQ. collapse.
  destruct Hq1 as (S1 & _ & n1 & T1 & F1).
  match goal with H : quiet_step _ _ |- _ => destruct H as (S2 & I2 & n2 & T2 & F2) end.
  split; [simpl in *; congruence|split; [simpl in *; congruence|]].
  exists (n1 ++ n2). simpl in *. rewrite T2, T1, app_assoc, forwards_app, F1, F2. done.
Qed.

(* ------------------------------------------------------------------ *)
(** ** The random delays *)


Lemma random_delay_bounds ms w :
  (0 <= rng w (rng_pos w) < 1)%Q ->
  exists d, fst (random_delay ms w) = Ret d /\
  ((inject_Z ms + 50) / 1000 <= d < (inject_Z ms + 300) / 1000)%Q.
Proof.
  intros [H0 H1]. eexists. split; [reflexivity|]. cbn.
  set (r := rng w (rng_pos w)) in *. set (m := inject_Z ms).
  assert (Hi : (0 < / 1000)%Q) by reflexivity. unfold Qdiv. split.
  - apply Qmult_le_compat_r; [lra|apply Qlt_le_weak, Hi].
  - apply Qmult_lt_compat_r; [exact Hi|lra].
Qed.

Lemma sleep_random_clock ms w :
  (0 <= rng w (rng_pos w) < 1)%Q ->
  fst (sleep_random ms w) = Ret tt /\
  st (snd (sleep_random ms w)) = st w /\
  inputs (snd (sleep_random ms w)) = inputs w /\
  ((inject_Z ms + 50) / 1000 <= mono (snd (sleep_random ms w)) - mono w
     < (inject_Z ms + 300) / 1000)%Q.
Proof.
  intros Hr. destruct (random_delay_bounds ms w Hr) as (d & Hd & Hb).
  cbn in Hd. injection Hd as <-. cbn. split; [reflexivity|]. split; [reflexivity|]. split; [reflexivity|].
  set (d := ((inject_Z ms + (50 + 250 * rng w (rng_pos w))) / 1000)%Q) in *.
  change (mono (snd (sleep_random ms w))) with (mono w + d)%Q. clearbody d. revert Hb. generalize ((inject_Z ms + 50) / 1000)%Q ((inject_Z ms + 300) / 1000)%Q.
  intros a b [Ha Hb]. split; lra.
Qed.

(* ------------------------------------------------------------------ *)
(** ** Random draws of the mandate evaluator *)

(** [w'] has drawn [k] more numbers from the same random source; the
    session state and the uuid source are unchanged. *)

Definition draws (k : nat) (w w' : world) : Prop :=
  rng w' = rng w /\ rng_pos w' = (rng_pos w + k)%nat /\ st w' = st w /\ uuids w' = uuids w.

Lemma wp_log_draws msg lvl Q w :
  (forall w', draws 1 w w' -> Q (Ret tt) w') -> wp (log_system_message msg lvl) Q w.
Proof. intros HQ. apply HQ. repeat split; cbn; lia. Qed.

Lemma wp_py_random_draws Q w :
  (forall w', draws 1 w w' -> Q (Ret (rng w (rng_pos w))) w') -> wp py_random Q w.
Proof. intros HQ. apply HQ. repeat split; cbn; lia. Qed.

Lemma wp_friction_draws r Q w :
  (forall w', draws (if (HIGH_FRICTION_REVIEW_THRESHOLD <? pending_reviews (st w))%Z then 2 else 0) w w' ->
     Q (Ret tt) w') -> wp (apply_procedural_friction r) Q w.
Proof.
  intros HQ. unfold apply_procedural_friction. apply wp_get_bind.
  destruct (HIGH_FRICTION_REVIEW_THRESHOLD <? pending_reviews (st w))%Z; apply HQ; repeat split; cbn; lia.
Qed.

Lemma wp_mandate_deny_false c m w :
  wp (mandate_deny c m) (fun o _ => o = Ret false) w.
Proof. unfold mandate_deny. wp_tac. reflexivity. Qed.

Lemma Qlt_b_warn_threshold x :
  Qlt_b (inject_Z TIME_LIMIT_SECONDS * (4 # 5)) x = Qlt_b 144 x.
Proof.
  unfold Qlt_b. f_equal.
  assert (E : (inject_Z TIME_LIMIT_SECONDS * (4 # 5) == 144)%Q) by reflexivity.
  destruct (Qle_bool x (inject_Z TIME_LIMIT_SECONDS * (4 # 5))) eqn:E1, (Qle_bool x 144) eqn:E2; auto.
  - apply Qle_bool_iff in E1. rewrite E in E1. apply Qle_bool_iff in E1. congruence.
  - apply Qle_bool_iff in E2. rewrite <- E in E2. apply Qle_bool_iff in E2. congruence.
Qed.

Lemma Qlt_b_spot_backlog r :
  Qlt_b r LOCKOUT_RANDOM_FAILURE_CHANCE = true -> Qlt_b r (1 # 5) = true.
Proof.
  unfold Qlt_b, LOCKOUT_RANDOM_FAILURE_CHANCE. intros H.
  apply negb_true_iff in H. apply negb_true_iff.
  destruct (Qle_bool (1 # 5) r) eqn:E; [|reflexivity].
  apply Qle_bool_iff in E.
  assert (E' : (5 # 100 <= r)%Q) by (eapply Qle_trans; [|exact E]; discriminate).
  apply Qle_bool_iff in E'. congruence.
Qed.

(* ------------------------------------------------------------------ *)
(** ** String helpers *)


Lemma substring_all k : String.substring 0 (String.length k) k = k.
Proof. induction k as [|c k IH]; simpl; [reflexivity|]. rewrite IH. reflexivity. Qed.

Lemma py_slice_from_dashes k : py_slice_from 2 ("--" ++ k) = k.
Proof.
  change ("--" ++ k)%string with (String "-"%char (String "-"%char k)).
  unfold py_slice_from. cbn [String.length String.substring].
  replace (S (S (String.length k)) - 2) with (String.length k) by lia. apply substring_all.
Qed.

Lemma split_once_app c k v :
  contains_char c k = false -> split_once c (k ++ String c v) = (k, v).
Proof.
  induction k as [|c' k IH]; intros H; simpl in *.
  - rewrite Ascii.eqb_refl. reflexivity.
  - apply orb_false_iff in H as [H1 H2]. rewrite H1, IH by exact H2. reflexivity.
Qed.

Lemma contains_char_app c k v :
  contains_char c (k ++ v) = contains_char c k || contains_char c v.
Proof. induction k as [|c' k IH]; simpl; [reflexivity|]. rewrite IH, orb_assoc. reflexivity. Qed.

Lemma ascii_lower_upper c : ascii_lower (ascii_upper c) = ascii_lower c.
Proof.
  destruct c as [b0 b1 b2 b3 b4 b5 b6 b7].
  destruct b0, b1, b2, b3, b4, b5, b6, b7; reflexivity.
Qed.

Lemma py_lower_upper s : py_lower (py_upper s) = py_lower s.
Proof. induction s as [|c s IH]; simpl; [reflexivity|]. rewrite ascii_lower_upper, IH. reflexivity. Qed.

Lemma ascii_upper_dot c : (ascii_upper c = "."%char) <-> c = "."%char.
Proof.
  split; [|intros ->; reflexivity].
  destruct c as [b0 b1 b2 b3 b4 b5 b6 b7].
  destruct b0, b1, b2, b3, b4, b5, b6, b7; cbv; intros H; first [reflexivity | discriminate H].
Qed.

Lemma ascii_upper_slash c : (ascii_upper c = "/"%char) <-> c = "/"%char.
Proof.
  split; [|intros ->; reflexivity].
  destruct c as [b0 b1 b2 b3 b4 b5 b6 b7].
  destruct b0, b1, b2, b3, b4, b5, b6, b7; cbv; intros H; first [reflexivity | discriminate H].
Qed.

Lemma py_startswith_dot_slash_upper s : py_startswith "./" (py_upper s) = py_startswith "./" s.
Proof.
  unfold py_startswith. destruct s as [|c1 [|c2 s]]; [reflexivity| |];
    cbn [py_upper String.prefix];
    destruct (ascii_dec "." (ascii_upper c1)) as [E1|E1], (ascii_dec "." c1) as [F1|F1];
    try reflexivity;
    try (exfalso; apply F1; symmetry; apply ascii_upper_dot; auto; fail);
    try (exfalso; apply E1; subst; reflexivity).
  destruct (ascii_dec "/" (ascii_upper c2)) as [E2|E2], (ascii_dec "/" c2) as [F2|F2];
    try reflexivity.
  - destruct s; reflexivity.
  - exfalso. apply F2. symmetry. apply ascii_upper_slash. auto.
  - exfalso. apply E2. subst. reflexivity.
Qed.

Lemma lstrip_spaces s :
  forallb is_py_space (list_ascii_of_string s) = true -> lstrip s = "".
Proof.
  induction s as [|c s IH]; simpl; [reflexivity|]. intros H.
  apply andb_true_iff in H as [H1 H2]. rewrite H1. apply IH, H2.
Qed.

Lemma py_strip_spaces s :
  forallb is_py_space (list_ascii_of_string s) = true -> py_strip s = "".
Proof. intros H. unfold py_strip. rewrite (lstrip_spaces s H). reflexivity. Qed.

(* ------------------------------------------------------------------ *)
(** ** The random source itself is never rewritten *)

(** Only the position in the random source moves; the sequence of
    numbers it yields is the same after any computation. *)

Definition rng_const {A} (m : M A) : Prop := forall w, rng (snd (m w)) = rng w.

Lemma rng_const_bind {A B} (m : M A) (f : A -> M B) :
  rng_const m -> (forall a, rng_const (f a)) -> rng_const (m ≫= f).
Proof.
  intros Hm Hf w. specialize (Hm w). unfold mbind, M_bind.
  destruct (m w) as [[a|e|c] w'] eqn:E; simpl in *; try exact Hm.
  rewrite Hf. exact Hm.
Qed.

Lemma rng_const_try_except {A} (m : M A) (h : exn -> M A) :
  rng_const m -> (forall e, rng_const (h e)) -> rng_const (try_except m h).
Proof.
  intros Hm Hh w. specialize (Hm w). unfold try_except.
  destruct (m w) as [[a|e|c] w'] eqn:E; simpl in *; try exact Hm.
  rewrite Hh. exact Hm.
Qed.

Lemma rng_const_ret {A} (a : A) : rng_const (mret a).
Proof. intros w. reflexivity. Qed.

Lemma rng_const_get : rng_const get.
Proof. intros w. reflexivity. Qed.

Lemma rng_const_raise {A} e : rng_const (@raise A e).
Proof. intros w. reflexivity. Qed.

Lemma rng_const_sys_exit {A} c : rng_const (@sys_exit A c).
Proof. intros w. reflexivity. Qed.

Lemma rng_const_modify f : (forall w, rng (f w) = rng w) -> rng_const (modify f).
Proof. intros Hf w. apply Hf. Qed.

Create HintDb rngc.

#[global] Hint Resolve rng_const_ret rng_const_get rng_const_raise rng_const_sys_exit : rngc.

Ltac rngc_tac :=
  repeat first
    [ progress cbv beta zeta
    | solve [eauto with rngc]
    | apply rng_const_bind; [ | intro ]
    | apply rng_const_try_except; [ | intro ]
    | case_match
    | apply rng_const_modify; intros; reflexivity
    | progress unfold emit, py_print, modify_st, log_system_message, sleep_random, random_delay,
        py_random, pseudo_uuid, perform_simulated_check, simulate_forwarding, mandate_deny ].

Lemma rng_const_check_time_limit s : rng_const (check_time_limit s).
Proof. unfold check_time_limit. rngc_tac. Qed.

Lemma rng_const_call_check_time_limit args : rng_const (call_check_time_limit args).
Proof. unfold call_check_time_limit. rngc_tac; apply rng_const_check_time_limit. Qed.

#[global] Hint Resolve rng_const_check_time_limit rng_const_call_check_time_limit : rngc.

Lemma rng_const_verify_action_intent_none c rp pce rr :
  rng_const (verify_action_intent c none_input_func rp pce rr).
Proof. unfold verify_action_intent, none_input_func. rngc_tac. Qed.

#[global] Hint Resolve rng_const_verify_action_intent_none : rngc.

Lemma rng_const_get_user_input p : rng_const (get_user_input p).
Proof. unfold get_user_input, py_input, handle_shutdown. rngc_tac. Qed.

#[global] Hint Resolve rng_const_get_user_input : rngc.

Lemma wp_rng {A} (m : M A) Q w :
  rng_const m -> wp m (fun o w' => rng w' = rng w -> Q o w') w -> wp m Q w.
Proof. intros Hm H. unfold wp in *. specialize (Hm w). destruct (m w) as [o w']. auto. Qed.

(** With every draw below the spot-check chance, the evaluator denies. *)

Lemma mandate_denies_small_draws cl w :
  (forall n, Qlt_b (rng w n) LOCKOUT_RANDOM_FAILURE_CHANCE = true) ->
  wp (check_operational_mandate cl) (fun o w' => o = Ret false /\ fwd_step "ARBITRARY_LOCKOUT" w w') w.
Proof.
  intros Hs.
  assert (Hf : wp (check_operational_mandate cl) (fun o _ => o = Ret false) w).
  { unfold check_operational_mandate. apply wp_get_bind. cbv zeta.
    apply wp_bind, wp_log_draws. intros w1 (R1 & _ & _ & _). cbv beta iota.
    apply wp_bind, wp_friction_draws. intros w2 (R2 & _ & _ & _). cbv beta iota.
    assert (Hs2 : forall n, Qlt_b (rng w2 n) LOCKOUT_RANDOM_FAILURE_CHANCE = true)
      by (intros n; rewrite R2, R1; apply Hs).
    assert (Hrule23 : wp (if (10 <? pending_reviews (st w))%Z then
        r ← py_random;
        if Qlt_b r (1 # 5) then
          mandate_deny ("BACKLOG-" ++ z_to_string (pending_reviews (st w)))
            ("Operation Denied: System temporarily locked for critical operations due to excessive audit backlog ("
             ++ z_to_string (pending_reviews (st w)) ++ "). Mandate AUDIT-BACKLOG-LOCK.")
        else
          r0 ← py_random;
          if Qlt_b r0 LOCKOUT_RANDOM_FAILURE_CHANCE then
            u ← pseudo_uuid;
            mandate_deny "SPOTCHECK-FAIL"
              ("Operation Denied: Random compliance spot-check failed (Ref: SPOT-" ++ py_slice_to 4 u
               ++ "). Please retry command.")
          else
            log_system_message ("Operational mandate check passed for clearance '"
                                ++ cl ++ "'.") "DEBUG";;
            mret true
      else
        r ← py_random;
        if Qlt_b r LOCKOUT_RANDOM_FAILURE_CHANCE then
          u ← pseudo_uuid;
          mandate_deny "SPOTCHECK-FAIL"
            ("Operation Denied: Random compliance spot-check failed (Ref: SPOT-" ++ py_slice_to 4 u
             ++ "). Please retry command.")
        else
          log_system_message ("Operational mandate check passed for clearance '"
                              ++ cl ++ "'.") "DEBUG";;
          mret true) (fun o _ => o = Ret false) w2).
    { destruct (10 <? pending_reviews (st w))%Z.
      - apply wp_bind, wp_py_random_draws. intros w3 _. cbv beta iota.
        rewrite (Qlt_b_spot_backlog _ (Hs2 _)). apply wp_mandate_deny_false.
      - apply wp_bind, wp_py_random_draws. intros w3 _. cbv beta iota.
        rewrite Hs2. apply wp_bind. apply wp_quiet; [solve [eauto with quiet]|].
        intros u w4 _. apply wp_mandate_deny_false. }
    destruct (String.eqb cl "FILESYSTEM" && _); [|exact Hrule23].
    destruct (mandate_is_prime _); [apply wp_mandate_deny_false|exact Hrule23]. }
  pose proof (check_operational_mandate_wp cl w) as H. unfold wp in *.
  destruct (check_operational_mandate cl w) as [o w'].
  destruct H as [H|[-> _]]; [exact H|discriminate].
Qed.

(* ------------------------------------------------------------------ *)
(** ** What a run prints *)

(** The lines a trace prints with [print()], in order. *)
Fixpoint prints (t : list event) : list string :=
  match t with
  | [] => []
  | EvPrint s :: t' => s :: prints t'
  | _ :: t' => prints t'
  end.

Lemma prints_app t1 t2 : prints (t1 ++ t2)%list = (prints t1 ++ prints t2)%list.
Proof. induction t1 as [|[] t1 IH]; simpl; rewrite ?IH; reflexivity. Qed.

(** The new events of a step print exactly the lines [ps]. *)
Definition prints_step (ps : list string) (w w' : world) : Prop :=
  exists new, trace w' = (trace w ++ new)%list /\ prints new = ps.

Lemma prints_step_refl w : prints_step [] w w.
Proof. exists []. rewrite app_nil_r. done. Qed.

Lemma prints_step_trans p1 p2 w1 w2 w3 :
  prints_step p1 w1 w2 -> prints_step p2 w2 w3 -> prints_step (p1 ++ p2)%list w1 w3.
Proof.
  intros (n1 & T1 & P1) (n2 & T2 & P2). exists (n1 ++ n2)%list.
  rewrite T2, T1, app_assoc, prints_app, P1, P2. done.
Qed.

Lemma prints_step_print s w : prints_step [s] w (add_event (EvPrint s) w).
Proof. exists [EvPrint s]. done. Qed.

(** A computation that always returns and prints nothing. *)
Definition silent {A} (m : M A) : Prop :=
  forall w, exists a w', m w = (Ret a, w') /\ prints_step [] w w'.

Lemma silent_ret {A} (a : A) : silent (mret a).
Proof. intros w. exists a, w. split; [reflexivity|apply prints_step_refl]. Qed.

Lemma silent_get : silent get.
Proof. intros w. exists w, w. split; [reflexivity|apply prints_step_refl]. Qed.

Lemma silent_bind {A B} (m : M A) (f : A -> M B) :
  silent m -> (forall a, silent (f a)) -> silent (m ≫= f).
Proof.
  intros Hm Hf w. destruct (Hm w) as (a & w1 & E1 & P1).
  destruct (Hf a w1) as (b & w2 & E2 & P2).
  exists b, w2. unfold mbind, M_bind. rewrite E1. split; [exact E2|].
  exact (prints_step_trans _ _ _ _ _ P1 P2).
Qed.

Lemma silent_emit e : (forall s, e <> EvPrint s) -> silent (emit e).
Proof.
  intros He w. exists tt, (add_event e w). split; [reflexivity|].
  exists [e]. split; [reflexivity|].
  destruct e; simpl; try reflexivity. exfalso. eapply He. reflexivity.
Qed.

Lemma silent_emit_log l s : silent (emit (EvLog l s)).
Proof. apply silent_emit. discriminate. Qed.
Lemma silent_emit_prompt s : silent (emit (EvPrompt s)).
Proof. apply silent_emit. discriminate. Qed.
Lemma silent_emit_sleep q : silent (emit (EvSleep q)).
Proof. apply silent_emit. discriminate. Qed.
Lemma silent_emit_forward k c : silent (emit (EvForward k c)).
Proof. apply silent_emit. discriminate. Qed.

Lemma silent_modify (f : world -> world) :
  (forall w, trace (f w) = trace w) -> silent (modify f).
Proof.
  intros Hf w. exists tt, (f w). split; [reflexivity|]. exists [].
  rewrite Hf, app_nil_r. done.
Qed.

Create HintDb silent.
#[global] Hint Resolve silent_ret silent_get silent_emit_log silent_emit_prompt
  silent_emit_sleep silent_emit_forward : silent.

Ltac silent_tac :=
  repeat first
    [ progress cbv beta zeta
    | solve [eauto with silent]
    | apply silent_bind; [ | intro ]
    | case_match
    | apply silent_modify; intros; reflexivity ].

Lemma silent_py_random : silent py_random.
Proof. unfold py_random. silent_tac. Qed.
#[global] Hint Resolve silent_py_random : silent.

Lemma silent_pseudo_uuid : silent pseudo_uuid.
Proof. unfold pseudo_uuid. silent_tac. Qed.
#[global] Hint Resolve silent_pseudo_uuid : silent.

Lemma silent_sleep_random ms : silent (sleep_random ms).
Proof. unfold sleep_random, random_delay. silent_tac. Qed.
#[global] Hint Resolve silent_sleep_random : silent.

Lemma silent_log_system_message msg lvl : silent (log_system_message msg lvl).
Proof. unfold log_system_message. silent_tac. Qed.
#[global] Hint Resolve silent_log_system_message : silent.

Lemma silent_modify_st f : silent (modify_st f).
Proof. unfold modify_st. silent_tac. Qed.
#[global] Hint Resolve silent_modify_st : silent.

Lemma wp_silent {A} (m : M A) Q w :
  silent m -> (forall a w', prints_step [] w w' -> Q (Ret a) w') -> wp m Q w.
Proof. intros Hm HQ. unfold wp. destruct (Hm w) as (a & w' & -> & Hs). auto. Qed.

Lemma wp_and {A} (m : M A) Q1 Q2 w :
  wp m Q1 w -> wp m Q2 w -> wp m (fun o w' => Q1 o w' /\ Q2 o w') w.
Proof. unfold wp. destruct (m w). auto. Qed.

(** The idle check within the budget prints nothing (the timeout
    banner is only printed on the way to [sys.exit(2)]). *)
Lemma wp_check_time_limit_silent s Q w :
  budget_ok w -> (forall w', quiet_step w w' -> prints_step [] w w' -> Q (Ret tt) w') ->
  wp (check_time_limit s) Q w.
Proof.
  intros Hb HQ. eapply wp_weaken.
  { apply (wp_and (check_time_limit s) (fun o w' => o = Ret tt /\ quiet_step w w')
                  (fun _ w' => prints_step [] w w'));
      [apply (wp_check_time_limit_ok s (fun o w' => o = Ret tt /\ quiet_step w w'));
                   [exact Hb|intros w' Hq; split; [reflexivity|exact Hq]]|].
    unfold check_time_limit. apply wp_get_bind. cbv zeta.
    destruct (Qeq_bool (session_start_time (st w)) 0) eqn:E0.
    { apply wp_ret. exact (prints_step_refl w). }
    destruct Hb as [Hb|Hb]; [congruence|]. rewrite Hb.
    apply wp_bind. apply wp_silent; [case_match; silent_tac|].
    intros [] w' P. apply wp_ret. exact P. }
  intros o w' [[-> Hq] P]. exact (HQ w' Hq P).
Qed.

(** Reading a line prints nothing (only the end of input, through the
    forced halt, prints). *)
Lemma wp_get_user_input_line_silent po Q w dt line rest :
  inputs w = (dt, line) :: rest ->
  (forall w', prints_step [] w w' -> Q (Ret (py_strip line)) w') ->
  wp (get_user_input po) Q w.
Proof.
  intros Hin HQ. unfold get_user_input, py_input, emit. apply wp_get_bind. cbv zeta.
  apply wp_bind. apply wp_bind. apply wp_modify. cbv beta iota. apply wp_get_bind.
  cbn [inputs add_event]. rewrite Hin.
  apply wp_bind, wp_modify. cbv beta iota. apply wp_bind, wp_modify. cbv beta iota.
  apply wp_ret. cbv iota.
  apply wp_bind, wp_silent; [silent_tac|]. intros [] w1 P1. cbv beta iota.
  apply wp_bind, wp_silent; [silent_tac|]. intros [] w2 P2. cbv beta iota.
  apply wp_ret, HQ.
  match type of P1 with
  | prints_step _ ?w0 _ =>
      assert (P0 : prints_step [] w w0) by (eexists; split; reflexivity)
  end.
  exact (prints_step_trans _ _ _ _ _ (prints_step_trans _ _ _ _ _ P0 P1) P2).
Qed.

(** An iteration on a line whose first word is no command prints
    nothing. *)
Lemma command_loop_step_unknown_prints w dt line rest tok args :
  budget_ok w -> inputs w = (dt, line) :: rest ->
  py_split (py_strip line) = tok :: args -> lookup_command tok = None ->
  wp command_loop_step (fun _ w' => prints_step [] w w') w.
Proof.
  intros Hb Hin Hsplit Hlk.
  assert (Hne : String.eqb (py_strip line) "" = false).
  { destruct (String.eqb_spec (py_strip line) "") as [E|E]; [|reflexivity].
    rewrite E in Hsplit. discriminate. }
  unfold command_loop_step. apply wp_bind. apply wp_check_time_limit_silent; [exact Hb|].
  intros w1 Hq1 P1. cbv beta iota. apply wp_bind.
  apply (wp_get_user_input_line_silent _ _ _ dt line rest).
  { destruct Hq1 as (_ & I & _). congruence. }
  intros w2 P2. cbv beta iota. rewrite Hne. cbv zeta. rewrite Hsplit.
  cbn [head tail default id]. rewrite Hlk.
  change (bool_decide (is_Some (@None handler))) with false. cbn [andb].
  destruct (if py_startswith "./" tok then parse_args (tok :: args) else parse_args args)
    as [ad pos].
  apply wp_silent; [silent_tac|]. intros [] w3 P3.
  exact (prints_step_trans _ _ _ _ _ (prints_step_trans _ _ _ _ _ P1 P2) P3).
Qed.

(** An iteration on [help] prints exactly one line, the error banner of
    the dispatch loop. *)
Lemma command_loop_step_help_prints w dt line rest args :
  budget_ok w -> inputs w = (dt, line) :: rest ->
  py_split (py_strip line) = "help" :: args ->
  wp command_loop_step
     (fun _ w' => prints_step ["*** Error executing command 'help'. Consult system logs. ***"] w w') w.
Proof.
  intros Hb Hin Hsplit.
  assert (Hne : String.eqb (py_strip line) "" = false).
  { destruct (String.eqb_spec (py_strip line) "") as [E|E]; [|reflexivity].
    rewrite E in Hsplit. discriminate. }
  unfold command_loop_step. apply wp_bind. apply wp_check_time_limit_silent; [exact Hb|].
  intros w1 Hq1 P1. cbv beta iota. apply wp_bind.
  apply (wp_get_user_input_line_silent _ _ _ dt line rest).
  { destruct Hq1 as (_ & I & _). congruence. }
  intros w2 P2. cbv beta iota. rewrite Hne. cbv zeta. rewrite Hsplit.
  cbn [head tail default id]. change (lookup_command "help") with (Some HHelp).
  change (bool_decide (is_Some (Some HHelp))) with true.
  change (existsb (String.eqb "help") ["klogin"; "help"; "exit"; "shutdown"; "khalt"]) with true.
  cbn [andb negb].
  change (py_startswith "./" "help") with false. cbv iota.
  destruct (parse_args args) as [ad pos].
  apply wp_bind, wp_silent; [silent_tac|]. intros u w3 P3. cbv beta iota.
  apply wp_bind, wp_silent; [silent_tac|]. intros [] w4 P4. cbv beta iota.
  apply wp_get_bind.
  apply wp_bind, wp_silent; [silent_tac|]. intros [] w5 P5. cbv beta iota.
  apply wp_try_except. cbn [call_handler]. apply wp_bind, wp_raise. cbv beta iota.
  apply wp_bind, wp_silent; [silent_tac|]. intros [] w6 P6. cbv beta iota.
  unfold py_print, emit. apply wp_modify.
  change ["*** Error executing command 'help'. Consult system logs. ***"]
    with ([] ++ ([] ++ ([] ++ ([] ++ ([] ++ ([] ++
          ["*** Error executing command 'help'. Consult system logs. ***"]))))))%list.
  eapply prints_step_trans; [exact P1|]. eapply prints_step_trans; [exact P2|].
  eapply prints_step_trans; [exact P3|]. eapply prints_step_trans; [exact P4|].
  eapply prints_step_trans; [exact P5|]. eapply prints_step_trans; [exact P6|].
  apply prints_step_print.
Qed.

(* ================================================================== *)
(** * The claims *)

(** C1 (login): the not-yet-authenticated branch of [handle_login]
    first calls the time check with two positional arguments, which
    raises [TypeError]: no username is read, nothing is forwarded and the
    session state is left exactly as it was, so a login never succeeds. *)
Theorem login_raises_type_error ad pa gif w :
  is_authenticated (st w) = false ->
  fst (handle_login ad pa gif w) = Raise TypeError /\ quiet_step w (snd (handle_login ad pa gif w)).
Proof. intros Ha. exact (wp_result _ _ _ (handle_login_wp ad pa gif w Ha)). Qed.

Lemma login_raises_type_error_witness :
  let w := sample_world [(0%Q, "alice"); (0%Q, "pw"); (0%Q, "123456")] tuesday_prime_minute in
  is_authenticated (st w) = false /\
  (fst (handle_login ∅ [] handler_input w) = Raise TypeError
   /\ quiet_step w (snd (handle_login ∅ [] handler_input w))).
Proof.
  cbv zeta. split; [reflexivity|]. apply login_raises_type_error. reflexivity.
Defined.

(** C2 (unknown commands, as the loop does it): when the idle check
    passes and the first word of the line is in no command table entry,
    the iteration runs no handler and no mandate check: it consumes the
    line, changes only the command reference of the session state, logs
    "Unknown command: '...'. Command ignored. Type 'help'." at ERROR,
    forwards no audit event (no security-incident report), prints
    nothing (no accusation) and returns, so the loop goes on with its
    next iteration.  This holds for the words kos_rejection.py is
    written to reject ("cd", "rm", "sudo", ...): that module is never
    imported, and the Circular Rejection Protocol never runs. *)
Theorem unknown_command_ignored w dt line rest tok args n :
  budget_ok w -> inputs w = (dt, line) :: rest ->
  py_split (py_strip line) = tok :: args -> lookup_command tok = None ->
  exists w', command_loop_step w = (Ret tt, w') /\ command_loop (S n) w = command_loop n w'
    /\ inputs w' = rest
    /\ st w' = with_last_command_ref (last_command_ref (st w')) (st w)
    /\ exists new, trace w' = (trace w ++ new)%list /\ forwards new = [] /\ prints new = []
       /\ In (EvLog "ERROR" ("Unknown command: '" ++ tok ++ "'. Command ignored. Type 'help'."))
             new.
Proof.
  intros Hb Hin Hsplit Hlk.
  pose proof (wp_and _ _ _ _ (command_loop_step_unknown w dt line rest tok args Hb Hin Hsplit Hlk)
                (command_loop_step_unknown_prints w dt line rest tok args Hb Hin Hsplit Hlk)) as H.
  unfold wp in H. destruct (command_loop_step w) as [o w'] eqn:E.
  destruct H as ((-> & I & S & new & T & F & L) & (new' & T' & P)).
  rewrite T in T'. apply app_inv_head in T'. subst new'.
  exists w'. split; [reflexivity|]. split.
  { simpl. unfold mbind, M_bind. rewrite E. reflexivity. }
  split; [exact I|]. split; [exact S|]. exists new.
  split; [exact T|]. split; [exact F|]. split; [exact P|exact L].
Qed.

Lemma unknown_command_ignored_witness :
  let w := sample_world [(0%Q, "cd /tmp")] tuesday_prime_minute in
  (budget_ok w /\ inputs w = [(0%Q, "cd /tmp")] /\ py_split (py_strip "cd /tmp") = ["cd"; "/tmp"]
   /\ lookup_command "cd" = None) /\
  exists w', command_loop_step w = (Ret tt, w') /\ command_loop 1 w = command_loop 0 w'
    /\ inputs w' = []
    /\ st w' = with_last_command_ref (last_command_ref (st w')) (st w)
    /\ exists new, trace w' = (trace w ++ new)%list /\ forwards new = [] /\ prints new = []
       /\ In (EvLog "ERROR" ("Unknown command: '" ++ "cd" ++ "'. Command ignored. Type 'help'."))
             new.
Proof.
  cbv zeta.
  assert (Hb : budget_ok (sample_world [(0%Q, "cd /tmp")] tuesday_prime_minute))
    by (left; reflexivity).
  split; [split; [exact Hb|split; [reflexivity|split; reflexivity]]|].
  apply (unknown_command_ignored _ 0%Q "cd /tmp" [] "cd" ["/tmp"] 0 Hb);
    reflexivity.
Defined.

(** Every word of [KNOWN_REJECTED_COMMANDS] but "ls" (an alias of [kls])
    is missing from the command table. *)
Lemma rejected_commands_not_in_table :
  Forall (fun c => c = "ls" \/ lookup_command c = None) KNOWN_REJECTED_COMMANDS.
Proof.
  repeat (constructor; [first [left; reflexivity | right; reflexivity] |]). constructor.
Qed.

(** C3 (time budget): called as kos_core.py calls it, the check exits
    with status 2 once the budget is spent; but at the same state the
    call sites of the handlers and of the intent verification, which
    pass two positional arguments, raise [TypeError] instead, and the
    dispatch loop catches it: an iteration that overruns the budget
    while the user types "kls" ends normally, and only the idle check of
    the next iteration terminates the session.  That [SystemExit] is
    caught in turn by main_kos.py, which logs it and ends normally: the
    process does not end with status 2. *)
Theorem time_limit_handler_sites w s :
  Qeq_bool (session_start_time (st w)) 0 = false ->
  Qlt_b (inject_Z TIME_LIMIT_SECONDS) (mono w - session_start_time (st w)) = true ->
  fst (check_time_limit s w) = Exit 2
  /\ call_check_time_limit [ANum (session_start_time (st w)); AStr s] w = (Raise TypeError, w)
  /\ (let r := command_loop_step (alice_session_world [(200%Q, "kls")] 1 1) in
      fst r = Ret tt
      /\ Qlt_b (inject_Z TIME_LIMIT_SECONDS) (mono (snd r) - session_start_time (st (snd r))) = true)
  /\ fst (command_loop 2 (alice_session_world [(200%Q, "kls"); (0%Q, "kls")] 1 1)) = Exit 2
  /\ fst (main_kos 2 (alice_session_world [(200%Q, "kls"); (0%Q, "kls")] 1 1)) = Ret tt.
Proof.
  intros H0 Hel.
  split; [|split; [apply call_check_time_limit_two|split; [|split]; vm_compute; auto]].
  apply (wp_result _ (fun o _ => o = Exit 2)). unfold check_time_limit.
  apply wp_get_bind. cbv zeta. rewrite H0, Hel. wp_tac; reflexivity.
Qed.

Lemma time_limit_handler_sites_witness :
  let w := alice_session_world [] 1 200 in
  Qeq_bool (session_start_time (st w)) 0 = false /\
  Qlt_b (inject_Z TIME_LIMIT_SECONDS) (mono w - session_start_time (st w)) = true /\
  (fst (check_time_limit "Filesystem Operation (kls)" w) = Exit 2
   /\ call_check_time_limit [ANum (session_start_time (st w)); AStr "Filesystem Operation (kls)"] w
      = (Raise TypeError, w)
   /\ (let r := command_loop_step (alice_session_world [(200%Q, "kls")] 1 1) in
       fst r = Ret tt
       /\ Qlt_b (inject_Z TIME_LIMIT_SECONDS) (mono (snd r) - session_start_time (st (snd r))) = true)
   /\ fst (command_loop 2 (alice_session_world [(200%Q, "kls"); (0%Q, "kls")] 1 1)) = Exit 2
   /\ fst (main_kos 2 (alice_session_world [(200%Q, "kls"); (0%Q, "kls")] 1 1)) = Ret tt).
Proof.
  cbv zeta. split; [reflexivity|split; [reflexivity|]].
  apply time_limit_handler_sites; reflexivity.
Defined.

(** C4 (Circular Rejection Protocol): kos_rejection.py does not get past
    Python's indentation check: the stray [else:] of line 93, indented
    under no block opener, is an "unexpected indent", so the module
    (which no other module imports) cannot run at all. *)
Theorem rejection_module_unexpected_indent :
  check_indentation [0] false handle_rejected_command_layout = UnexpectedIndent 93.
Proof. vm_compute. reflexivity. Qed.

(** C5 (single-dash flags): a token with one leading ['-'] sets each of
    its letters to [True] and the parse goes on with the very next
    token; so in [... -p CODE ...] the key ["p"] holds [True] (unless a
    later [--p] option rewrites it), [CODE] lands among the positional
    arguments, and [args.get('p') or args.get('purpose')] is [True],
    never equal to a purpose-code string. *)
Theorem parse_args_dash_p l1 code l2 :
  py_startswith "-" code = false ->
  Forall (fun t => names_key "p" t = false) l2 ->
  (forall arg rest ad pos,
     py_startswith "-" arg = true -> py_startswith "--" arg = false ->
     parse_args_loop (arg :: rest) ad pos
     = parse_args_loop rest (set_flags (py_slice_from 1 arg) ad) pos
     /\ forall c, contains_char c (py_slice_from 1 arg) = true ->
        set_flags (py_slice_from 1 arg) ad !! String c EmptyString = Some VTrue)
  /\ (parse_args (l1 ++ "-p" :: code :: l2)).1 !! "p" = Some VTrue
  /\ code ∈ (parse_args (l1 ++ "-p" :: code :: l2)).2
  /\ forall s, py_or ((parse_args (l1 ++ "-p" :: code :: l2)).1 !! "p")
                     ((parse_args (l1 ++ "-p" :: code :: l2)).1 !! "purpose") <> Some (VStr s).
Proof.
  intros Hc Hl2.
  assert (Hcc : py_startswith "--" code = false).
  { destruct (py_startswith "--" code) eqn:E; [|reflexivity].
    apply py_startswith_dash_dash in E. congruence. }
  assert (Hparse : parse_args (l1 ++ "-p" :: code :: l2)
                   = let '(ad', pos') := parse_args_loop l1 ∅ [] in
                     parse_args_loop l2 (set_flags "p" ad') (pos' ++ [code])).
  { unfold parse_args. rewrite parse_args_loop_app by reflexivity.
    destruct (parse_args_loop l1 ∅ []) as [ad' pos'].
    rewrite parse_args_loop_single_dash by reflexivity.
    cbn [py_slice_from]. simpl. rewrite Hcc, Hc. reflexivity. }
  assert (Hp : (parse_args (l1 ++ "-p" :: code :: l2)).1 !! "p" = Some VTrue).
  { rewrite Hparse. destruct (parse_args_loop l1 ∅ []) as [ad' pos'].
    apply parse_args_loop_keep; [exact Hl2|]. apply set_flags_sets. reflexivity. }
  split; [|split; [exact Hp|split]].
  - intros arg rest ad pos H1 H2. split; [apply parse_args_loop_single_dash; assumption|].
    intros c. apply set_flags_sets.
  - rewrite Hparse. destruct (parse_args_loop l1 ∅ []) as [ad' pos'].
    destruct (parse_args_loop_positional l2 (set_flags "p" ad') (pos' ++ [code]))
      as (ad'' & extra & ->).
    simpl. apply list_elem_of_In. rewrite !in_app_iff. simpl. tauto.
  - intros s. rewrite Hp. unfold py_or. simpl. discriminate.
Qed.

Lemma parse_args_dash_p_witness :
  (py_startswith "-" "FS-QUERY-7701" = false /\
   Forall (fun t => names_key "p" t = false) ["--view-mode=audit"]) /\
  ((forall arg rest ad pos,
     py_startswith "-" arg = true -> py_startswith "--" arg = false ->
     parse_args_loop (arg :: rest) ad pos
     = parse_args_loop rest (set_flags (py_slice_from 1 arg) ad) pos
     /\ forall c, contains_char c (py_slice_from 1 arg) = true ->
        set_flags (py_slice_from 1 arg) ad !! String c EmptyString = Some VTrue)
  /\ (parse_args ([] ++ "-p" :: "FS-QUERY-7701" :: ["--view-mode=audit"])).1 !! "p" = Some VTrue
  /\ "FS-QUERY-7701" ∈ (parse_args ([] ++ "-p" :: "FS-QUERY-7701" :: ["--view-mode=audit"])).2
  /\ forall s,
       py_or ((parse_args ([] ++ "-p" :: "FS-QUERY-7701" :: ["--view-mode=audit"])).1 !! "p")
             ((parse_args ([] ++ "-p" :: "FS-QUERY-7701" :: ["--view-mode=audit"])).1 !! "purpose")
       <> Some (VStr s)).
Proof.
  assert (H1 : py_startswith "-" "FS-QUERY-7701" = false) by reflexivity.
  assert (H2 : Forall (fun t => names_key "p" t = false) ["--view-mode=audit"])
    by (constructor; [reflexivity|constructor]).
  split; [split; assumption|]. exact (parse_args_dash_p [] _ _ H1 H2).
Defined.

(** C6 (authentication and identity): the halt path of
    [handle_shutdown], taken with [-f] or [--force], clears the
    authentication flag but keeps [user_id]: from a state where both
    are set, the process exits with status 0 in a state that is
    unauthenticated and still names the user ([handle_logout] clears
    both). *)
Theorem shutdown_keeps_user_id ad pa gif w u :
  py_truthy (py_or (ad !! "force") (ad !! "f")) = true ->
  is_authenticated (st w) = true -> user_id (st w) = Some u ->
  fst (handle_shutdown ad pa gif false w) = Exit 0
  /\ is_authenticated (st (snd (handle_shutdown ad pa gif false w))) = false
  /\ user_id (st (snd (handle_shutdown ad pa gif false w))) = Some u.
Proof.
  intros Hf _ Hu. rewrite <- Hu.
  exact (wp_result _ _ _ (handle_shutdown_forced_wp ad pa gif w Hf)).
Qed.

Lemma shutdown_keeps_user_id_witness :
  let w := alice_session_world [] 0 0 in
  let ad : args_dict := <["f" := VTrue]> ∅ in
  (py_truthy (py_or (ad !! "force") (ad !! "f")) = true /\
   is_authenticated (st w) = true /\ user_id (st w) = Some "alice") /\
  (fst (handle_shutdown ad [] handler_input false w) = Exit 0
   /\ is_authenticated (st (snd (handle_shutdown ad [] handler_input false w))) = false
   /\ user_id (st (snd (handle_shutdown ad [] handler_input false w))) = Some "alice").
Proof.
  cbv zeta. split; [split; [reflexivity|split; reflexivity]|].
  apply shutdown_keeps_user_id; reflexivity.
Defined.

(** C7 (backlog): [simulate_forwarding] always returns and adds exactly
    one to [pending_reviews]; no part of the engine (the mandate check,
    the boot, one iteration of the command loop, any number of them,
    the whole program) lowers it. *)
Theorem backlog_monotone :
  (forall k c d w, exists w', simulate_forwarding k c d w = (Ret tt, w')
     /\ pending_reviews (st w') = (pending_reviews (st w) + 1)%Z)
  /\ (forall cl, pmono (check_operational_mandate cl))
  /\ pmono initialize_system
  /\ pmono command_loop_step
  /\ (forall n, pmono (command_loop n))
  /\ (forall n, pmono (main_kos n)).
Proof.
  split; [|split; [exact pmono_check_operational_mandate|split; [exact pmono_initialize_system|]]].
  - intros k c d w. destruct (simulate_forwarding_spec k c d w) as (w' & E & S & _).
    exists w'. split; [exact E|]. rewrite S. reflexivity.
  - split; [exact pmono_command_loop_step|split; [exact pmono_command_loop|exact pmono_main_kos]].
Qed.

(** C8 (prime-minute rule): with clearance "FILESYSTEM" on the
    configured weekday and a prime minute, the evaluator denies, whatever
    the random draws; [mandate_is_prime], trial division up to the
    integer square root, decides primality exactly, so a minute below 2
    and the composite minute 4 never trigger the rule. *)
Theorem mandate_prime_minute_denies w :
  wt_weekday (wall w (mono w)) = LOCKOUT_PRIME_MINUTE_FILESYSTEM_DAY ->
  Z.prime (wt_minute (wall w (mono w))) ->
  fst (check_operational_mandate "FILESYSTEM" w) = Ret false
  /\ (forall m, mandate_is_prime m = true <-> Z.prime m)
  /\ (forall m, (m < 2)%Z -> mandate_is_prime m = false)
  /\ mandate_is_prime 4 = false.
Proof.
  intros Hday Hp. split; [|split; [exact mandate_is_prime_spec|split]].
  - apply (wp_result _ (fun o _ => o = Ret false)).
    apply check_operational_mandate_rule1; [exact Hday|]. apply mandate_is_prime_spec, Hp.
  - intros m Hm. unfold mandate_is_prime. destruct (Z.ltb_spec m 2); [reflexivity|lia].
  - reflexivity.
Qed.

Lemma mandate_prime_minute_denies_witness :
  let w := sample_world [] tuesday_prime_minute in
  (wt_weekday (wall w (mono w)) = LOCKOUT_PRIME_MINUTE_FILESYSTEM_DAY /\
   Z.prime (wt_minute (wall w (mono w)))) /\
  (fst (check_operational_mandate "FILESYSTEM" w) = Ret false
   /\ (forall m, mandate_is_prime m = true <-> Z.prime m)
   /\ (forall m, (m < 2)%Z -> mandate_is_prime m = false)
   /\ mandate_is_prime 4 = false).
Proof.
  cbv zeta.
  assert (H1 : wt_weekday (wall (sample_world [] tuesday_prime_minute)
                 (mono (sample_world [] tuesday_prime_minute)))
               = LOCKOUT_PRIME_MINUTE_FILESYSTEM_DAY) by reflexivity.
  assert (H2 : Z.prime (wt_minute (wall (sample_world [] tuesday_prime_minute)
                 (mono (sample_world [] tuesday_prime_minute)))))
    by (apply mandate_is_prime_spec; reflexivity).
  split; [split; assumption|]. exact (mandate_prime_minute_denies _ H1 H2).
Defined.

(** C9 (intent verification): [verify_action_intent] raises
    [TypeError] at its first time check, before it asks for the
    confirmation phrase: it never returns [false] (nor [true]), reads no
    input, forwards nothing and leaves the session state as it was. *)
Theorem verify_action_intent_type_error c gif rp pce rr w :
  fst (verify_action_intent c gif rp pce rr w) = Raise TypeError
  /\ quiet_step w (snd (verify_action_intent c gif rp pce rr w)).
Proof. exact (wp_result _ _ _ (verify_action_intent_wp c gif rp pce rr w)). Qed.

(** C10 (denials are reported): whenever the evaluator denies, exactly
    one audit event, tagged ARBITRARY_LOCKOUT, has been forwarded during
    the call, and the backlog is one higher. *)
Theorem mandate_denial_forwards_lockout cl w :
  fst (check_operational_mandate cl w) = Ret false ->
  fwd_step "ARBITRARY_LOCKOUT" w (snd (check_operational_mandate cl w)).
Proof.
  intros Hd. destruct (check_operational_mandate_outcome cl w) as [[_ H]|[E _]];
    [exact H|congruence].
Qed.

Lemma mandate_denial_forwards_lockout_witness :
  let w := sample_world [] tuesday_prime_minute in
  fst (check_operational_mandate "FILESYSTEM" w) = Ret false /\
  fwd_step "ARBITRARY_LOCKOUT" w (snd (check_operational_mandate "FILESYSTEM" w)).
Proof.
  cbv zeta.
  assert (H : fst (check_operational_mandate "FILESYSTEM" (sample_world [] tuesday_prime_minute))
              = Ret false) by (vm_compute; reflexivity).
  split; [exact H|]. exact (mandate_denial_forwards_lockout _ _ H).
Defined.

(* ================================================================== *)
(** * Further properties of the code *)


(** [command_loop] from a state where nobody is logged in: after any
    number of iterations nobody is logged in and the timer is still not
    started, and the loop either keeps going or has exited with status 0
    (never status 2, the timeout exit). *)
Theorem command_loop_never_logs_in n w :
  logged_out (st w) ->
  wp (command_loop n) (fun o w' => logged_out (st w') /\ loop_ok o) w.
Proof. apply command_loop_lo. Qed.

Lemma command_loop_never_logs_in_witness :
  wp (command_loop 2) (fun o w' => logged_out (st w') /\ loop_ok o)
     (sample_world [(0%Q, "klogin"); (0%Q, "alice")] tuesday_prime_minute).
Proof.
  apply command_loop_never_logs_in. split; [reflexivity|split; reflexivity].
Defined.

(** [main_kos.py] from a state where nobody is logged in: the script
    always returns normally and nobody is logged in at the end. *)
Theorem main_kos_never_logs_in n w :
  logged_out (st w) ->
  wp (main_kos n) (fun o w' => o = Ret tt /\ logged_out (st w')) w.
Proof.
  intros H. unfold main_kos. apply wp_bind, wp_try_except.
  unfold initialize_system. lo_tac.
  apply wp_try_finally, wp_try_except_exit.
  lo_prop.
  match goal with |- wp _ _ ?w0 =>
    assert (Hw : wp (command_loop n) (fun o w' => logged_out (st w') /\ loop_ok o) w0)
      by (apply command_loop_lo; lo_base) end.
  unfold wp in *.
  match goal with |- context [command_loop n ?w0] => destruct (command_loop n w0) as [o wl] end.
  destruct Hw as [Hl1 [-> | ->]]; cbv beta iota.
  - apply wp_quiet; [solve [eauto with quiet]|]. intros [] w' Hq. split; [reflexivity|].
    lo_prop; lo_base.
  - apply wp_bind. apply wp_quiet; [solve [eauto with quiet]|]. intros [] w' Hq. cbv beta iota.
    apply wp_quiet; [solve [eauto with quiet]|]. intros [] w'' Hq'. split; [reflexivity|].
    lo_prop; lo_base.
Qed.

Lemma main_kos_never_logs_in_witness :
  wp (main_kos 3) (fun o w' => o = Ret tt /\ logged_out (st w'))
     (sample_world [(0%Q, "klogin"); (0%Q, "alice")] tuesday_prime_minute).
Proof.
  apply main_kos_never_logs_in. split; [reflexivity|split; reflexivity].
Defined.

(** End of input at the command prompt: the iteration exits with
    status 0 through the forced halt, which forwards exactly one
    SHUTDOWN event, clears the authentication flag and logs the FATAL
    line "EOF detected. Initiating emergency halt.". *)
Theorem eof_at_prompt_halts w :
  budget_ok w -> inputs w = [] ->
  wp command_loop_step
     (fun o w' => o = Exit 0%Z /\ halt_step w w' /\
        exists n1 n2, trace w' = (trace w ++ n1 ++ EvLog "FATAL" "EOF detected. Initiating emergency halt." :: n2)%list) w.
Proof. apply command_loop_step_eof. Qed.

Lemma eof_at_prompt_halts_witness :
  wp command_loop_step
     (fun o w' => o = Exit 0%Z /\ halt_step (sample_world [] tuesday_prime_minute) w' /\
        exists n1 n2, trace w' = (trace (sample_world [] tuesday_prime_minute) ++ n1
                                  ++ EvLog "FATAL" "EOF detected. Initiating emergency halt." :: n2)%list)
     (sample_world [] tuesday_prime_minute).
Proof. apply eof_at_prompt_halts; [left; reflexivity|reflexivity]. Defined.

(** [main_kos.py] on an empty standard input: it boots, the first
    prompt meets end of input and halts; the script returns normally,
    nobody is logged in, exactly the BOOT and SHUTDOWN events are
    forwarded (backlog + 2), "Session terminated with exit code 0." is
    logged and "\nKafkaOS session ended." (a blank line, then the
    text) is the last thing printed. *)
Theorem main_kos_empty_input n w :
  logged_out (st w) -> inputs w = [] ->
  wp (main_kos (S n))
     (fun o w' => o = Ret tt /\ is_authenticated (st w') = false
        /\ pending_reviews (st w') = (pending_reviews (st w) + 2)%Z
        /\ exists new, trace w' = (trace w ++ new)%list /\ forwards new = ["BOOT"; "SHUTDOWN"]
           /\ In (EvLog "SYSTEM" "Session terminated with exit code 0.") new
           /\ last new = Some (EvPrint "
KafkaOS session ended.")) w.
Proof.
  intros Hlo Hin. unfold main_kos. apply wp_bind, wp_try_except.
  eapply wp_weaken; [apply initialize_system_wp|]. intros o1 w1 [-> Hf1]. cbv beta iota.
  apply wp_try_finally, wp_try_except_exit. simpl command_loop. apply wp_bind.
  assert (Hb : budget_ok w1).
  { left. destruct Hf1 as (S & _). rewrite S. destruct Hlo as (_ & _ & T). simpl. rewrite T. reflexivity. }
  assert (Hin1 : inputs w1 = []) by (destruct Hf1 as (_ & I & _); congruence).
  eapply wp_weaken; [apply (command_loop_step_eof w1 Hb Hin1)|]. intros o2 w2 [-> [Hh _]].
  cbv beta iota.
  apply wp_log_system_message_logs. intros w3 Hl3. cbv beta iota.
  unfold py_print, emit. apply wp_modify. split; [reflexivity|].
  destruct Hf1 as (S1 & I1 & n1 & T1 & F1). destruct Hh as (S2 & I2 & n2 & T2 & F2).
  destruct Hl3 as [(S3 & I3 & n3 & T3 & F3) (m1 & m2 & T3')].
  simpl. rewrite S3, S2, S1. split; [reflexivity|]. split; [simpl; lia|].
  exists (n1 ++ n2 ++ n3 ++ [EvPrint "
KafkaOS session ended."]). split.
  { rewrite T3, T2, T1, <- !app_assoc. reflexivity. }
  rewrite !forwards_app, F1, F2, F3. split; [reflexivity|]. split.
  { rewrite T3 in T3'. apply app_inv_head in T3'. rewrite T3'.
    rewrite !in_app_iff. simpl. tauto. }
  rewrite !app_assoc. apply last_snoc.
Qed.

Lemma main_kos_empty_input_witness :
  wp (main_kos 1)
     (fun o w' => o = Ret tt /\ is_authenticated (st w') = false
        /\ pending_reviews (st w') = (pending_reviews (st (sample_world [] tuesday_prime_minute)) + 2)%Z
        /\ exists new, trace w' = (trace (sample_world [] tuesday_prime_minute) ++ new)%list
           /\ forwards new = ["BOOT"; "SHUTDOWN"]
           /\ In (EvLog "SYSTEM" "Session terminated with exit code 0.") new
           /\ last new = Some (EvPrint "
KafkaOS session ended."))
     (sample_world [] tuesday_prime_minute).
Proof.
  apply (main_kos_empty_input 0); [split; [reflexivity|split; reflexivity]|reflexivity].
Defined.

(** The events of an iteration on [help]. *)
Lemma command_loop_step_help_events w dt line rest args :
  budget_ok w -> inputs w = (dt, line) :: rest ->
  py_split (py_strip line) = "help" :: args ->
  wp command_loop_step
     (fun o w' => o = Ret tt /\ inputs w' = rest /\
        st w' = with_last_command_ref (last_command_ref (st w')) (st w) /\
        exists new, trace w' = (trace w ++ new)%list /\ forwards new = [] /\
          In (EvLog "ERROR" "Runtime error during execution of 'help': {e}") new /\
          In (EvPrint "*** Error executing command 'help'. Consult system logs. ***") new) w.
Proof.
  intros Hb Hin Hsplit.
  assert (Hne : String.eqb (py_strip line) "" = false).
  { destruct (String.eqb_spec (py_strip line) "") as [E|E]; [|reflexivity].
    rewrite E in Hsplit. discriminate. }
  unfold command_loop_step. apply wp_bind. apply wp_check_time_limit_ok; [exact Hb|].
  intros w1 Hq1. cbv beta iota. apply wp_bind.
  apply (wp_get_user_input_line _ _ dt line rest).
  { destruct Hq1 as (_ & I & _). congruence. }
  intros w2 Hr2. cbv beta iota. rewrite Hne. cbv zeta. rewrite Hsplit.
  cbn [head tail default id]. change (lookup_command "help") with (Some HHelp).
  change (bool_decide (is_Some (Some HHelp))) with true.
  change (existsb (String.eqb "help") ["klogin"; "help"; "exit"; "shutdown"; "khalt"]) with true.
  cbn [andb negb].
  change (py_startswith "./" "help") with false. cbv iota.
  destruct (parse_args args) as [ad pos].
  apply wp_bind. apply wp_quiet; [solve [eauto with quiet]|]. intros u w3 Hq3.
  cbv beta iota. apply wp_bind, wp_modify. cbv beta iota. apply wp_get_bind.
  apply wp_bind. apply wp_quiet; [solve [eauto with quiet]|]. intros [] w4 Hq4.
  cbv beta iota. apply wp_try_except. cbn [call_handler]. apply wp_bind, wp_raise. cbv beta iota.
  apply wp_bind. apply wp_log_system_message_logs. intros w5 Hl5. cbv beta iota.
  unfold py_print, emit. apply wp_modify.
  unpack_steps. simpl in *.
  match goal with
  | H1 : trace ?w5 = (trace ?w4 ++ ?x3)%list,
    H2 : trace ?w5 = (trace ?w4 ++ ?x4 ++ ?e :: ?x5)%list |- _ =>
      rewrite H2 in H1; apply app_inv_head in H1; subst x3; rename H2 into Htr
  end.
  split; [reflexivity|]. split; [congruence|]. split.
  { match goal with |- st ?w5 = _ =>
      assert (Hs : st w5 = with_last_command_ref (Some ("CMD-" ++ py_slice_to 6 u)%string) (st w))
        by congruence; rewrite Hs; reflexivity end. }
  eexists. split.
  { repeat match goal with H : trace _ = _ |- _ => rewrite H; clear H end.
    rewrite <- !app_assoc. reflexivity. }
  rewrite !forwards_app in *. simpl in *.
  repeat match goal with H : forwards _ = [] |- _ => rewrite H; clear H end. simpl.
  split; [rewrite app_nil_r; assumption|]. split.
  - do 5 (apply in_or_app; right). left. reflexivity.
  - do 5 (apply in_or_app; right). right. apply in_or_app; right. left. reflexivity.
Qed.

(** The [help] command never prints the help text: its table entry does
    not accept the [get_input_func] keyword, so the call raises
    [TypeError]; the loop logs the runtime error, and the one line the
    iteration prints is the error banner.  It forwards nothing, changes
    only the command reference and goes on. *)
Theorem command_loop_step_help w dt line rest args :
  budget_ok w -> inputs w = (dt, line) :: rest ->
  py_split (py_strip line) = "help" :: args ->
  wp command_loop_step
     (fun o w' => o = Ret tt /\ inputs w' = rest /\
        st w' = with_last_command_ref (last_command_ref (st w')) (st w) /\
        exists new, trace w' = (trace w ++ new)%list /\ forwards new = [] /\
          prints new = ["*** Error executing command 'help'. Consult system logs. ***"] /\
          In (EvLog "ERROR" "Runtime error during execution of 'help': {e}") new) w.
Proof.
  intros Hb Hin Hsplit. eapply wp_weaken.
  { apply wp_and; [exact (command_loop_step_help_events w dt line rest args Hb Hin Hsplit)
                  |exact (command_loop_step_help_prints w dt line rest args Hb Hin Hsplit)]. }
  intros o w' ((-> & I & S & new & T & F & L & _) & (new' & T' & P)).
  rewrite T in T'. apply app_inv_head in T'. subst new'.
  split; [reflexivity|]. split; [exact I|]. split; [exact S|].
  exists new. split; [exact T|]. split; [exact F|]. split; [exact P|exact L].
Qed.

Lemma command_loop_step_help_witness :
  let w := sample_world [(0%Q, "help")] tuesday_prime_minute in
  (budget_ok w /\ inputs w = [(0%Q, "help")] /\ py_split (py_strip "help") = ["help"]) /\
  wp command_loop_step
     (fun o w' => o = Ret tt /\ inputs w' = [] /\
        st w' = with_last_command_ref (last_command_ref (st w')) (st w) /\
        exists new, trace w' = (trace w ++ new)%list /\ forwards new = [] /\
          prints new = ["*** Error executing command 'help'. Consult system logs. ***"] /\
          In (EvLog "ERROR" "Runtime error during execution of 'help': {e}") new) w.
Proof.
  cbv zeta. split; [split; [left; reflexivity|split; reflexivity]|].
  apply (command_loop_step_help _ 0%Q "help" [] []); [left; reflexivity|reflexivity|reflexivity].
Defined.

(** The authentication gate of [handle_ls]: without a session it only logs
    "Operation requires authentication. Use 'klogin'." and returns; with
    one it raises [TypeError] at its first time check, before any
    output. *)
Theorem handler_gate_ls ad pa gif w :
  if is_authenticated (st w) then handle_ls ad pa gif w = (Raise TypeError, w)
  else fst (handle_ls ad pa gif w) = Ret tt /\
       logs_step (EvLog "ERROR" "Operation requires authentication. Use 'klogin'.") w (snd (handle_ls ad pa gif w)).
Proof.
  destruct (is_authenticated (st w)) eqn:E.
  - unfold handle_ls. unfold mbind at 1. unfold M_bind at 1. unfold get at 1. rewrite E. reflexivity.
  - apply (wp_result _ (fun o w' => o = Ret tt /\ logs_step _ w w')). unfold handle_ls.
    apply wp_get_bind. rewrite E. cbn [negb]. apply wp_log_system_message_logs. auto.
Qed.

(** The authentication gate of [handle_exec]: without a session it only logs
    "Operation requires authentication. Use 'klogin'." and returns; with
    one it raises [TypeError] at its first time check, before any
    output. *)
Theorem handler_gate_exec ad pa gif w :
  if is_authenticated (st w) then handle_exec ad pa gif w = (Raise TypeError, w)
  else fst (handle_exec ad pa gif w) = Ret tt /\
       logs_step (EvLog "ERROR" "Operation requires authentication. Use 'klogin'.") w (snd (handle_exec ad pa gif w)).
Proof.
  destruct (is_authenticated (st w)) eqn:E.
  - unfold handle_exec. unfold mbind at 1. unfold M_bind at 1. unfold get at 1. rewrite E. reflexivity.
  - apply (wp_result _ (fun o w' => o = Ret tt /\ logs_step _ w w')). unfold handle_exec.
    apply wp_get_bind. rewrite E. cbn [negb]. apply wp_log_system_message_logs. auto.
Qed.

(** The authentication gate of [handle_status]: without a session it only logs
    "Operation requires authentication. Use 'klogin'." and returns; with
    one it raises [TypeError] at its first time check, before any
    output. *)
Theorem handler_gate_status ad pa gif w :
  if is_authenticated (st w) then handle_status ad pa gif w = (Raise TypeError, w)
  else fst (handle_status ad pa gif w) = Ret tt /\
       logs_step (EvLog "ERROR" "Operation requires authentication. Use 'klogin'.") w (snd (handle_status ad pa gif w)).
Proof.
  destruct (is_authenticated (st w)) eqn:E.
  - unfold handle_status. unfold mbind at 1. unfold M_bind at 1. unfold get at 1. rewrite E. reflexivity.
  - apply (wp_result _ (fun o w' => o = Ret tt /\ logs_step _ w w')). unfold handle_status.
    apply wp_get_bind. rewrite E. cbn [negb]. apply wp_log_system_message_logs. auto.
Qed.

(** [handle_shutdown] without [--force]/[-f] never halts: without a
    session it logs the refusal at ERROR and returns; with one it
    raises [TypeError] at its time check.  Nothing is forwarded either
    way. *)
Theorem shutdown_unforced ad pa gif w :
  py_truthy (py_or (ad !! "force") (ad !! "f")) = false ->
  wp (handle_shutdown ad pa gif false)
     (fun o w' => if is_authenticated (st w) then o = Raise TypeError /\ quiet_step w w'
                  else o = Ret tt /\
                       logs_step (EvLog "ERROR" "Shutdown requires authentication ('klogin') or '--force' / '-f' flag.") w w') w.
Proof.
  intros Hf. unfold handle_shutdown. cbv zeta. rewrite Hf. cbn [negb].
  apply wp_bind. apply wp_quiet; [solve [eauto with quiet]|]. intros [] w1 Hq1. cbv beta iota.
  apply wp_get_bind. rewrite andb_true_r.
  assert (E : is_authenticated (st w1) = is_authenticated (st w)) by (rewrite (quiet_step_st _ _ Hq1); reflexivity).
  rewrite E. destruct (is_authenticated (st w)); cbn [negb].
  - apply wp_bind, wp_call_check_time_limit_two. split; [reflexivity|exact Hq1].
  - apply wp_log_system_message_logs. intros w2 Hl. split; [reflexivity|]. eapply logs_step_quiet_l; eauto.
Qed.

Lemma shutdown_unforced_witness :
  wp (handle_shutdown ∅ [] handler_input false)
     (fun o w' => if is_authenticated (st (alice_session_world [] 1 1)) then
                    o = Raise TypeError /\ quiet_step (alice_session_world [] 1 1) w'
                  else o = Ret tt /\
                       logs_step (EvLog "ERROR" "Shutdown requires authentication ('klogin') or '--force' / '-f' flag.")
                         (alice_session_world [] 1 1) w')
     (alice_session_world [] 1 1).
Proof. apply shutdown_unforced. reflexivity. Defined.

(** [klogout] confirmed with "TERMINATE_SESSION": the answer is
    consumed, the user, the flag and the timer are cleared and exactly
    one AUTH event is forwarded. *)
Theorem logout_confirmed ad pa w dt line rest :
  is_authenticated (st w) = true -> inputs w = (dt, line) :: rest ->
  py_strip line = "TERMINATE_SESSION" ->
  wp (handle_logout ad pa handler_input)
     (fun o w' => o = Ret tt /\ inputs w' = rest /\
        st w' = with_session_start_time 0 (with_is_authenticated false (with_user_id None
                  (with_pending_reviews (pending_reviews (st w) + 1) (st w)))) /\
        exists new, trace w' = (trace w ++ new)%list /\ forwards new = ["AUTH"]) w.
Proof.
  intros Ha Hin Hl. unfold handle_logout, modify_st. apply wp_get_bind. rewrite Ha. cbn [negb]. cbv zeta.
  apply wp_bind. apply wp_quiet; [solve [eauto with quiet]|]. intros [] w1 Hq1. cbv beta iota.
  apply wp_bind. unfold handler_input. apply (wp_get_user_input_line_any _ _ _ dt line rest).
  { destruct Hq1 as (_ & I & _). congruence. }
  intros w2 Hr2. cbv beta iota. rewrite Hl. change (String.eqb "TERMINATE_SESSION" "TERMINATE_SESSION") with true. cbn [negb].
  wp_tac. destruct_unit. collapse.
  match goal with H : fwd_step "AUTH" w2 ?w4 |- _ => destruct H as (S3 & I3 & n3 & T3 & F3) end.
  destruct Hq1 as (S1 & I1 & n1 & T1 & F1). destruct Hr2 as (S2 & I2 & n2 & T2 & F2).
  simpl. split; [reflexivity|]. split; [congruence|]. split.
  - rewrite S3, S2, S1. reflexivity.
  - exists (n1 ++ n2 ++ n3). rewrite T3, T2, T1, <- !app_assoc, !forwards_app, F1, F2, F3. done.
Qed.

Lemma logout_confirmed_witness :
  let w := alice_session_world [(0%Q, "TERMINATE_SESSION")] 1 1 in
  wp (handle_logout ∅ [] handler_input)
     (fun o w' => o = Ret tt /\ inputs w' = [] /\
        st w' = with_session_start_time 0 (with_is_authenticated false (with_user_id None
                  (with_pending_reviews (pending_reviews (st w) + 1) (st w)))) /\
        exists new, trace w' = (trace w ++ new)%list /\ forwards new = ["AUTH"]) w.
Proof. intros w. apply (logout_confirmed _ _ _ 0%Q "TERMINATE_SESSION" []); reflexivity. Defined.

(** [klogout] answered with anything but "TERMINATE_SESSION": the answer
    is consumed, the session state is unchanged, nothing is forwarded
    and "Logout aborted by user." is logged at WARN. *)
Theorem logout_not_confirmed ad pa w dt line rest :
  is_authenticated (st w) = true -> inputs w = (dt, line) :: rest ->
  py_strip line <> "TERMINATE_SESSION" ->
  wp (handle_logout ad pa handler_input)
     (fun o w' => o = Ret tt /\ inputs w' = rest /\ st w' = st w /\
        exists new, trace w' = (trace w ++ new)%list /\ forwards new = [] /\
          In (EvLog "WARN" "Logout aborted by user.") new) w.
Proof.
  intros Ha Hin Hl. unfold handle_logout. apply wp_get_bind. rewrite Ha. cbn [negb]. cbv zeta.
  apply wp_bind. apply wp_quiet; [solve [eauto with quiet]|]. intros [] w1 Hq1. cbv beta iota.
  apply wp_bind. unfold handler_input. apply (wp_get_user_input_line_any _ _ _ dt line rest).
  { destruct Hq1 as (_ & I & _). congruence. }
  intros w2 Hr2. cbv beta iota.
  destruct (String.eqb_spec (py_strip line) "TERMINATE_SESSION") as [E|_]; [contradiction|].
  cbn [negb]. apply wp_log_system_message_logs. intros w3 [Hq3 (m1 & m2 & T3')].
  destruct Hq1 as (S1 & I1 & n1 & T1 & F1). destruct Hr2 as (S2 & I2 & n2 & T2 & F2).
  destruct Hq3 as (S3 & I3 & n3 & T3 & F3).
  split; [reflexivity|]. split; [congruence|]. split; [congruence|].
  exists (n1 ++ n2 ++ n3). rewrite T3, T2, T1, <- !app_assoc, !forwards_app, F1, F2, F3.
  split; [reflexivity|]. split; [reflexivity|].
  rewrite T3 in T3'. apply app_inv_head in T3'. rewrite T3', !in_app_iff. simpl. tauto.
Qed.

Lemma logout_not_confirmed_witness :
  let w := alice_session_world [(0%Q, "no")] 1 1 in
  wp (handle_logout ∅ [] handler_input)
     (fun o w' => o = Ret tt /\ inputs w' = [] /\ st w' = st w /\
        exists new, trace w' = (trace w ++ new)%list /\ forwards new = [] /\
          In (EvLog "WARN" "Logout aborted by user.") new) w.
Proof.
  intros w. apply (logout_not_confirmed _ _ _ 0%Q "no" []); [reflexivity|reflexivity|].
  intros H. vm_compute in H. discriminate H.
Defined.

(** [klogout] without a session only warns "No active session found to
    terminate." and changes nothing. *)
Theorem logout_no_session ad pa gif w :
  is_authenticated (st w) = false ->
  fst (handle_logout ad pa gif w) = Ret tt /\
  logs_step (EvLog "WARN" "No active session found to terminate.") w (snd (handle_logout ad pa gif w)).
Proof.
  intros Ha. apply (wp_result _ (fun o w' => o = Ret tt /\ logs_step _ w w')). unfold handle_logout.
  apply wp_get_bind. rewrite Ha. cbn [negb]. apply wp_log_system_message_logs. auto.
Qed.

Lemma logout_no_session_witness :
  fst (handle_logout ∅ [] handler_input (sample_world [] tuesday_prime_minute)) = Ret tt /\
  logs_step (EvLog "WARN" "No active session found to terminate.") (sample_world [] tuesday_prime_minute)
    (snd (handle_logout ∅ [] handler_input (sample_world [] tuesday_prime_minute))).
Proof. apply logout_no_session. reflexivity. Defined.

(** [sleep_random(ms)] with a draw in [0, 1) returns, changes neither the
    session state nor the input, and advances the monotonic clock by at
    least (ms + 50)/1000 and less than (ms + 300)/1000 seconds. *)
Theorem sleep_random_advances_clock ms w :
  (0 <= rng w (rng_pos w) < 1)%Q ->
  fst (sleep_random ms w) = Ret tt /\
  st (snd (sleep_random ms w)) = st w /\
  inputs (snd (sleep_random ms w)) = inputs w /\
  ((inject_Z ms + 50) / 1000 <= mono (snd (sleep_random ms w)) - mono w
     < (inject_Z ms + 300) / 1000)%Q.
Proof. apply sleep_random_clock. Qed.

Lemma sleep_random_advances_clock_witness :
  fst (sleep_random 800 (sample_world [] tuesday_prime_minute)) = Ret tt /\
  st (snd (sleep_random 800 (sample_world [] tuesday_prime_minute))) = st (sample_world [] tuesday_prime_minute) /\
  inputs (snd (sleep_random 800 (sample_world [] tuesday_prime_minute))) = [] /\
  ((inject_Z 800 + 50) / 1000 <= mono (snd (sleep_random 800 (sample_world [] tuesday_prime_minute)))
     - mono (sample_world [] tuesday_prime_minute) < (inject_Z 800 + 300) / 1000)%Q.
Proof.
  apply sleep_random_advances_clock. split; [apply Qle_bool_iff; reflexivity|reflexivity].
Defined.

(** Every log line costs the session time: [log_system_message] with a
    draw in [0, 1) returns, leaves the session state alone and advances
    the monotonic clock by at least 0.25 and less than 0.5 seconds. *)
Theorem log_system_message_clock msg lvl w :
  (0 <= rng w (rng_pos w) < 1)%Q ->
  fst (log_system_message msg lvl w) = Ret tt /\
  st (snd (log_system_message msg lvl w)) = st w /\
  ((1 # 4) <= mono (snd (log_system_message msg lvl w)) - mono w < 1 # 2)%Q.
Proof.
  intros Hr.
  change (log_system_message msg lvl w)
    with (sleep_random BASE_MSG_DELAY_MS (add_event (EvLog lvl msg) w)).
  destruct (sleep_random_clock BASE_MSG_DELAY_MS (add_event (EvLog lvl msg) w) Hr)
    as (H1 & H2 & _ & H3 & H4).
  split; [exact H1|]. split; [exact H2|].
  change (mono (add_event (EvLog lvl msg) w)) with (mono w) in H3, H4.
  assert (E1 : ((inject_Z BASE_MSG_DELAY_MS + 50) / 1000 == 1 # 4)%Q) by reflexivity.
  assert (E2 : ((inject_Z BASE_MSG_DELAY_MS + 300) / 1000 == 1 # 2)%Q) by reflexivity.
  rewrite E1 in H3. rewrite E2 in H4. exact (conj H3 H4).
Qed.

Lemma log_system_message_clock_witness :
  fst (log_system_message "m" "INFO" (sample_world [] tuesday_prime_minute)) = Ret tt /\
  st (snd (log_system_message "m" "INFO" (sample_world [] tuesday_prime_minute)))
    = st (sample_world [] tuesday_prime_minute) /\
  ((1 # 4) <= mono (snd (log_system_message "m" "INFO" (sample_world [] tuesday_prime_minute)))
     - mono (sample_world [] tuesday_prime_minute) < 1 # 2)%Q.
Proof.
  apply log_system_message_clock. split; [apply Qle_bool_iff; reflexivity|reflexivity].
Defined.

(** [perform_simulated_check] never fails: it always returns [True] with
    the code "<first three letters of the name, upper-cased>-<first six
    characters of the next uuid>", and it forwards nothing and changes
    neither the session state nor the input. *)
Theorem perform_simulated_check_ok n ms w :
  fst (perform_simulated_check n ms w)
  = Ret (true, (py_upper (py_slice_to 3 n) ++ "-" ++ py_slice_to 6 (uuids w (uuid_pos w)))%string)
  /\ quiet_step w (snd (perform_simulated_check n ms w)).
Proof.
  split; [reflexivity|].
  destruct (quiet_perform_simulated_check n ms w) as (a & w' & E & Hq). rewrite E. exact Hq.
Qed.

(** The mandate with a backlog of at most 10 and rule 1 not applying: it
    denies exactly when one random draw is below 0.05; that draw is the
    second one the evaluator makes (the fourth when the backlog is above
    5 and the friction delay draws too). *)
Theorem mandate_low_backlog cl w :
  (pending_reviews (st w) <= 10)%Z ->
  ~ (cl = "FILESYSTEM" /\ wt_weekday (wall w (mono w)) = LOCKOUT_PRIME_MINUTE_FILESYSTEM_DAY
     /\ mandate_is_prime (wt_minute (wall w (mono w))) = true) ->
  fst (check_operational_mandate cl w)
  = Ret (negb (Qlt_b (rng w (rng_pos w + if (HIGH_FRICTION_REVIEW_THRESHOLD <? pending_reviews (st w))%Z then 3 else 1))
                 LOCKOUT_RANDOM_FAILURE_CHANCE)).
Proof.
  intros Hp Hr1. apply (wp_result _ (fun o _ => o = _)).
  unfold check_operational_mandate. apply wp_get_bind. cbv zeta.
  assert (Hrule1 : (String.eqb cl "FILESYSTEM" && (wt_weekday (wall w (mono w)) =? LOCKOUT_PRIME_MINUTE_FILESYSTEM_DAY)%Z
     && mandate_is_prime (wt_minute (wall w (mono w)))) = false).
  { destruct (String.eqb_spec cl "FILESYSTEM"); [|reflexivity].
    destruct (Z.eqb_spec (wt_weekday (wall w (mono w))) LOCKOUT_PRIME_MINUTE_FILESYSTEM_DAY); [|reflexivity].
    destruct (mandate_is_prime _); [|reflexivity]. exfalso; tauto. }
  assert (H10 : (10 <? pending_reviews (st w))%Z = false) by (apply Z.ltb_ge; lia).
  rewrite H10.
  apply wp_bind, wp_log_draws. intros w1 (R1 & P1 & S1 & U1). cbv beta iota.
  apply wp_bind, wp_friction_draws. intros w2 (R2 & P2 & S2 & U2). cbv beta iota.
  rewrite S1 in P2.
  destruct (String.eqb cl "FILESYSTEM" && (wt_weekday (wall w (mono w)) =? LOCKOUT_PRIME_MINUTE_FILESYSTEM_DAY)%Z) eqn:Ea.
  - cbn [andb] in Hrule1. rewrite Hrule1.
    apply wp_bind, wp_py_random_draws. intros w3 (R3 & P3 & S3 & U3). cbv beta iota.
    assert (Er : rng w2 (rng_pos w2) = rng w (rng_pos w + if (HIGH_FRICTION_REVIEW_THRESHOLD <? pending_reviews (st w))%Z then 3 else 1)).
    { rewrite R2, R1, P2, P1. f_equal. destruct (HIGH_FRICTION_REVIEW_THRESHOLD <? pending_reviews (st w))%Z; lia. }
    rewrite Er. destruct (Qlt_b _ _).
    + apply wp_bind. apply wp_quiet; [solve [eauto with quiet]|]. intros u w4 _. apply wp_mandate_deny_false.
    + apply wp_bind, wp_log_draws. intros. reflexivity.
  - apply wp_bind, wp_py_random_draws. intros w3 (R3 & P3 & S3 & U3). cbv beta iota.
    assert (Er : rng w2 (rng_pos w2) = rng w (rng_pos w + if (HIGH_FRICTION_REVIEW_THRESHOLD <? pending_reviews (st w))%Z then 3 else 1)).
    { rewrite R2, R1, P2, P1. f_equal. destruct (HIGH_FRICTION_REVIEW_THRESHOLD <? pending_reviews (st w))%Z; lia. }
    rewrite Er. destruct (Qlt_b _ _).
    + apply wp_bind. apply wp_quiet; [solve [eauto with quiet]|]. intros u w4 _. apply wp_mandate_deny_false.
    + apply wp_bind, wp_log_draws. intros. reflexivity.
Qed.

Lemma mandate_low_backlog_witness :
  fst (check_operational_mandate "STANDARD" (sample_world [] tuesday_prime_minute)) = Ret true.
Proof.
  apply (mandate_low_backlog "STANDARD" (sample_world [] tuesday_prime_minute)).
  - apply Z.leb_le. reflexivity.
  - intros (H & _). discriminate H.
Defined.

(** [check_time_limit] within the budget: with the timer not started it
    does nothing at all; otherwise it returns after one log line, at WARN
    once more than 144 s (80% of 180 s) have elapsed and at DEBUG before,
    and the session state and the input are unchanged. *)
Theorem check_time_limit_within s w :
  budget_ok w ->
  if Qeq_bool (session_start_time (st w)) 0 then check_time_limit s w = (Ret tt, w)
  else fst (check_time_limit s w) = Ret tt /\
       st (snd (check_time_limit s w)) = st w /\
       inputs (snd (check_time_limit s w)) = inputs w /\
       exists msg d, trace (snd (check_time_limit s w))
         = trace w ++ [EvLog (if Qlt_b 144 (mono w - session_start_time (st w)) then "WARN" else "DEBUG") msg;
                       EvSleep d].
Proof.
  intros Hb. unfold check_time_limit. change ((get ≫= ?f) w) with (f w w). cbv beta zeta.
  destruct (Qeq_bool (session_start_time (st w)) 0) eqn:E0; [reflexivity|].
  destruct Hb as [Hb|Hb]; [congruence|].
  rewrite <- (Qlt_b_warn_threshold (mono w - session_start_time (st w))).
  destruct (Qlt_b (inject_Z TIME_LIMIT_SECONDS * (4 # 5)) _); cbn - [Qlt_b]; rewrite Hb;
    (split; [reflexivity|split; [reflexivity|split; [reflexivity|]]]); do 2 eexists; cbn;
    unfold log_system_message, sleep_random, random_delay, py_random, emit, modify, get, mbind, M_bind, mret, M_ret; cbn; rewrite <- app_assoc; reflexivity.
Qed.

Lemma check_time_limit_within_witness :
  if Qeq_bool (session_start_time (st (alice_session_world [] 1 151))) 0
  then check_time_limit "Idle State" (alice_session_world [] 1 151) = (Ret tt, alice_session_world [] 1 151)
  else fst (check_time_limit "Idle State" (alice_session_world [] 1 151)) = Ret tt /\
       st (snd (check_time_limit "Idle State" (alice_session_world [] 1 151))) = st (alice_session_world [] 1 151) /\
       inputs (snd (check_time_limit "Idle State" (alice_session_world [] 1 151))) = [] /\
       exists msg d, trace (snd (check_time_limit "Idle State" (alice_session_world [] 1 151)))
         = trace (alice_session_world [] 1 151) ++ [EvLog (if Qlt_b 144 (151 - 1) then "WARN" else "DEBUG") msg;
                                                    EvSleep d].
Proof. apply check_time_limit_within. right. reflexivity. Defined.

(** A log line followed by a sleep of [ms] milliseconds, with every
    draw in [0, 1): it returns, leaves the session state, the input and
    the random source alone, and takes at least 0.25 + (ms + 50)/1000
    and less than 0.5 + (ms + 300)/1000 seconds. *)
Lemma log_then_sleep_clock msg lvl ms w :
  (forall i, 0 <= rng w i < 1)%Q ->
  fst ((log_system_message msg lvl;; sleep_random ms) w) = Ret tt /\
  st (snd ((log_system_message msg lvl;; sleep_random ms) w)) = st w /\
  inputs (snd ((log_system_message msg lvl;; sleep_random ms) w)) = inputs w /\
  ((1 # 4) + (inject_Z ms + 50) / 1000
     <= mono (snd ((log_system_message msg lvl;; sleep_random ms) w)) - mono w
     < (1 # 2) + (inject_Z ms + 300) / 1000)%Q.
Proof.
  intros Hr.
  change ((log_system_message msg lvl;; sleep_random ms) w) with
    (match sleep_random BASE_MSG_DELAY_MS (add_event (EvLog lvl msg) w) with
     | (Ret _, w') => sleep_random ms w'
     | (Raise e, w') => (Raise e, w')
     | (Exit c, w') => (Exit c, w')
     end).
  destruct (sleep_random_clock BASE_MSG_DELAY_MS (add_event (EvLog lvl msg) w) (Hr _))
    as (H1 & H2 & H3 & H4).
  assert (R1 : rng (snd (sleep_random BASE_MSG_DELAY_MS (add_event (EvLog lvl msg) w))) = rng w)
    by reflexivity.
  destruct (sleep_random BASE_MSG_DELAY_MS (add_event (EvLog lvl msg) w)) as [o w1].
  cbn [fst snd] in H1, H2, H3, H4, R1. subst o.
  change (mono (add_event (EvLog lvl msg) w)) with (mono w) in H4.
  destruct (sleep_random_clock ms w1) as (G1 & G2 & G3 & G4).
  { rewrite R1. apply Hr. }
  split; [exact G1|]. split; [rewrite G2; exact H2|]. split; [rewrite G3; exact H3|].
  assert (E1 : ((inject_Z BASE_MSG_DELAY_MS + 50) / 1000 == 1 # 4)%Q) by reflexivity.
  assert (E2 : ((inject_Z BASE_MSG_DELAY_MS + 300) / 1000 == 1 # 2)%Q) by reflexivity.
  rewrite E1, E2 in H4. revert G4 H4.
  generalize ((inject_Z ms + 50) / 1000)%Q ((inject_Z ms + 300) / 1000)%Q.
  generalize (mono (snd (sleep_random ms w1))) (mono w1). intros m2 m1 a b [Ga Gb] [Ha Hb].
  split; lra.
Qed.

(** [apply_procedural_friction] with every draw in [0, 1) always
    returns and leaves the session state and the input alone; with a
    backlog above 5 it holds the session up (a WARN line, then a sleep of
    800 ms plus its random extra) by at least 1.1 and less than 1.6
    seconds, and with a backlog of at most 5 it takes no time. *)
Theorem apply_procedural_friction_delay r w :
  (forall i, 0 <= rng w i < 1)%Q ->
  fst (apply_procedural_friction r w) = Ret tt /\
  st (snd (apply_procedural_friction r w)) = st w /\
  inputs (snd (apply_procedural_friction r w)) = inputs w /\
  (if (HIGH_FRICTION_REVIEW_THRESHOLD <? pending_reviews (st w))%Z
   then 11 # 10 <= mono (snd (apply_procedural_friction r w)) - mono w < 8 # 5
   else mono (snd (apply_procedural_friction r w)) = mono w)%Q.
Proof.
  intros Hr. unfold apply_procedural_friction. change ((get ≫= ?f) w) with (f w w). cbv beta zeta.
  destruct (HIGH_FRICTION_REVIEW_THRESHOLD <? pending_reviews (st w))%Z;
    [|repeat split; reflexivity].
  match goal with
  | |- context [(log_system_message ?m ?l;; sleep_random ?ms) w] =>
      destruct (log_then_sleep_clock m l ms w Hr) as (H1 & H2 & H3 & H4)
  end.
  split; [exact H1|]. split; [exact H2|]. split; [exact H3|].
  assert (E1 : ((1 # 4) + (inject_Z BASE_CHECK_DELAY_SHORT_MS + 50) / 1000 == 11 # 10)%Q)
    by reflexivity.
  assert (E2 : ((1 # 2) + (inject_Z BASE_CHECK_DELAY_SHORT_MS + 300) / 1000 == 8 # 5)%Q)
    by reflexivity.
  rewrite E1, E2 in H4. exact H4.
Qed.

Lemma apply_procedural_friction_delay_witness :
  let w := set_st (with_pending_reviews 6 initial_os_state) (sample_world [] tuesday_prime_minute) in
  (forall i, 0 <= rng w i < 1)%Q /\
  fst (apply_procedural_friction "Mandate Compliance Check" w) = Ret tt /\
  st (snd (apply_procedural_friction "Mandate Compliance Check" w)) = st w /\
  inputs (snd (apply_procedural_friction "Mandate Compliance Check" w)) = inputs w /\
  (if (HIGH_FRICTION_REVIEW_THRESHOLD <? pending_reviews (st w))%Z
   then 11 # 10 <= mono (snd (apply_procedural_friction "Mandate Compliance Check" w)) - mono w < 8 # 5
   else mono (snd (apply_procedural_friction "Mandate Compliance Check" w)) = mono w)%Q.
Proof.
  cbv zeta.
  assert (Hr : forall i, (0 <= rng (set_st (with_pending_reviews 6 initial_os_state)
                                      (sample_world [] tuesday_prime_minute)) i < 1)%Q)
    by (intros i; cbn; split; lra).
  split; [exact Hr|]. apply apply_procedural_friction_delay. exact Hr.
Defined.

(** Double-dash options, for a key without '=': "--key=value" stores the
    text after the first '=' (which may contain more '='); "--key value"
    consumes the value when it does not start with '-'; before a token
    starting with '-', or at the end, "--key" stores [True]. *)
Theorem parse_args_long_options k v rest ad pos :
  contains_char "=" k = false ->
  parse_args_loop (("--" ++ k ++ "=" ++ v)%string :: rest) ad pos
    = parse_args_loop rest (<[k := VStr v]> ad) pos /\
  (py_startswith "-" v = false ->
   parse_args_loop (("--" ++ k)%string :: v :: rest) ad pos
     = parse_args_loop rest (<[k := VStr v]> ad) pos) /\
  (py_startswith "-" v = true ->
   parse_args_loop (("--" ++ k)%string :: v :: rest) ad pos
     = parse_args_loop (v :: rest) (<[k := VTrue]> ad) pos) /\
  parse_args_loop [("--" ++ k)%string] ad pos = (<[k := VTrue]> ad, pos).
Proof.
  intros Hk.
  assert (Hpre : forall t, py_startswith "--" ("--" ++ t) = true).
  { intros t. change ("--" ++ t)%string with (String "-"%char (String "-"%char t)). destruct t; reflexivity. }
  assert (Hc : contains_char "=" ("--" ++ k) = false) by (cbn; exact Hk).
  split; [|split; [|split]].
  - cbn [parse_args_loop]. rewrite Hpre.
    replace (contains_char "=" ("--" ++ k ++ "=" ++ v)) with true
      by (change ("--" ++ k ++ "=" ++ v)%string with (("--" ++ k) ++ String "=" v)%string;
          rewrite contains_char_app; destruct (contains_char "=" ("--" ++ k)%string); reflexivity).
    change ("--" ++ k ++ "=" ++ v)%string with (("--" ++ k) ++ String "=" v)%string.
    rewrite split_once_app by exact Hc. rewrite py_slice_from_dashes. reflexivity.
  - intros Hv. cbn [parse_args_loop]. rewrite Hpre, Hc, Hv. cbn [negb].
    rewrite py_slice_from_dashes. reflexivity.
  - intros Hv. cbn [parse_args_loop]. rewrite Hpre, Hc, Hv. cbn [negb].
    rewrite py_slice_from_dashes. reflexivity.
  - cbn [parse_args_loop]. rewrite Hpre, Hc, py_slice_from_dashes. reflexivity.
Qed.

Lemma parse_args_long_options_witness :
  parse_args_loop ["--user=a=b"; "x"] ∅ []
    = parse_args_loop ["x"] (<["user" := VStr "a=b"]> ∅) [] /\
  (py_startswith "-" "a=b" = false ->
   parse_args_loop ["--user"; "a=b"; "x"] ∅ [] = parse_args_loop ["x"] (<["user" := VStr "a=b"]> ∅) []) /\
  (py_startswith "-" "a=b" = true ->
   parse_args_loop ["--user"; "a=b"; "x"] ∅ [] = parse_args_loop ["a=b"; "x"] (<["user" := VTrue]> ∅) []) /\
  parse_args_loop ["--user"] ∅ [] = (<["user" := VTrue]> ∅, []).
Proof. apply (parse_args_long_options "user" "a=b" ["x"] ∅ []). reflexivity. Defined.

(** Arguments none of which starts with '-' are all positional, in
    order, and set no option. *)
Theorem parse_args_positional_only l :
  Forall (fun t => py_startswith "-" t = false) l -> parse_args l = (∅, l).
Proof.
  intros Hl. unfold parse_args. change l with ([] ++ l) at 2.
  generalize (@nil string) as pos. induction Hl as [|t l Ht Hl IH]; intros pos.
  - rewrite !app_nil_r. reflexivity.
  - cbn [parse_args_loop].
    assert (Hdd : py_startswith "--" t = false).
    { destruct (py_startswith "--" t) eqn:E; [|reflexivity].
      apply py_startswith_dash_dash in E. congruence. }
    rewrite Hdd, Ht. rewrite IH. rewrite <- app_assoc. reflexivity.
Qed.

Lemma parse_args_positional_only_witness : parse_args ["a.txt"; "b"] = (∅, ["a.txt"; "b"]).
Proof.
  apply parse_args_positional_only.
  constructor; [reflexivity|constructor; [reflexivity|constructor]].
Defined.

(** The command table lookup ignores case ("KLOGIN" finds [klogin]),
    and every word starting with "./" runs [handle_exec]. *)
Theorem lookup_command_case_insensitive s :
  lookup_command (py_upper s) = lookup_command s /\ lookup_command ("./" ++ s) = Some HExec.
Proof.
  split.
  - unfold lookup_command. rewrite py_startswith_dot_slash_upper, py_lower_upper. reflexivity.
  - destruct s; reflexivity.
Qed.

(** A line of blanks at the prompt is consumed and skipped: the session
    state is unchanged and nothing is forwarded. *)
Theorem command_loop_step_blank w dt line rest :
  budget_ok w -> inputs w = (dt, line) :: rest ->
  forallb is_py_space (list_ascii_of_string line) = true ->
  wp command_loop_step
     (fun o w' => o = Ret tt /\ inputs w' = rest /\ st w' = st w /\
        exists new, trace w' = (trace w ++ new)%list /\ forwards new = []) w.
Proof.
  intros Hb Hin Hsp.
  unfold command_loop_step. apply wp_bind. apply wp_check_time_limit_ok; [exact Hb|].
  intros w1 Hq1. cbv beta iota. apply wp_bind.
  apply (wp_get_user_input_line _ _ dt line rest).
  { destruct Hq1 as (_ & I & _). congruence. }
  intros w2 Hr2. cbv beta iota. rewrite py_strip_spaces by exact Hsp.
  apply wp_ret. destruct Hq1 as (S1 & _ & n1 & T1 & F1). destruct Hr2 as (S2 & I2 & n2 & T2 & F2).
  split; [reflexivity|]. split; [exact I2|]. split; [congruence|].
  exists (n1 ++ n2). rewrite T2, T1, app_assoc, forwards_app, F1, F2. done.
Qed.

Lemma command_loop_step_blank_witness :
  wp command_loop_step
     (fun o w' => o = Ret tt /\ inputs w' = [] /\ st w' = st (sample_world [(0%Q, "   ")] tuesday_prime_minute) /\
        exists new, trace w' = (trace (sample_world [(0%Q, "   ")] tuesday_prime_minute) ++ new)%list
                    /\ forwards new = [])
     (sample_world [(0%Q, "   ")] tuesday_prime_minute).
Proof. apply (command_loop_step_blank _ 0%Q "   " []); [left; reflexivity|reflexivity|reflexivity]. Defined.

(** [simulate_forwarding] hands the event off before it acknowledges,
    and the acknowledgement reports the backlog the call leaves behind:
    the backlog grows by one, and after the one forwarded event the log
    has "AUDIT: Ack received from '<reviewer>'. Pending Reviews: <n>"
    where <n> is the backlog of the final session state ('Default
    Audit Sink' being the reviewer of a key missing from
    REVIEW_ENTITIES); nothing is forwarded after it. *)
Theorem simulate_forwarding_ack_reports_backlog k c d w :
  exists w', simulate_forwarding k c d w = (Ret tt, w')
    /\ pending_reviews (st w') = (pending_reviews (st w) + 1)%Z
    /\ exists n1 n2, trace w' = (trace w ++ n1 ++
         EvLog "INFO" ("AUDIT: Ack received from '"
                       ++ default "Default Audit Sink" (assoc_get k REVIEW_ENTITIES)
                       ++ "'. Pending Reviews: " ++ z_to_string (pending_reviews (st w')))%string
         :: n2)%list
       /\ forwards n1 = [k] /\ forwards n2 = [].
Proof.
  unfold simulate_forwarding, log_system_message, sleep_random, random_delay, py_random, pseudo_uuid,
    modify_st, emit, modify, get, mbind, M_bind, mret, M_ret.
  cbn. eexists. split; [reflexivity|]. split; [reflexivity|].
  refine (ex_intro _ (_ :: _ :: _ :: _ :: []) (ex_intro _ (_ :: []) _)). cbn.
  rewrite <- !app_assoc. cbn. split; [reflexivity|]. split; reflexivity.
Qed.



(** [initialize_system] always returns, after forwarding exactly one
    BOOT event; nothing else in the session state changes but the
    backlog, by one. *)
Theorem boot_forwards_once w :
  wp initialize_system (fun o w' => o = Ret tt /\ fwd_step "BOOT" w w') w.
Proof. apply initialize_system_wp. Qed.
